(** * RAG query orchestration: a shallow embedding of
    [src/lib/rag/services/rag-orchestrator.service.ts]

    The orchestrator is asynchronous TypeScript that calls external
    collaborators (search, rerank, compress, grade, source building, answer
    generation, metadata tracker).  It is embedded here as a small
    trace-and-exception monad: every collaborator call is appended to a
    trace, and the reply of a collaborator is an oracle that may depend on
    the whole history of calls, so stateful collaborators are covered.
    Console logging, the correlation id and wall-clock metrics have no
    effect on the result and are left out.

    JavaScript strings are kept as the byte strings of their UTF-8 encoding;
    JavaScript numbers that hold page numbers, page counts and delays are
    kept as integers. *)

From Stdlib Require Import ZArith QArith Ascii String DecimalString Lia.
From stdpp Require Import base decidable option list strings gmap.

Local Open Scope Z_scope.
Local Open Scope string_scope.
Local Open Scope list_scope.

(** ** Data model *)

(** [SearchResult] of [../types/rag-types]: the fields the orchestrator
    reads.  [similarity] is a JavaScript number, kept as a rational; chunk
    [metadata] is arbitrary and never inspected, kept as an opaque string. *)
Record SearchResult := mkSearchResult {
  documentId : string;
  chunkId : string;
  content : string;
  similarity : option Q;
  metadata : string
}.

(** [AccessibleDocument] of [../document-permissions]: id, display name and
    page count; the last two may be absent ([doc.numPages || 0],
    [doc.documentName || 'Unknown Document']). *)
Record AccessibleDocument := mkAccessibleDocument {
  docDocumentId : string;
  documentName : option string;
  numPages : option Z
}.

Inductive SearchStrategy :=
| FastVectorSearch
| StandardVectorSearch
| ExpandedSearch
| PageQueryStrategy.

Inductive ComplexityLevel := low | medium | high.

Record ComplexityAnalysis := mkComplexityAnalysis {
  complexityScore : Q;
  complexityLevel : ComplexityLevel;
  wordCount : Z
}.

Inductive Intent :=
| extraction | summarization | comparison | concept_explanation
| analysis | verification | general_inquiry.

(** The part of [UnifiedQueryAnalysisResult['queryRewriting']] the
    orchestrator reads.  Elements of [rewrittenQueries] may be [undefined]
    (the code filters them out). *)
Record QueryRewriting := mkQueryRewriting {
  rewrittenQueries : option (list (option string));
  hydeAnswer : option string;
  requiresHyde : option bool
}.

Record QueryExtraction := mkQueryExtraction {
  pageNumbers : list Z;
  keywords : list string;
  queryRewriting : option QueryRewriting
}.

(** An [AbortSignal] is either an object owned by the caller or the result of
    [AbortSignal.timeout(ms)]. *)
Inductive AbortSignal :=
| CallerSignal (id : nat)
| TimeoutSignal (ms : Z).

Record ChatMetadataTracker := mkTracker { trackerId : nat }.

Definition UIMessage := string.

Record PipelineContext := mkPipelineContext {
  query : string;
  dataroomId : string;
  indexedDocuments : list AccessibleDocument;
  messages : list UIMessage;
  signal : option AbortSignal;
  complexityAnalysis : option ComplexityAnalysis;
  queryExtraction : option QueryExtraction;
  intent : Intent;
  chatSessionId : option string;
  metadataTracker : option ChatMetadataTracker
}.

(** ** Deduplication of merged search results *)

(** [removeDuplicateResults]: [results.filter] with a [Set] of the chunk ids
    seen so far. *)
Fixpoint removeDuplicateResults_from (seen : gset string)
    (results : list SearchResult) : list SearchResult :=
  match results with
  | [] => []
  | result :: rest =>
      if decide (chunkId result ∈ seen)
      then removeDuplicateResults_from seen rest
      else result :: removeDuplicateResults_from ({[chunkId result]} ∪ seen) rest
  end.

Definition removeDuplicateResults (results : list SearchResult) : list SearchResult :=
  removeDuplicateResults_from ∅ results.

(** Fan-in of [performVectorSearch]: [queryResults.forEach(results =>
    allResults.push(...results))] followed by [removeDuplicateResults]. *)
Definition combineQueryResults (queryResults : list (list SearchResult))
    : list SearchResult :=
  removeDuplicateResults (concat queryResults).

(** First entry of a list carrying a given chunk id. *)
Definition firstWithChunkId (c : string) (results : list SearchResult)
    : option SearchResult :=
  List.find (fun r => bool_decide (chunkId r = c)) results.

(** ** JavaScript string helpers *)

(** [String.prototype.startsWith]. *)
Fixpoint startsWith (s needle : string) {struct needle} : bool :=
  match needle, s with
  | EmptyString, _ => true
  | String a needle', String b s' => Ascii.eqb a b && startsWith s' needle'
  | String _ _, EmptyString => false
  end.

(** [String.prototype.includes]. *)
Fixpoint includes (s needle : string) : bool :=
  startsWith s needle ||
  match s with
  | EmptyString => false
  | String _ rest => includes rest needle
  end.

(** [Array.prototype.join]. *)
Fixpoint join (sep : string) (parts : list string) : string :=
  match parts with
  | [] => ""
  | [p] => p
  | p :: rest => p +:+ sep +:+ join sep rest
  end.

(** Decimal digits of a non-negative integer. *)
Definition decimalDigits (n : Z) : string :=
  NilZero.string_of_uint (N.to_uint (Z.to_N n)).

(** The Number (an IEEE 754 double) nearest to a non-negative integer, ties
    to even: every integer up to 2^53 is a Number; above, the 53 leading
    bits are kept. *)
Definition nearestNumber (v : Z) : Z :=
  let bits := Z.log2 v + 1 in
  if (bits <=? 53)%Z then v
  else
    let shift := bits - 53 in
    let q := Z.shiftr v shift in
    let r := v - Z.shiftl q shift in
    let half := Z.shiftl 1 (shift - 1) in
    let q' := if ((half <? r) || ((r =? half) && Z.odd q))%Z then q + 1 else q in
    Z.shiftl q' shift.

(** The decimal with the fewest significant digits that still reads back as
    the Number [x] (the [s * 10^(n-k)] of [Number::toString]): for
    [k = 1, 2, ...] significant digits, the two [k]-digit decimals around
    [x] are tried, the closer one winning, the even one on a tie.  [digits]
    is the number of decimal digits of [x]. *)
Fixpoint shortestDecimal_from (x digits : Z) (ks : list Z) : Z :=
  match ks with
  | [] => x
  | k :: rest =>
      if (digits <=? k)%Z then x
      else
        let p := 10 ^ (digits - k) in
        let lo := (x / p) * p in
        let hi := lo + p in
        match (nearestNumber lo =? x)%Z, (nearestNumber hi =? x)%Z with
        | true, true =>
            if (x - lo <? hi - x)%Z then lo
            else if (hi - x <? x - lo)%Z then hi
            else if Z.even (x / p) then lo else hi
        | true, false => lo
        | false, true => hi
        | false, false => shortestDecimal_from x digits rest
        end
  end.

(** Seventeen significant digits always suffice for a double. *)
Definition shortestDecimal (x : Z) : Z :=
  shortestDecimal_from x (Z.of_nat (String.length (decimalDigits x)))
    (List.map Z.of_nat (seq 1 17)).

Fixpoint dropLeadingZeros (digits : list ascii) : list ascii :=
  match digits with
  | "0"%char :: rest => dropLeadingZeros rest
  | _ => digits
  end.

(** The digits of a decimal without its trailing zeros. *)
Definition significantDigits (digits : string) : string :=
  string_of_list_ascii
    (List.rev (dropLeadingZeros (List.rev (list_ascii_of_string digits)))).

(** The exponent form [d.ddde+x] of a decimal given by its digits. *)
Definition exponentForm (digits : string) : string :=
  let exponent := decimalDigits (Z.of_nat (String.length digits) - 1) in
  match significantDigits digits with
  | String d EmptyString => String d EmptyString +:+ "e+" +:+ exponent
  | String d rest => String d EmptyString +:+ "." +:+ rest +:+ "e+" +:+ exponent
  | EmptyString => "0"
  end.

(** [Number.prototype.toString] on a positive integer: the shortest decimal
    of its Number, written out in full up to 21 digits and in exponent form
    from 1e21 on; [Infinity] beyond the largest double. *)
Definition positiveToString (v : Z) : string :=
  let x := nearestNumber v in
  if (1024 <=? Z.log2 x)%Z then "Infinity"
  else
    let digits := decimalDigits (shortestDecimal x) in
    if (String.length digits <=? 21)%nat then digits else exponentForm digits.

(** [Number.prototype.toString] (and [String(n)], [`${n}`]) on an integer.
    Up to 2^53 this is the decimal notation of the integer, with a leading
    minus sign for negatives. *)
Definition numberToString (n : Z) : string :=
  if (n =? 0)%Z then "0"
  else if (n <? 0)%Z then "-" +:+ positiveToString (- n)
  else positiveToString n.

(** The line feed and the separator ['\n\n'] used to join chunk contents. *)
Definition LF : string := String "010"%char EmptyString.
Definition blankLine : string := LF +:+ LF.

(** White space removed by [String.prototype.trim]: the WhiteSpace and
    LineTerminator code points of ECMAScript.  Those of one UTF-8 byte: tab,
    line feed, vertical tab, form feed, carriage return and space. *)
Definition isWhiteSpace (c : ascii) : bool :=
  let n := nat_of_ascii c in
  ((9 <=? n)%nat && (n <=? 13)%nat) || (n =? 32)%nat.

(** The one of two bytes: U+00A0 (no-break space). *)
Definition isWhiteSpace2 (a b : ascii) : bool :=
  ((N_of_ascii a =? 194) && (N_of_ascii b =? 160))%N.

(** Those of three bytes: U+1680; U+2000 to U+200A, U+2028, U+2029 and
    U+202F; U+205F; U+3000; U+FEFF (byte order mark). *)
Definition isWhiteSpace3 (a b c : ascii) : bool :=
  let x := N_of_ascii a in
  let y := N_of_ascii b in
  let z := N_of_ascii c in
  ((x =? 225) && (y =? 154) && (z =? 128)
   || (x =? 226) && (y =? 128)
      && ((128 <=? z) && (z <=? 138) || (z =? 168) || (z =? 169) || (z =? 175))
   || (x =? 226) && (y =? 129) && (z =? 159)
   || (x =? 227) && (y =? 128) && (z =? 128)
   || (x =? 239) && (y =? 187) && (z =? 191))%N.

(** [String.prototype.trimStart]. *)
Fixpoint trimStart (s : string) : string :=
  match s with
  | String a rest =>
      if isWhiteSpace a then trimStart rest
      else
        match rest with
        | String b rest2 =>
            if isWhiteSpace2 a b then trimStart rest2
            else
              match rest2 with
              | String c rest3 =>
                  if isWhiteSpace3 a b c then trimStart rest3 else s
              | EmptyString => s
              end
        | EmptyString => s
        end
  | EmptyString => EmptyString
  end.

(** [String.prototype.trimEnd], on the bytes in reverse order. *)
Fixpoint trimEnd_rev (rev : list ascii) : list ascii :=
  match rev with
  | c :: rest =>
      if isWhiteSpace c then trimEnd_rev rest
      else
        match rest with
        | b :: rest2 =>
            if isWhiteSpace2 b c then trimEnd_rev rest2
            else
              match rest2 with
              | a :: rest3 =>
                  if isWhiteSpace3 a b c then trimEnd_rev rest3 else rev
              | [] => rev
              end
        | [] => rev
        end
  | [] => []
  end.

Definition trimEnd (s : string) : string :=
  string_of_list_ascii (List.rev (trimEnd_rev (List.rev (list_ascii_of_string s)))).

Definition trim (s : string) : string :=
  trimEnd (trimStart s).

(** [Boolean(s)] on a string: the empty string is falsy. *)
Definition truthyString (s : string) : bool :=
  negb (String.eqb s "").

(** [Array.from(new Set(xs))]: the distinct elements in first-insertion
    order. *)
Fixpoint arrayFromSet_from (seen : gset string) (xs : list string) : list string :=
  match xs with
  | [] => []
  | x :: rest =>
      if decide (x ∈ seen)
      then arrayFromSet_from seen rest
      else x :: arrayFromSet_from ({[x]} ∪ seen) rest
  end.

Definition arrayFromSet (xs : list string) : list string :=
  arrayFromSet_from ∅ xs.

(** ** Query-variant construction *)

Module PIPELINE_LIMITS.
Definition MAX_STANDARD_QUERIES : nat := 15.
Definition MAX_EXPANDED_QUERIES : nat := 20.
Definition MAX_FAST_QUERIES : nat := 3.
End PIPELINE_LIMITS.

Definition getMaxQueriesForStrategy (strategy : SearchStrategy) : nat :=
  match strategy with
  | FastVectorSearch => PIPELINE_LIMITS.MAX_FAST_QUERIES
  | StandardVectorSearch => PIPELINE_LIMITS.MAX_STANDARD_QUERIES
  | ExpandedSearch => PIPELINE_LIMITS.MAX_EXPANDED_QUERIES
  | PageQueryStrategy => PIPELINE_LIMITS.MAX_STANDARD_QUERIES
  end.

(** [context.queryExtraction?.queryRewriting]. *)
Definition contextQueryRewriting (context : PipelineContext) : option QueryRewriting :=
  match queryExtraction context with
  | Some qe => queryRewriting qe
  | None => None
  end.

(** [context.queryExtraction?.pageNumbers]. *)
Definition contextPageNumbers (context : PipelineContext) : option (list Z) :=
  match queryExtraction context with
  | Some qe => Some (pageNumbers qe)
  | None => None
  end.

(** [.filter((query): query is string => query !== undefined)]. *)
Definition definedQueries (qs : list (option string)) : list string :=
  omap id qs.

(** The [hydeAnswer] pushed for [ExpandedSearch]: present when the strategy is
    [ExpandedSearch], [hydeAnswer] is a non-empty string and [requiresHyde] is
    true. *)
Definition hydeQueries (context : PipelineContext) (strategy : SearchStrategy)
    : list string :=
  match strategy, contextQueryRewriting context with
  | ExpandedSearch, Some qr =>
      match hydeAnswer qr, requiresHyde qr with
      | Some h, Some true => if truthyString h then [h] else []
      | _, _ => []
      end
  | _, _ => []
  end.

(** The rewritten queries pushed after the original one:
    [rewrittenQueries.slice(0, maxQueries - 1)] without the undefined ones,
    when [rewrittenQueries?.length] is truthy. *)
Definition rewrittenQueriesFor (context : PipelineContext) (maxQueries : nat)
    : list string :=
  match contextQueryRewriting context with
  | Some qr =>
      match rewrittenQueries qr with
      | Some (q :: qs) => definedQueries (take (maxQueries - 1) (q :: qs))
      | _ => []
      end
  | None => []
  end.

Definition buildQueriesForStrategy (context : PipelineContext)
    (strategy : SearchStrategy) : list string :=
  let maxQueries := getMaxQueriesForStrategy strategy in
  let queries :=
    [query context] ++ rewrittenQueriesFor context maxQueries
                    ++ hydeQueries context strategy in
  arrayFromSet (List.filter truthyString (List.map trim queries)).

(** ** Metadata filter *)

Record MetadataFilter := mkMetadataFilter {
  filterDocumentIds : option (list string);
  filterPageRanges : option (list string);
  filterDataroomId : option string
}.

(** [Object.keys(filter).length]. *)
Definition keyPresent {A : Type} (field : option A) : nat :=
  match field with Some _ => 1%nat | None => 0%nat end.

Definition filterKeyCount (f : MetadataFilter) : nat :=
  (keyPresent (filterDocumentIds f) + keyPresent (filterPageRanges f)
   + keyPresent (filterDataroomId f))%nat.

Definition buildMetadataFilter (context : PipelineContext) : option MetadataFilter :=
  let documentIds :=
    match indexedDocuments context with
    | [] => None
    | docs => Some (List.map docDocumentId docs)
    end in
  let pageRanges :=
    match contextPageNumbers context with
    | Some (p :: ps) => Some (List.map numberToString (p :: ps))
    | _ => None
    end in
  let filter := {| filterDocumentIds := documentIds;
                   filterPageRanges := pageRanges;
                   filterDataroomId := Some (dataroomId context) |} in
  if (1 <? filterKeyCount filter)%nat then Some filter else None.

(** ** Page validation *)

Record PageValidation := mkPageValidation {
  isValid : bool;
  errorMessage : option string
}.

(** [doc.numPages || 0]: a missing or zero page count counts as 0. *)
Definition numPagesOrZero (doc : AccessibleDocument) : Z :=
  match numPages doc with
  | Some n => n
  | None => 0
  end.

(** [doc.documentName || 'Unknown Document']. *)
Definition documentNameOrUnknown (doc : AccessibleDocument) : string :=
  match documentName doc with
  | Some n => if truthyString n then n else "Unknown Document"
  | None => "Unknown Document"
  end.

(** [page < 1 || page > maxPagesInDocuments]. *)
Definition pageOutOfRange (maxPagesInDocuments page : Z) : bool :=
  ((page <? 1) || (maxPagesInDocuments <? page))%Z.

(** The two message templates of [validatePagesAgainstDocuments]. *)
Definition invalidPagesMessage (invalidPages : list Z)
    (indexedDocuments : list AccessibleDocument) (maxPagesInDocuments : Z) : string :=
  let invalidPageList := join ", " (List.map numberToString invalidPages) in
  let documentNames := join ", " (List.map documentNameOrUnknown indexedDocuments) in
  let maxText := numberToString maxPagesInDocuments in
  let plural := if (maxPagesInDocuments =? 1)%Z then "" else "s" in
  let tail :=
    " in your documents. The available documents (" +:+ documentNames +:+
    ") have " +:+ maxText +:+ " page" +:+ plural +:+ " (pages 1-" +:+ maxText +:+
    "). Try asking about content within that range." in
  match invalidPages with
  | [_] => "Page " +:+ invalidPageList +:+ " doesn't exist" +:+ tail
  | _ => "Pages " +:+ invalidPageList +:+ " don't exist" +:+ tail
  end.

(** [Math.max(...indexedDocuments.map(doc => doc.numPages || 0))] on a
    non-empty list of documents. *)
Definition maxPagesOf (doc : AccessibleDocument) (docs : list AccessibleDocument) : Z :=
  List.fold_left Z.max (List.map numPagesOrZero docs) (numPagesOrZero doc).

Definition validatePagesAgainstDocuments (requestedPages : list Z)
    (indexedDocuments : list AccessibleDocument) : PageValidation :=
  match requestedPages with
  | [] => {| isValid := true; errorMessage := None |}
  | _ =>
    match indexedDocuments with
    | [] => {| isValid := false;
               errorMessage := Some "No documents available to validate pages against" |}
    | doc :: docs =>
      let maxPagesInDocuments := maxPagesOf doc docs in
      if (maxPagesInDocuments =? 0)%Z
      then {| isValid := false;
              errorMessage := Some "Documents have no page information available" |}
      else
        let invalidPages :=
          List.filter (pageOutOfRange maxPagesInDocuments) requestedPages in
        match invalidPages with
        | [] => {| isValid := true; errorMessage := None |}
        | _ => {| isValid := false;
                  errorMessage :=
                    Some (invalidPagesMessage invalidPages indexedDocuments
                            maxPagesInDocuments) |}
        end
    end
  end.

(** ** Abort signals *)

(** [abortSignal || timeoutSignal] in [processQuery]: the caller's signal
    when one is supplied, the timeout signal otherwise. *)
Definition pipelineSignal (abortSignal : option AbortSignal) (timeoutMs : Z)
    : AbortSignal :=
  let timeoutSignal := TimeoutSignal timeoutMs in
  match abortSignal with
  | Some s => s
  | None => timeoutSignal
  end.

(** When a signal is aborted.  Time is in milliseconds since the call to
    [processQuery]; [cancelledAt id] is the time at which the caller aborts
    its signal [id], if ever.  A timeout signal aborts once its delay has
    elapsed. *)
Definition abortedAt (cancelledAt : nat -> option Z) (s : AbortSignal) (t : Z) : bool :=
  match s with
  | CallerSignal id =>
      match cancelledAt id with
      | Some c => (c <=? t)%Z
      | None => false
      end
  | TimeoutSignal ms => (ms <=? t)%Z
  end.

(** The composition the specification describes: aborted as soon as either
    the caller's signal (when there is one) is aborted or [timeoutMs] has
    elapsed. *)
Definition composedAbortedAt (cancelledAt : nat -> option Z)
    (abortSignal : option AbortSignal) (timeoutMs : Z) (t : Z) : bool :=
  match abortSignal with
  | Some s => abortedAt cancelledAt s t || (timeoutMs <=? t)%Z
  | None => (timeoutMs <=? t)%Z
  end.

(** ** Collaborator calls, thrown values and the trace monad *)

(** A citation record built by the source-building collaborator; the
    orchestrator only passes it on. *)
Definition Source := string.

Record GradedDocument := mkGradedDocument {
  gdDocumentId : string;
  gdChunkId : string;
  relevanceScore : Q;
  confidence : Q;
  reasoning : string;
  isRelevant : bool;
  suggestedWeight : Q;
  originalContent : string;
  gdMetadata : string
}.

(** The first argument of [buildSources] is typed [any[]] in the shared
    pipeline: it holds graded documents, or, when grading was bypassed, the
    reranked search results themselves. *)
Inductive DocumentPayload :=
| GradedPayload (g : GradedDocument)
| RawResultPayload (r : SearchResult).

(** Reading the [isRelevant] property of a payload; a raw search result has
    no such property ([undefined]). *)
Definition payloadIsRelevant (p : DocumentPayload) : option bool :=
  match p with
  | GradedPayload g => Some (isRelevant g)
  | RawResultPayload _ => None
  end.

Inductive TrackerEvent :=
| StartTotal
| SetQueryAnalysis (queryType : string) (i : Intent) (level : option ComplexityLevel)
| SetSearchStrategy (strategy : SearchStrategy) (strategyConfidence : Q)
| SetError (type message : string) (isRetryable : bool)
| EndTotal.

(** One constructor per collaborator method, with the arguments of the call. *)
Inductive Call :=
| SearchCall (q dataroom : string) (docIds : list string)
    (sig : option AbortSignal) (topK : Z) (threshold : Q)
    (filter : option MetadataFilter)
| RerankCall (q : string) (results : list SearchResult) (sig : option AbortSignal)
| CompressCall (results : list SearchResult) (q : string)
    (sig : option AbortSignal) (complexity : option ComplexityAnalysis)
| GradeCall (q : string) (results : list SearchResult)
    (complexity : option ComplexityAnalysis)
| BuildSourcesCall (graded : list DocumentPayload) (raw : list SearchResult)
    (docs : list AccessibleDocument)
| GenerateAnswerCall (contextText : string) (history : list UIMessage)
    (q : string) (sources : list Source) (sig : option AbortSignal)
    (session : option string) (tracker : option ChatMetadataTracker)
    (pages : option (list Z))
| FallbackCall (reasonOrQuery : string)
| TrackerCall (tracker : ChatMetadataTracker) (event : TrackerEvent).

Definition Trace := list Call.

(** A thrown JavaScript value: an [Error] instance with its [name] and
    [message], or any other value with its [String(error)] text. *)
Inductive Thrown :=
| ErrorObject (name message : string)
| ThrownValue (text : string).

Inductive Outcome (A : Type) :=
| Returned (a : A)
| Threw (e : Thrown).
Arguments Returned {A} a.
Arguments Threw {A} e.

(** A computation reads the trace of the calls made so far and returns an
    outcome with the extended trace. *)
Definition Run (A : Type) := Trace -> Outcome A * Trace.

Definition ret {A : Type} (a : A) : Run A := fun tr => (Returned a, tr).

Definition throw {A : Type} (e : Thrown) : Run A := fun tr => (Threw e, tr).

Definition bind {A B : Type} (m : Run A) (k : A -> Run B) : Run B :=
  fun tr =>
    match m tr with
    | (Returned a, tr') => k a tr'
    | (Threw e, tr') => (Threw e, tr')
    end.

(** [try { m } catch (error) { handler(error) }]. *)
Definition tryCatch {A : Type} (m : Run A) (handler : Thrown -> Run A) : Run A :=
  fun tr =>
    match m tr with
    | (Returned a, tr') => (Returned a, tr')
    | (Threw e, tr') => handler e tr'
    end.

(** A promise observed without awaiting it inside a [try]: its settlement,
    fulfilled or rejected, as a value. *)
Definition settle {A : Type} (m : Run A) : Run (Outcome A) :=
  fun tr => let '(o, tr') := m tr in (Returned o, tr').

(** [try { m } catch (error) { console.error(...); throw error }]. *)
Definition logAndRethrow {A : Type} (m : Run A) : Run A :=
  tryCatch m (fun error => throw error).

(** A call to a collaborator: the reply may depend on the calls made so far;
    the call is recorded. *)
Definition invoke {A : Type} (reply : Trace -> Call -> Outcome A) (c : Call) : Run A :=
  fun tr => (reply tr c, tr ++ [c]).

(** A call to a method of the metadata tracker, when there is one. *)
Definition track (tracker : option ChatMetadataTracker) (event : TrackerEvent)
    : Run unit :=
  fun tr =>
    match tracker with
    | Some t => (Returned tt, tr ++ [TrackerCall t event])
    | None => (Returned tt, tr)
    end.

Notation "'do' x <- m ; k" := (bind m (fun x => k))
  (at level 10, x name, m at level 100, k at level 200).
Notation "'do' ' p <- m ; k" := (bind m (fun x => match x with p => k end))
  (at level 10, p pattern, m at level 100, k at level 200).

Fixpoint mapRun {A B : Type} (f : A -> Run B) (xs : list A) : Run (list B) :=
  match xs with
  | [] => ret []
  | x :: rest =>
      do y <- f x;
      do ys <- mapRun f rest;
      ret (y :: ys)
  end.

(** ** Search configuration *)

Record SearchConfig := mkSearchConfig {
  configTopK : Z;
  configSimilarityThreshold : Q;
  configTimeoutMs : Z
}.

(** [configurationManager.getRAGConfig().search], as far as it is read. *)
Record RAGSearchSettings := mkRAGSearchSettings {
  fastTopK : Z;
  fastSimilarityThreshold : Q;
  standardTopK : Z;
  standardSimilarityThreshold : Q;
  expandedTopK : Z;
  expandedSimilarityThreshold : Q;
  pageQueryTopK : Z;
  pageQuerySimilarityThreshold : Q;
  pageQueryTimeoutMs : Z
}.

Record SearchConfigs := mkSearchConfigs {
  FAST : SearchConfig;
  STANDARD : SearchConfig;
  EXPANDED : SearchConfig;
  PAGE_QUERY : SearchConfig
}.

Definition initializeSearchConfigs (search : RAGSearchSettings) : SearchConfigs :=
  {| FAST := mkSearchConfig (fastTopK search) (fastSimilarityThreshold search) 45000;
     STANDARD :=
       mkSearchConfig (standardTopK search) (standardSimilarityThreshold search) 50000;
     EXPANDED :=
       mkSearchConfig (expandedTopK search) (expandedSimilarityThreshold search) 55000;
     PAGE_QUERY :=
       mkSearchConfig (pageQueryTopK search) (pageQuerySimilarityThreshold search)
         (pageQueryTimeoutMs search) |}.

Definition getSearchConfig (configs : SearchConfigs) (strategy : SearchStrategy)
    : SearchConfig :=
  match strategy with
  | FastVectorSearch => FAST configs
  | StandardVectorSearch => STANDARD configs
  | ExpandedSearch => EXPANDED configs
  | PageQueryStrategy => PAGE_QUERY configs
  end.

(** ** The orchestrator *)

Record CompressedContext := mkCompressedContext { compressedContent : string }.

Record GradingResult := mkGradingResult {
  relevantDocuments : list GradedDocument
}.

(** The collaborators of one orchestrator.  Each reply is given for the trace
    of calls made before it and the call itself; a rejected promise and, for
    the search, the per-query timeout race lost to the timer are [Threw].
    The services themselves are not among the sources; they are taken to be
    the asynchronous tasks of the specification (section 5: every
    collaborator call is a suspension point), which deliver a failure as a
    rejection.  [abortSignalAborted tr] is the value of
    [abortSignal.aborted] read after the calls of [tr].  The tracker's
    methods return normally. *)
Record Collaborators (Response : Type) := mkCollaborators {
  ragSearchSettings : RAGSearchSettings;
  performVectorSearchInternal : Trace -> Call -> Outcome (list SearchResult);
  rerankResults : Trace -> Call -> Outcome (list SearchResult);
  compressContext : Trace -> Call -> Outcome CompressedContext;
  gradeAndFilterDocuments : Trace -> Call -> Outcome GradingResult;
  buildSources : Trace -> Call -> Outcome (list Source);
  generateAnswer : Trace -> Call -> Outcome Response;
  createFallbackResponse : Trace -> Call -> Outcome Response;
  abortSignalAborted : Trace -> bool
}.
Arguments ragSearchSettings {Response} _.
Arguments performVectorSearchInternal {Response} _ _ _.
Arguments rerankResults {Response} _ _ _.
Arguments compressContext {Response} _ _ _.
Arguments gradeAndFilterDocuments {Response} _ _ _.
Arguments buildSources {Response} _ _ _.
Arguments generateAnswer {Response} _ _ _.
Arguments createFallbackResponse {Response} _ _ _.
Arguments abortSignalAborted {Response} _ _.

(** The parameters of [processQuery]; [strategy] and [timeoutMs] have
    defaults. *)
Record ProcessQueryArgs := mkProcessQueryArgs {
  argQuery : string;
  argDataroomId : string;
  argIndexedDocuments : list AccessibleDocument;
  argMessages : list UIMessage;
  argStrategy : option SearchStrategy;
  argIntent : Intent;
  argComplexityAnalysis : option ComplexityAnalysis;
  argQueryExtraction : option QueryExtraction;
  argTimeoutMs : option Z;
  argAbortSignal : option AbortSignal;
  argChatSessionId : option string;
  argMetadataTracker : option ChatMetadataTracker
}.

(** [x || d] on a number: [undefined], [0] (and [NaN]) give the default. *)
Definition numberOr (x : option Q) (d : Q) : Q :=
  match x with
  | Some q => if Qeq_bool q 0 then d else q
  | None => d
  end.

(** The graded document synthesised on the fast path. *)
Definition fastPathGraded (result : SearchResult) : GradedDocument :=
  {| gdDocumentId := documentId result;
     gdChunkId := chunkId result;
     relevanceScore := numberOr (similarity result) (8 # 10);
     confidence := 8 # 10;
     reasoning := "Fast path optimization";
     isRelevant := true;
     suggestedWeight := 8 # 10;
     originalContent := content result;
     gdMetadata := metadata result |}.

(** The graded document synthesised by the page-query pipeline. *)
Definition pageMatchGraded (result : SearchResult) : GradedDocument :=
  {| gdDocumentId := documentId result;
     gdChunkId := chunkId result;
     relevanceScore := numberOr (similarity result) (9 # 10);
     confidence := 9 # 10;
     reasoning := "Direct page match";
     isRelevant := true;
     suggestedWeight := 1;
     originalContent := content result;
     gdMetadata := metadata result |}.

Definition noPageContentMessage : string :=
  "I couldn't find any content on the requested page. The page might not exist or may not have been indexed yet.".

Definition tookTooLongMessage : string :=
  "The request took too long to process. Please try a simpler query or try again later.".

(** The double quote, as a string. *)
Definition doubleQuote : string := String "034"%char EmptyString.

(** [addNumericalSeparator] of Node.js: an underscore before every group of
    three digits, counted from the end; [start] skips a leading minus
    sign. *)
Fixpoint addNumericalSeparator_from (fuel : nat) (val : string) (start i : nat)
    (res : string) : string :=
  match fuel with
  | S fuel' =>
      if (start + 4 <=? i)%nat
      then addNumericalSeparator_from fuel' val start (i - 3)
             ("_" +:+ substring (i - 3) 3 val +:+ res)
      else substring 0 i val +:+ res
  | O => substring 0 i val +:+ res
  end.

Definition addNumericalSeparator (val : string) : string :=
  let start := if startsWith val "-" then 1%nat else 0%nat in
  addNumericalSeparator_from (String.length val) val start (String.length val) "".

(** The message of the [ERR_OUT_OF_RANGE] error Node.js raises for a delay
    that is no unsigned 32-bit integer; the received value is printed with
    numerical separators beyond 2^32. *)
Definition delayOutOfRangeMessage (delay : Z) : string :=
  let received :=
    if (2 ^ 32 <? Z.abs delay)%Z then addNumericalSeparator (numberToString delay)
    else numberToString delay in
  "The value of " +:+ doubleQuote +:+ "delay" +:+ doubleQuote +:+
  " is out of range. It must be >= 0 && <= 4294967295. Received " +:+ received.

(** Modelled from the spec: [RAGError.create('serviceDisposed', ...)] is in
    [../errors], which is not among the sources; the specification only says
    that a disposed orchestrator rejects with the Disposed error. *)
Definition serviceDisposedError : Thrown :=
  ErrorObject "RAGError" "serviceDisposed".

(** Modelled from the spec: [RAGError.withErrorHandling] is in [../errors],
    which is not among the sources; by the specification the errors of the
    wrapped operation cross the boundary unchanged, so the wrapper runs the
    operation and hands its outcome on. *)
Definition withErrorHandling {A : Type} (operation : Run A) : Run A :=
  operation.

(** [contextText = results.map(r => r.content).join('\n\n')]. *)
Definition joinContents (results : list SearchResult) : string :=
  join blankLine (List.map content results).

(** [hasPageNumbers] of [performVectorSearch]. *)
Definition hasPageNumbers (context : PipelineContext) : bool :=
  match contextPageNumbers context with
  | Some (_ :: _) => true
  | _ => false
  end.

(** The last argument of [performVectorSearchInternal]:
    [useMetadataFilter ? metadataFilter || undefined : undefined] with
    [useMetadataFilter = hasPageNumbers && metadataFilter]. *)
Definition metadataFilterArgument (context : PipelineContext) : option MetadataFilter :=
  if hasPageNumbers context then buildMetadataFilter context else None.

(** What one query variant contributes: its results, or nothing when the
    search failed or lost the race against the per-query timer. *)
Definition variantResults (o : Outcome (list SearchResult)) : list SearchResult :=
  match o with
  | Returned results => results
  | Threw _ => []
  end.

Record RAGOrchestratorService := mkService { isDisposed : bool }.

Definition dispose (this : RAGOrchestratorService) : RAGOrchestratorService :=
  if isDisposed this then this else {| isDisposed := true |}.

Section Orchestrator.
Context {Response : Type}.
Variable W : Collaborators Response.

Definition searchCallFor (context : PipelineContext) (strategy : SearchStrategy)
    (q : string) : Call :=
  let config :=
    getSearchConfig (initializeSearchConfigs (ragSearchSettings W)) strategy in
  SearchCall q (dataroomId context)
    (List.map docDocumentId (indexedDocuments context))
    (signal context) (configTopK config) (configSimilarityThreshold config)
    (metadataFilterArgument context).

(** One element of [searchPromises]: the search raced against the per-query
    timer, with [catch (error) { return [] }]. *)
Definition searchOneQuery (context : PipelineContext) (strategy : SearchStrategy)
    (q : string) : Run (list SearchResult) :=
  tryCatch
    (invoke (performVectorSearchInternal W) (searchCallFor context strategy q))
    (fun _ => ret []).

Definition performVectorSearch (searchQueries : list string)
    (context : PipelineContext) (strategy : SearchStrategy)
    : Run (list SearchResult) :=
  logAndRethrow
    (do queryResults <- mapRun (searchOneQuery context strategy) searchQueries;
     ret (combineQueryResults queryResults)).

Definition callGenerateAnswer (contextText : string) (context : PipelineContext)
    (sources : list Source) (pages : option (list Z)) : Run Response :=
  invoke (generateAnswer W)
    (GenerateAnswerCall contextText (messages context) (query context) sources
       (signal context) (chatSessionId context) (metadataTracker context) pages).

Definition callFallback (reasonOrQuery : string) : Run Response :=
  invoke (createFallbackResponse W) (FallbackCall reasonOrQuery).

Definition callRerank (context : PipelineContext) (searchResults : list SearchResult)
    : Run (list SearchResult) :=
  invoke (rerankResults W) (RerankCall (query context) searchResults (signal context)).

Definition callCompress (context : PipelineContext) (searchResults : list SearchResult)
    : Run CompressedContext :=
  invoke (compressContext W)
    (CompressCall searchResults (query context) (signal context)
       (complexityAnalysis context)).

(** Phase 3 of the shared pipeline: [Promise.all] of reranking and
    compression, both started on the search results; when either rejects,
    the [catch] block reranks again and takes the joined contents of the
    search results as the context.  The two are the concurrent tasks of the
    specification, awaited together: the reranker's failure is a rejection
    observed at the [await], when the compressor has been started too.  (A
    reranker that threw before returning its promise would end the array
    literal before the compressor is called; the [catch] block would run the
    same steps, with no compress call on the trace.) *)
Definition rerankAndCompress (context : PipelineContext)
    (searchResults : list SearchResult)
    : Run (list SearchResult * CompressedContext) :=
  do reranking <- settle (callRerank context searchResults);
  do compression <- settle (callCompress context searchResults);
  match reranking, compression with
  | Returned rerankedResults, Returned compressedContext =>
      ret (rerankedResults, compressedContext)
  | _, _ =>
      do rerankedResults <- callRerank context searchResults;
      ret (rerankedResults, {| compressedContent := joinContents searchResults |})
  end.

(** Phase 4 of the shared pipeline: grading, and
    [relevantDocuments = rerankedResults] when it throws. *)
Definition gradeRerankedResults (context : PipelineContext)
    (rerankedResults : list SearchResult) : Run (list DocumentPayload) :=
  tryCatch
    (do gradingResult <- invoke (gradeAndFilterDocuments W)
                           (GradeCall (query context) rerankedResults
                              (complexityAnalysis context));
     ret (List.map GradedPayload (relevantDocuments gradingResult)))
    (fun _ => ret (List.map RawResultPayload rerankedResults)).

Definition executeSharedProcessingPipeline (context : PipelineContext)
    (searchResults : list SearchResult) (strategyName : SearchStrategy)
    : Run Response :=
  logAndRethrow
    (match strategyName with
     | FastVectorSearch =>
         let gradedDocuments := List.map fastPathGraded searchResults in
         do sources <- invoke (buildSources W)
                         (BuildSourcesCall (List.map GradedPayload gradedDocuments)
                            searchResults (indexedDocuments context));
         let contextText := joinContents searchResults in
         callGenerateAnswer contextText context sources (contextPageNumbers context)
     | _ =>
         do ' (rerankedResults, compressedContext) <-
            rerankAndCompress context searchResults;
         do relevant <- gradeRerankedResults context rerankedResults;
         do sources <- invoke (buildSources W)
                         (BuildSourcesCall relevant rerankedResults
                            (indexedDocuments context));
         tryCatch
           (callGenerateAnswer (compressedContent compressedContext) context
              sources (contextPageNumbers context))
           (fun _ => callFallback (query context))
     end).

(** The body shared by [executeFastVectorPipeline], [executeStandardPipeline]
    and [executeExpandedPipeline], which differ in the strategy only. *)
Definition executeVectorPipeline (strategy : SearchStrategy)
    (context : PipelineContext) : Run Response :=
  logAndRethrow
    (let searchQueries := buildQueriesForStrategy context strategy in
     do searchResults <- performVectorSearch searchQueries context strategy;
     match searchResults with
     | [] => callFallback (query context)
     | _ => executeSharedProcessingPipeline context searchResults strategy
     end).

Definition executeFastVectorPipeline := executeVectorPipeline FastVectorSearch.
Definition executeStandardPipeline := executeVectorPipeline StandardVectorSearch.
Definition executeExpandedPipeline := executeVectorPipeline ExpandedSearch.

Definition executePageQueryPipeline (context : PipelineContext) : Run Response :=
  logAndRethrow
    (let searchQueries := [query context] in
     do searchResults <- performVectorSearch searchQueries context PageQueryStrategy;
     match searchResults with
     | [] => callFallback noPageContentMessage
     | _ =>
         do sources <- invoke (buildSources W)
                         (BuildSourcesCall
                            (List.map (fun r => GradedPayload (pageMatchGraded r))
                               searchResults)
                            searchResults (indexedDocuments context));
         let contextText := joinContents searchResults in
         let validPages := default [] (contextPageNumbers context) in
         callGenerateAnswer contextText context sources (Some validPages)
     end).

Definition executeStrategyPipeline (strategy : SearchStrategy)
    (context : PipelineContext) : Run Response :=
  match strategy with
  | FastVectorSearch => executeFastVectorPipeline context
  | StandardVectorSearch => executeStandardPipeline context
  | ExpandedSearch => executeExpandedPipeline context
  | PageQueryStrategy => executePageQueryPipeline context
  end.

(** [AbortSignal.timeout(delay)] on Node.js: the delay has to be an
    unsigned 32-bit integer, a [RangeError] is thrown otherwise.  (Delays are
    integers here; a fractional delay is refused in the same way.) *)
Definition abortSignalTimeout (delay : Z) : Outcome AbortSignal :=
  if ((0 <=? delay) && (delay <=? 4294967295))%Z
  then Returned (TimeoutSignal delay)
  else Threw (ErrorObject "RangeError" (delayOutOfRangeMessage delay)).

(** [error instanceof Error && (error.name === 'AbortError' ||
    error.message.includes('aborted') || abortSignal?.aborted)]. *)
Definition isAbortError (error : Thrown) (signalAborted : bool) : bool :=
  match error with
  | ErrorObject name message =>
      String.eqb name "AbortError" || includes message "aborted" || signalAborted
  | ThrownValue _ => false
  end.

(** [error instanceof Error && error.name === 'TimeoutError']. *)
Definition isTimeoutError (error : Thrown) : bool :=
  match error with
  | ErrorObject name _ => String.eqb name "TimeoutError"
  | ThrownValue _ => false
  end.

(** The argument of [metadataTracker.setError] in the [catch] block. *)
Definition pipelineErrorEvent (error : Thrown) : TrackerEvent :=
  match error with
  | ErrorObject name message =>
      SetError name message (negb (includes message "aborted"))
  | ThrownValue text => SetError "UnknownError" text false
  end.

(** [abortSignal?.aborted], read when the [catch] block runs. *)
Definition readAbortSignalAborted (abortSignal : option AbortSignal) : Run bool :=
  fun tr =>
    match abortSignal with
    | Some _ => (Returned (abortSignalAborted W tr), tr)
    | None => (Returned false, tr)
    end.

(** The [catch] block of [processQuery]. *)
Definition handlePipelineError (args : ProcessQueryArgs) (error : Thrown)
    : Run Response :=
  do _ <- track (argMetadataTracker args) (pipelineErrorEvent error);
  do _ <- track (argMetadataTracker args) EndTotal;
  do signalAborted <- readAbortSignalAborted (argAbortSignal args);
  if isAbortError error signalAborted then throw error
  else if isTimeoutError error then callFallback tookTooLongMessage
  else callFallback (argQuery args).

(** The message of a failed page validation, when
    [queryExtraction?.pageNumbers] is non-empty and
    [!pageValidation.isValid && pageValidation.errorMessage] holds. *)
Definition pageValidationFailure (args : ProcessQueryArgs) : option string :=
  match argQueryExtraction args with
  | Some qe =>
      match pageNumbers qe with
      | [] => None
      | _ =>
          let pageValidation :=
            validatePagesAgainstDocuments (pageNumbers qe) (argIndexedDocuments args) in
          match isValid pageValidation, errorMessage pageValidation with
          | false, Some message => if truthyString message then Some message else None
          | _, _ => None
          end
      end
  | None => None
  end.

(** The [try] block of [processQuery].  It starts by creating the timeout
    signal, which throws for a delay out of range; [pipelineSignal] then
    chooses between the caller's signal and the timeout signal of that
    delay. *)
Definition processQueryAttempt (args : ProcessQueryArgs) : Run Response :=
  let strategy := default StandardVectorSearch (argStrategy args) in
  let timeoutMs := default 50000%Z (argTimeoutMs args) in
  let tracker := argMetadataTracker args in
  match abortSignalTimeout timeoutMs with
  | Threw error => throw error
  | Returned _ =>
      match pageValidationFailure args with
      | Some message =>
          do fallbackResponse <- callFallback message;
          do _ <- track tracker (SetError "InvalidPageRequest" message false);
          do _ <- track tracker EndTotal;
          ret fallbackResponse
      | None =>
          let context :=
            {| query := argQuery args;
               dataroomId := argDataroomId args;
               indexedDocuments := argIndexedDocuments args;
               messages := argMessages args;
               signal := Some (pipelineSignal (argAbortSignal args) timeoutMs);
               complexityAnalysis := argComplexityAnalysis args;
               queryExtraction := argQueryExtraction args;
               intent := argIntent args;
               chatSessionId := argChatSessionId args;
               metadataTracker := tracker |} in
          do result <- executeStrategyPipeline strategy context;
          do _ <- track tracker EndTotal;
          ret result
      end
  end.

Definition processQuery (this : RAGOrchestratorService) (args : ProcessQueryArgs)
    : Run Response :=
  let strategy := default StandardVectorSearch (argStrategy args) in
  let tracker := argMetadataTracker args in
  withErrorHandling
    (if isDisposed this then throw serviceDisposedError
     else
       do _ <- track tracker StartTotal;
       do _ <- track tracker
                 (SetQueryAnalysis "document_question" (argIntent args)
                    (option_map complexityLevel (argComplexityAnalysis args)));
       do _ <- track tracker (SetSearchStrategy strategy 1);
       tryCatch (processQueryAttempt args) (handlePipelineError args)).

End Orchestrator.

(** ** Reading a trace *)

Definition isSearchCall (c : Call) : bool :=
  match c with SearchCall _ _ _ _ _ _ _ => true | _ => false end.

(** Calls to the rerank, compress and grade collaborators. *)
Definition isRefinementCall (c : Call) : bool :=
  match c with
  | RerankCall _ _ _ | CompressCall _ _ _ _ | GradeCall _ _ _ => true
  | _ => false
  end.

Definition searchCalls (tr : Trace) : list Call := List.filter isSearchCall tr.
Definition refinementCalls (tr : Trace) : list Call := List.filter isRefinementCall tr.

(** The metadata filters of the search calls of a trace. *)
Definition searchFilters (tr : Trace) : list (option MetadataFilter) :=
  omap (fun c => match c with
                 | SearchCall _ _ _ _ _ _ f => Some f
                 | _ => None
                 end) tr.

(** The messages of the fallback calls of a trace. *)
Definition fallbackMessages (tr : Trace) : list string :=
  omap (fun c => match c with FallbackCall m => Some m | _ => None end) tr.

(** The context texts handed to answer generation in a trace. *)
Definition generationContexts (tr : Trace) : list string :=
  omap (fun c => match c with
                 | GenerateAnswerCall text _ _ _ _ _ _ _ => Some text
                 | _ => None
                 end) tr.

(** The document payloads handed to source building in a trace. *)
Definition sourceBuildingPayloads (tr : Trace) : list (list DocumentPayload) :=
  omap (fun c => match c with
                 | BuildSourcesCall graded _ _ => Some graded
                 | _ => None
                 end) tr.

(** ** Describing a run *)

Section Runs.
Context {Response : Type}.
Variable W : Collaborators Response.

(** The per-variant results of a fan-out started after the calls of [tr]:
    the searches are issued in variant order, each reply given after the
    calls issued before it. *)
Fixpoint searchReplies (context : PipelineContext) (strategy : SearchStrategy)
    (searchQueries : list string) (tr : Trace) : list (list SearchResult) :=
  match searchQueries with
  | [] => []
  | q :: rest =>
      let c := searchCallFor W context strategy q in
      variantResults (performVectorSearchInternal W tr c)
        :: searchReplies context strategy rest (tr ++ [c])
  end.

(** The query variants a strategy issues. *)
Definition searchQueriesFor (strategy : SearchStrategy) (context : PipelineContext)
    : list string :=
  match strategy with
  | PageQueryStrategy => [query context]
  | _ => buildQueriesForStrategy context strategy
  end.

(** The search calls of a strategy. *)
Definition searchCallsFor (strategy : SearchStrategy) (context : PipelineContext)
    : Trace :=
  List.map (searchCallFor W context strategy) (searchQueriesFor strategy context).

(** What retrieval yields for a strategy run started after [tr]. *)
Definition retrievedResults (strategy : SearchStrategy) (context : PipelineContext)
    (tr : Trace) : list SearchResult :=
  combineQueryResults
    (searchReplies context strategy (searchQueriesFor strategy context) tr).

(** The calls of the refinement stages, as the shared pipeline issues them. *)
Definition rerankCallOf (context : PipelineContext) (searchResults : list SearchResult)
    : Call :=
  RerankCall (query context) searchResults (signal context).

Definition compressCallOf (context : PipelineContext) (searchResults : list SearchResult)
    : Call :=
  CompressCall searchResults (query context) (signal context)
    (complexityAnalysis context).

Definition gradeCallOf (context : PipelineContext) (rerankedResults : list SearchResult)
    : Call :=
  GradeCall (query context) rerankedResults (complexityAnalysis context).

Definition generateAnswerCallOf (contextText : string) (context : PipelineContext)
    (sources : list Source) : Call :=
  GenerateAnswerCall contextText (messages context) (query context) sources
    (signal context) (chatSessionId context) (metadataTracker context)
    (contextPageNumbers context).

(** The documents handed to source building after grading was attempted
    after the calls of [tr]. *)
Definition relevantAfterGrading (context : PipelineContext)
    (rerankedResults : list SearchResult) (tr : Trace) : list DocumentPayload :=
  match gradeAndFilterDocuments W tr (gradeCallOf context rerankedResults) with
  | Returned gradingResult =>
      List.map GradedPayload (relevantDocuments gradingResult)
  | Threw _ => List.map RawResultPayload rerankedResults
  end.

(** [abortSignal?.aborted] as the [catch] block reads it after [tr]. *)
Definition callerAbortedAfter (args : ProcessQueryArgs) (tr : Trace) : bool :=
  match argAbortSignal args with
  | Some _ => abortSignalAborted W tr
  | None => false
  end.

(** The fallback collaborator honours its contract: it returns an answer for
    every call. *)
Definition fallbackAlwaysAnswers : Prop :=
  ∀ tr c, ∃ r, createFallbackResponse W tr c = Returned r.

End Runs.

(** The message a zero-result run hands to the fallback collaborator. *)
Definition zeroResultMessage (strategy : SearchStrategy) (context : PipelineContext)
    : string :=
  match strategy with
  | PageQueryStrategy => noPageContentMessage
  | _ => query context
  end.

(** The tracker calls made on entry to [processQuery]. *)
Definition trackerEntryCalls (args : ProcessQueryArgs) : Trace :=
  match argMetadataTracker args with
  | Some t =>
      [TrackerCall t StartTotal;
       TrackerCall t (SetQueryAnalysis "document_question" (argIntent args)
                        (option_map complexityLevel (argComplexityAnalysis args)));
       TrackerCall t (SetSearchStrategy
                        (default StandardVectorSearch (argStrategy args)) 1)]
  | None => []
  end.

(** The tracker calls made by the [catch] block of [processQuery]. *)
Definition trackerErrorCalls (args : ProcessQueryArgs) (error : Thrown) : Trace :=
  match argMetadataTracker args with
  | Some t => [TrackerCall t (pipelineErrorEvent error); TrackerCall t EndTotal]
  | None => []
  end.

(** The tracker calls made after the fallback for an invalid page request. *)
Definition trackerInvalidPageCalls (args : ProcessQueryArgs) (message : string) : Trace :=
  match argMetadataTracker args with
  | Some t => [TrackerCall t (SetError "InvalidPageRequest" message false);
               TrackerCall t EndTotal]
  | None => []
  end.

(** The signals handed to the search collaborator in a trace. *)
Definition searchSignals (tr : Trace) : list (option AbortSignal) :=
  omap (fun c => match c with
                 | SearchCall _ _ _ sig _ _ _ => Some sig
                 | _ => None
                 end) tr.

(** The metadata filter the specification describes for every retrieval
    call: dataroom id and allow-listed document ids always, page ranges when
    there are explicit page numbers. *)
Definition specifiedMetadataFilter (context : PipelineContext) : MetadataFilter :=
  {| filterDocumentIds := Some (List.map docDocumentId (indexedDocuments context));
     filterPageRanges :=
       match contextPageNumbers context with
       | Some (p :: ps) => Some (List.map numberToString (p :: ps))
       | _ => None
       end;
     filterDataroomId := Some (dataroomId context) |}.

(** A computation that issues no search call. *)
Definition addsNoSearch {A : Type} (m : Run A) : Prop :=
  ∀ tr, searchCalls (snd (m tr)) = searchCalls tr.

(** * Concrete inputs *)

(** A context whose query analysis supplies nineteen distinct rewritten
    queries and a required hypothetical answer. *)
Definition manyRewritesContext : PipelineContext :=
  {| query := "termination clause";
     dataroomId := "dr1";
     indexedDocuments := [mkAccessibleDocument "d1" (Some "Contract") (Some 10)];
     messages := [];
     signal := None;
     complexityAnalysis := None;
     queryExtraction :=
       Some {| pageNumbers := [];
               keywords := [];
               queryRewriting :=
                 Some {| rewrittenQueries :=
                           Some (List.map Some
                             ["r01"; "r02"; "r03"; "r04"; "r05"; "r06"; "r07";
                              "r08"; "r09"; "r10"; "r11"; "r12"; "r13"; "r14";
                              "r15"; "r16"; "r17"; "r18"; "r19"]);
                         hydeAnswer := Some "a hypothetical answer";
                         requiresHyde := Some true |} |};
     intent := general_inquiry;
     chatSessionId := None;
     metadataTracker := None |}.

Definition demoSettings : RAGSearchSettings :=
  mkRAGSearchSettings 5 (7 # 10) 10 (7 # 10) 15 (6 # 10) 5 (5 # 10) 30000.

Definition chunkAlpha : SearchResult :=
  mkSearchResult "d1" "c1" "alpha" (Some (9 # 10)) "{}".

Definition chunkBeta : SearchResult :=
  mkSearchResult "d1" "c2" "beta" (Some (8 # 10)) "{}".

(** Scripted collaborators whose answers are strings: every search returns
    [found], the reranker reverses the list it is given, compression, grading
    and generation settle as given, source building returns one citation, and
    the fallback answer is the message it is asked for. *)
Definition scriptedCollaborators (found : list SearchResult)
    (compression : Outcome CompressedContext) (grading : Outcome GradingResult)
    (generation : Outcome string) : Collaborators string :=
  {| ragSearchSettings := demoSettings;
     performVectorSearchInternal := fun _ _ => Returned found;
     rerankResults := fun _ c =>
       match c with
       | RerankCall _ results _ => Returned (List.rev results)
       | _ => Returned []
       end;
     compressContext := fun _ _ => compression;
     gradeAndFilterDocuments := fun _ _ => grading;
     buildSources := fun _ _ => Returned ["source"];
     generateAnswer := fun _ _ => generation;
     createFallbackResponse := fun _ c =>
       match c with
       | FallbackCall m => Returned m
       | _ => Returned ""
       end;
     abortSignalAborted := fun _ => false |}.

Definition tenPageContract : AccessibleDocument :=
  mkAccessibleDocument "d1" (Some "Contract") (Some 10).

Definition undatedMemo : AccessibleDocument :=
  mkAccessibleDocument "d2" (Some "Memo") None.

Definition demoQuery : string := "What is the termination clause?".

(** A call to [processQuery] on [demoQuery] with the given documents,
    strategy, extracted page numbers and caller signal; no tracker, default
    timeout. *)
Definition demoArgs (docs : list AccessibleDocument) (strategy : SearchStrategy)
    (pages : list Z) (abortSignal : option AbortSignal) : ProcessQueryArgs :=
  {| argQuery := demoQuery;
     argDataroomId := "dr1";
     argIndexedDocuments := docs;
     argMessages := [];
     argStrategy := Some strategy;
     argIntent := general_inquiry;
     argComplexityAnalysis := None;
     argQueryExtraction := Some (mkQueryExtraction pages [] None);
     argTimeoutMs := None;
     argAbortSignal := abortSignal;
     argChatSessionId := None;
     argMetadataTracker := None |}.

Definition demoContext (pages : list Z) : PipelineContext :=
  {| query := demoQuery;
     dataroomId := "dr1";
     indexedDocuments := [tenPageContract];
     messages := [];
     signal := Some (TimeoutSignal 50000);
     complexityAnalysis := None;
     queryExtraction := Some (mkQueryExtraction pages [] None);
     intent := general_inquiry;
     chatSessionId := None;
     metadataTracker := None |}.

(** The same call with documents, extracted page numbers and an explicit
    [timeoutMs], on the standard strategy, from a caller that supplies an
    abort signal. *)
Definition impatientArgs (docs : list AccessibleDocument) (pages : list Z)
    (timeoutMs : Z) : ProcessQueryArgs :=
  {| argQuery := demoQuery;
     argDataroomId := "dr1";
     argIndexedDocuments := docs;
     argMessages := [];
     argStrategy := Some StandardVectorSearch;
     argIntent := general_inquiry;
     argComplexityAnalysis := None;
     argQueryExtraction := Some (mkQueryExtraction pages [] None);
     argTimeoutMs := Some timeoutMs;
     argAbortSignal := Some (CallerSignal 0);
     argChatSessionId := None;
     argMetadataTracker := None |}.

(** Scripted collaborators for a caller whose signal is already aborted; the
    collaborators themselves all answer. *)
Definition abortedCallerCollaborators : Collaborators string :=
  {| ragSearchSettings := demoSettings;
     performVectorSearchInternal := fun _ _ => Returned [chunkAlpha];
     rerankResults := fun _ c =>
       match c with
       | RerankCall _ results _ => Returned (List.rev results)
       | _ => Returned []
       end;
     compressContext := fun _ _ => Returned {| compressedContent := "compressed" |};
     gradeAndFilterDocuments := fun _ _ => Returned {| relevantDocuments := [] |};
     buildSources := fun _ _ => Returned ["source"];
     generateAnswer := fun _ _ => Returned "answer";
     createFallbackResponse := fun _ c =>
       match c with
       | FallbackCall m => Returned m
       | _ => Returned ""
       end;
     abortSignalAborted := fun _ => true |}.

Definition activeService : RAGOrchestratorService := {| isDisposed := false |}.

Definition compressedBlob : Outcome CompressedContext :=
  Returned {| compressedContent := "compressed" |}.

Definition noneRelevant : Outcome GradingResult :=
  Returned {| relevantDocuments := [] |}.

Definition compressionFailed : Thrown := ErrorObject "Error" "compression failed".
Definition gradingFailed : Thrown := ErrorObject "Error" "grading failed".

(** The abort reason of [AbortSignal.timeout] on Node.js, as a collaborator
    observing the pipeline's timeout signal throws it. *)
Definition platformTimeoutError : Thrown :=
  ErrorObject "TimeoutError" "The operation was aborted due to timeout".

(** * Further concrete inputs *)

(** White space beyond ASCII, by its UTF-8 bytes: U+00A0, U+3000, U+FEFF. *)
Definition noBreakSpace : string :=
  String "194"%char (String "160"%char EmptyString).

Definition ideographicSpace : string :=
  String "227"%char (String "128"%char (String "128"%char EmptyString)).

Definition byteOrderMark : string :=
  String "239"%char (String "187"%char (String "191"%char EmptyString)).

(** A request whose query is white space only, with no query analysis. *)
Definition blankQueryContext : PipelineContext :=
  {| query := noBreakSpace +:+ " " +:+ ideographicSpace +:+ byteOrderMark +:+ LF;
     dataroomId := "dr1";
     indexedDocuments := [tenPageContract];
     messages := [];
     signal := None;
     complexityAnalysis := None;
     queryExtraction := None;
     intent := general_inquiry;
     chatSessionId := None;
     metadataTracker := None |}.


(** * Describing the calls of a run *)

(** A computation all of whose new calls satisfy [P]. *)
Definition emits {A : Type} (P : Call → Prop) (m : Run A) : Prop :=
  ∀ tr, ∃ new, snd (m tr) = tr ++ new ∧ Forall P new.

(** A call a strategy pipeline may issue for a request: it carries the
    request's own dataroom, document allow-list, signal, query, complexity
    analysis, history, session and tracker; the pipelines themselves never
    call the tracker. *)
Definition isPipelineCall (context : PipelineContext) (c : Call) : Prop :=
  match c with
  | SearchCall _ dataroom docIds sig _ _ filter =>
      dataroom = dataroomId context ∧
      docIds = List.map docDocumentId (indexedDocuments context) ∧
      sig = signal context ∧
      filter = metadataFilterArgument context
  | RerankCall q _ sig => q = query context ∧ sig = signal context
  | CompressCall _ q sig complexity =>
      q = query context ∧ sig = signal context ∧
      complexity = complexityAnalysis context
  | GradeCall q _ complexity =>
      q = query context ∧ complexity = complexityAnalysis context
  | BuildSourcesCall _ _ docs => docs = indexedDocuments context
  | GenerateAnswerCall _ history q _ sig session tracker _ =>
      history = messages context ∧ q = query context ∧ sig = signal context ∧
      session = chatSessionId context ∧ tracker = metadataTracker context
  | FallbackCall _ => True
  | TrackerCall _ _ => False
  end.


(** The [PipelineContext] built by [processQuery]. *)
Definition processQueryContext (args : ProcessQueryArgs) : PipelineContext :=
  {| query := argQuery args;
     dataroomId := argDataroomId args;
     indexedDocuments := argIndexedDocuments args;
     messages := argMessages args;
     signal := Some (pipelineSignal (argAbortSignal args)
                       (default 50000%Z (argTimeoutMs args)));
     complexityAnalysis := argComplexityAnalysis args;
     queryExtraction := argQueryExtraction args;
     intent := argIntent args;
     chatSessionId := argChatSessionId args;
     metadataTracker := argMetadataTracker args |}.

Definition isTrackerCall (c : Call) : bool :=
  match c with TrackerCall _ _ => true | _ => false end.



(** The closing tracker call of [processQuery]. *)
Definition trackerExitCalls (args : ProcessQueryArgs) : Trace :=
  match argMetadataTracker args with
  | Some t => [TrackerCall t EndTotal]
  | None => []
  end.

(** One tracker call, when there is a tracker. *)
Definition trackerRecordCalls (args : ProcessQueryArgs) (event : TrackerEvent) : Trace :=
  match argMetadataTracker args with
  | Some t => [TrackerCall t event]
  | None => []
  end.

Definition isFallbackCall (c : Call) : Prop :=
  match c with FallbackCall _ => True | _ => False end.

Definition isGenerationCall (c : Call) : Prop :=
  match c with GenerateAnswerCall _ _ _ _ _ _ _ _ => True | _ => False end.

(** A call made before answer generation is reached: neither a generation
    nor a fallback call. *)
Definition beforeGeneration (c : Call) : Prop :=
  ¬ isGenerationCall c ∧ ¬ isFallbackCall c.

(** The demonstration request with a metadata tracker and a chat session. *)
Definition trackedArgs (strategy : SearchStrategy) (pages : list Z) : ProcessQueryArgs :=
  {| argQuery := demoQuery;
     argDataroomId := "dr1";
     argIndexedDocuments := [tenPageContract];
     argMessages := [];
     argStrategy := Some strategy;
     argIntent := general_inquiry;
     argComplexityAnalysis := None;
     argQueryExtraction := Some (mkQueryExtraction pages [] None);
     argTimeoutMs := Some 30000%Z;
     argAbortSignal := None;
     argChatSessionId := Some "session-1";
     argMetadataTracker := Some (mkTracker 1) |}.

(** The calls of a fully successful refinement of [searchResults], after
    which generation is called: rerank, compress, grade, build sources. *)
Definition refinementCallsOf (context : PipelineContext)
    (searchResults rerankedResults : list SearchResult) (grading : GradingResult)
    : Trace :=
  [rerankCallOf context searchResults;
   compressCallOf context searchResults;
   gradeCallOf context rerankedResults;
   BuildSourcesCall (List.map GradedPayload (relevantDocuments grading))
     rerankedResults (indexedDocuments context)].

(** Scripted collaborators as [scriptedCollaborators], except for the
    reranker: its first call settles as [first], every later call as
    [later]. *)
Definition rerankScript (found : list SearchResult)
    (first later : Outcome (list SearchResult)) : Collaborators string :=
  {| ragSearchSettings := demoSettings;
     performVectorSearchInternal := fun _ _ => Returned found;
     rerankResults := fun tr _ =>
       if existsb isRefinementCall tr then later else first;
     compressContext := fun _ _ => compressedBlob;
     gradeAndFilterDocuments := fun _ _ => noneRelevant;
     buildSources := fun _ _ => Returned ["source"];
     generateAnswer := fun _ _ => Returned "answer";
     createFallbackResponse := fun _ c =>
       match c with
       | FallbackCall m => Returned m
       | _ => Returned ""
       end;
     abortSignalAborted := fun _ => false |}.

Definition rerankFailed : Thrown := ErrorObject "Error" "rerank failed".

(** A grading that keeps [chunkBeta] only. *)
Definition betaRelevant : GradingResult :=
  {| relevantDocuments :=
       [mkGradedDocument "d1" "c2" (9 # 10) (9 # 10) "on topic" true 1 "beta" "{}"] |}.

Definition queryTimedOut : Thrown := ErrorObject "Error" "Query timeout after 50000ms".

(** Scripted collaborators whose search succeeds, with [chunkAlpha], for the
    query ["second"] only and fails for every other query. *)
Definition selectiveSearch : Collaborators string :=
  {| ragSearchSettings := demoSettings;
     performVectorSearchInternal := fun _ c =>
       match c with
       | SearchCall q _ _ _ _ _ _ =>
           if String.eqb q "second" then Returned [chunkAlpha] else Threw queryTimedOut
       | _ => Threw queryTimedOut
       end;
     rerankResults := fun _ _ => Returned [];
     compressContext := fun _ _ => compressedBlob;
     gradeAndFilterDocuments := fun _ _ => noneRelevant;
     buildSources := fun _ _ => Returned ["source"];
     generateAnswer := fun _ _ => Returned "answer";
     createFallbackResponse := fun _ c =>
       match c with
       | FallbackCall m => Returned m
       | _ => Returned ""
       end;
     abortSignalAborted := fun _ => false |}.

(** Scripted collaborators whose every search fails. *)
Definition failingSearch : Collaborators string :=
  {| ragSearchSettings := demoSettings;
     performVectorSearchInternal := fun _ _ => Threw queryTimedOut;
     rerankResults := fun _ _ => Returned [];
     compressContext := fun _ _ => compressedBlob;
     gradeAndFilterDocuments := fun _ _ => noneRelevant;
     buildSources := fun _ _ => Returned ["source"];
     generateAnswer := fun _ _ => Returned "answer";
     createFallbackResponse := fun _ c =>
       match c with
       | FallbackCall m => Returned m
       | _ => Returned ""
       end;
     abortSignalAborted := fun _ => false |}.

(** * Citation lines of the RAG system prompt
    ([src/lib/rag/text-generation.ts], [buildRAGSystemPrompt]) *)

(** The fields of a [Source] that the prompt builder reads. *)
Record CitedSource := mkCitedSource {
  citedDocumentName : string;
  citedPageNumber : option Z;
  citedLocationInfo : option string
}.

(** [s.pageNumber ? ` (p.${s.pageNumber})` : ''] *)
Definition pageSuffix (s : CitedSource) : string :=
  match citedPageNumber s with
  | Some n => if (n =? 0)%Z then "" else " (p." +:+ numberToString n +:+ ")"
  | None => ""
  end.

(** [s.locationInfo ? ` - ${s.locationInfo}` : ''] *)
Definition locationSuffix (s : CitedSource) : string :=
  match citedLocationInfo s with
  | Some l => if truthyString l then " - " +:+ l else ""
  | None => ""
  end.

(** One citation line: a bullet, the document name, the page and the
    location when present. *)
Definition citationLine (s : CitedSource) : string :=
  "• " +:+ citedDocumentName s +:+ pageSuffix s +:+ locationSuffix s.

(** [sources.map(...).join('\n')]. *)
Definition citationLines (sources : list CitedSource) : string :=
  join LF (List.map citationLine sources).

(** * Properties *)

(** ** Deduplication *)

Lemma firstWithChunkId_cons c r l :
  firstWithChunkId c (r :: l) =
  if bool_decide (chunkId r = c) then Some r else firstWithChunkId c l.
Proof. reflexivity. Qed.


Lemma removeDuplicateResults_from_fresh seen l r :
  r ∈ removeDuplicateResults_from seen l → chunkId r ∉ seen.
Proof.
  revert seen. induction l as [|x l IH]; intros seen; simpl.
  - intros H. inversion H.
  - destruct (decide (chunkId x ∈ seen)) as [Hin|Hout].
    + apply IH.
    + intros H. apply elem_of_cons in H as [->|H]; [exact Hout|].
      apply IH in H. set_solver.
Qed.

Lemma removeDuplicateResults_from_NoDup seen l :
  NoDup (List.map chunkId (removeDuplicateResults_from seen l)).
Proof.
  revert seen. induction l as [|x l IH]; intros seen; simpl.
  - constructor.
  - destruct (decide (chunkId x ∈ seen)) as [Hin|Hout]; [apply IH|].
    simpl. constructor; [|apply IH].
    intros H. apply list_elem_of_fmap in H as (r & Heq & Hr).
    apply removeDuplicateResults_from_fresh in Hr. set_solver.
Qed.

Lemma removeDuplicateResults_from_seen seen l c :
  c ∈ seen → firstWithChunkId c (removeDuplicateResults_from seen l) = None.
Proof.
  revert seen. induction l as [|x l IH]; intros seen Hc; [reflexivity|].
  cbn [removeDuplicateResults_from].
  destruct (decide (chunkId x ∈ seen)) as [Hin|Hout].
  - by apply IH.
  - rewrite firstWithChunkId_cons. rewrite bool_decide_eq_false_2.
    + apply IH. set_solver.
    + intros E. subst c. contradiction.
Qed.

Lemma removeDuplicateResults_from_first seen l c :
  c ∉ seen →
  firstWithChunkId c (removeDuplicateResults_from seen l) = firstWithChunkId c l.
Proof.
  revert seen. induction l as [|x l IH]; intros seen Hc; [reflexivity|].
  cbn [removeDuplicateResults_from].
  rewrite (firstWithChunkId_cons c x l).
  destruct (decide (chunkId x ∈ seen)) as [Hin|Hout].
  - assert (chunkId x ≠ c) as Hne by (intros E; apply Hc; rewrite <- E; exact Hin).
    rewrite (bool_decide_eq_false_2 _ Hne). by apply IH.
  - rewrite firstWithChunkId_cons.
    destruct (bool_decide (chunkId x = c)) eqn:E; [reflexivity|].
    apply bool_decide_eq_false in E. apply IH.
    intros [Hs|Hs]%elem_of_union; [apply elem_of_singleton in Hs; congruence|contradiction].
Qed.


Lemma removeDuplicateResults_from_id seen l :
  NoDup (List.map chunkId l) →
  (∀ r, r ∈ l → chunkId r ∉ seen) →
  removeDuplicateResults_from seen l = l.
Proof.
  revert seen. induction l as [|x l IH]; intros seen Hnd Hfresh; simpl; [reflexivity|].
  simpl in Hnd. apply NoDup_cons in Hnd as [Hx Hnd].
  destruct (decide (chunkId x ∈ seen)) as [Hin|Hout].
  - exfalso. apply (Hfresh x); [left|exact Hin].
  - f_equal. apply IH; [exact Hnd|].
    intros r Hr Hseen. apply elem_of_union in Hseen as [Hs|Hs].
    + apply elem_of_singleton in Hs. apply Hx. rewrite <- Hs.
      apply list_elem_of_fmap. eauto.
    + apply (Hfresh r); [by right|exact Hs].
Qed.

(** Results whose chunk ids are pairwise distinct all survive the merge, in
    their order. *)
Lemma combineQueryResults_distinct (queryResults : list (list SearchResult)) :
  NoDup (List.map chunkId (concat queryResults)) →
  combineQueryResults queryResults = concat queryResults.
Proof.
  intros H. apply removeDuplicateResults_from_id; [exact H|set_solver].
Qed.

(** ** Query-variant counts *)

Lemma arrayFromSet_from_length seen xs :
  (length (arrayFromSet_from seen xs) <= length xs)%nat.
Proof.
  revert seen. induction xs as [|x xs IH]; intros seen; simpl; [lia|].
  destruct (decide (x ∈ seen)).
  - specialize (IH seen). lia.
  - simpl. specialize (IH ({[x]} ∪ seen)). lia.
Qed.

Lemma list_filter_length {A : Type} (f : A -> bool) (l : list A) :
  (length (List.filter f l) <= length l)%nat.
Proof.
  induction l as [|x l IH]; simpl; [lia|]. destruct (f x); simpl; lia.
Qed.

Lemma definedQueries_length qs :
  (length (definedQueries qs) <= length qs)%nat.
Proof.
  unfold definedQueries. induction qs as [|[q|] qs IH]; cbn in *; lia.
Qed.

Lemma rewrittenQueriesFor_length context maxQueries :
  (length (rewrittenQueriesFor context maxQueries) <= maxQueries - 1)%nat.
Proof.
  unfold rewrittenQueriesFor.
  destruct (contextQueryRewriting context) as [qr|]; simpl; [|lia].
  destruct (rewrittenQueries qr) as [[|q qs]|]; simpl; try lia.
  etransitivity; [apply definedQueries_length|].
  rewrite length_take. lia.
Qed.

Lemma hydeQueries_length context strategy :
  (length (hydeQueries context strategy) <= 1)%nat.
Proof.
  unfold hydeQueries.
  destruct strategy; simpl; try lia.
  destruct (contextQueryRewriting context) as [qr|]; simpl; [|lia].
  destruct (hydeAnswer qr) as [h|]; simpl; [|lia].
  destruct (requiresHyde qr) as [[|]|]; simpl; try lia.
  destruct (truthyString h); simpl; lia.
Qed.

Lemma hydeQueries_not_expanded context strategy :
  strategy ≠ ExpandedSearch → hydeQueries context strategy = [].
Proof. intros H. destruct strategy; try reflexivity. congruence. Qed.

Lemma buildQueriesForStrategy_length context strategy :
  (length (buildQueriesForStrategy context strategy)
   <= 1 + (getMaxQueriesForStrategy strategy - 1)
        + length (hydeQueries context strategy))%nat.
Proof.
  unfold buildQueriesForStrategy, arrayFromSet.
  etransitivity; [apply arrayFromSet_from_length|].
  etransitivity; [apply list_filter_length|].
  rewrite length_map, !length_app. simpl.
  pose proof (rewrittenQueriesFor_length context (getMaxQueriesForStrategy strategy)).
  lia.
Qed.

(** The bounds the code does keep: at most 3 variants for the fast strategy,
    at most 15 for the standard one, and at most 21 for the expanded one,
    where the hypothetical answer is pushed on top of the 20 budgeted. *)
Lemma buildQueriesForStrategy_bounds context :
  (length (buildQueriesForStrategy context FastVectorSearch) <= 3)%nat ∧
  (length (buildQueriesForStrategy context StandardVectorSearch) <= 15)%nat ∧
  (length (buildQueriesForStrategy context ExpandedSearch) <= 21)%nat.
Proof.
  pose proof (buildQueriesForStrategy_length context FastVectorSearch) as Hfast.
  pose proof (buildQueriesForStrategy_length context StandardVectorSearch) as Hstd.
  pose proof (buildQueriesForStrategy_length context ExpandedSearch) as Hexp.
  pose proof (hydeQueries_length context ExpandedSearch) as Hhyde.
  rewrite hydeQueries_not_expanded in Hfast by discriminate.
  rewrite hydeQueries_not_expanded in Hstd by discriminate.
  cbn [getMaxQueriesForStrategy length] in Hfast, Hstd, Hexp.
  unfold PIPELINE_LIMITS.MAX_FAST_QUERIES in Hfast.
  unfold PIPELINE_LIMITS.MAX_STANDARD_QUERIES in Hstd.
  unfold PIPELINE_LIMITS.MAX_EXPANDED_QUERIES in Hexp.
  repeat split; lia.
Qed.

(** C4: on the expanded strategy the original query, nineteen rewritten
    queries and the hypothetical answer make 21 variants, one more than
    MAX_EXPANDED_QUERIES = 20; the variant list ends with the hypothetical
    answer. *)
Theorem buildQueriesForStrategy_expanded_exceeds_limit :
  length (buildQueriesForStrategy manyRewritesContext ExpandedSearch) = 21%nat ∧
  (PIPELINE_LIMITS.MAX_EXPANDED_QUERIES < 
     length (buildQueriesForStrategy manyRewritesContext ExpandedSearch))%nat ∧
  last (buildQueriesForStrategy manyRewritesContext ExpandedSearch)
    = Some "a hypothetical answer".
Proof. vm_compute. repeat split; lia. Qed.

(** ** Running the monad *)

Lemma logAndRethrow_run {A : Type} (m : Run A) tr : logAndRethrow m tr = m tr.
Proof.
  unfold logAndRethrow, tryCatch, throw. destruct (m tr) as [[a|e] tr']; reflexivity.
Qed.

Lemma bind_returned {A B : Type} (m : Run A) (k : A -> Run B) tr a tr' :
  m tr = (Returned a, tr') → bind m k tr = k a tr'.
Proof. intros H. unfold bind. rewrite H. reflexivity. Qed.

Lemma bind_threw {A B : Type} (m : Run A) (k : A -> Run B) tr e tr' :
  m tr = (Threw e, tr') → bind m k tr = (Threw e, tr').
Proof. intros H. unfold bind. rewrite H. reflexivity. Qed.

Lemma track_run tracker event tr :
  track tracker event tr =
  (Returned tt, tr ++ match tracker with
                      | Some t => [TrackerCall t event]
                      | None => []
                      end).
Proof. destruct tracker; simpl; [reflexivity|]. by rewrite app_nil_r. Qed.

Lemma searchCalls_app tr1 tr2 :
  searchCalls (tr1 ++ tr2) = searchCalls tr1 ++ searchCalls tr2.
Proof. apply List.filter_app. Qed.

Lemma refinementCalls_app tr1 tr2 :
  refinementCalls (tr1 ++ tr2) = refinementCalls tr1 ++ refinementCalls tr2.
Proof. apply List.filter_app. Qed.

Lemma searchCalls_tracker tracker event :
  searchCalls match tracker with
              | Some t => [TrackerCall t event]
              | None => []
              end = [].
Proof. destruct tracker; reflexivity. Qed.

(** ** Retrieval fan-out and fan-in *)

Lemma searchOneQuery_run {Response} (W : Collaborators Response) context strategy q tr :
  searchOneQuery W context strategy q tr =
  (Returned (variantResults
               (performVectorSearchInternal W tr (searchCallFor W context strategy q))),
   tr ++ [searchCallFor W context strategy q]).
Proof.
  unfold searchOneQuery, tryCatch, invoke, ret.
  destruct (performVectorSearchInternal W tr _); reflexivity.
Qed.

Lemma mapRun_searchOneQuery {Response} (W : Collaborators Response)
    context strategy searchQueries tr :
  mapRun (searchOneQuery W context strategy) searchQueries tr =
  (Returned (searchReplies W context strategy searchQueries tr),
   tr ++ List.map (searchCallFor W context strategy) searchQueries).
Proof.
  revert tr. induction searchQueries as [|q rest IH]; intros tr; simpl.
  - unfold ret. by rewrite app_nil_r.
  - unfold bind. rewrite searchOneQuery_run, IH. unfold ret.
    by rewrite <- app_assoc.
Qed.

(** The fan-in returns the merge of the per-variant results and has issued
    one search call per variant, in variant order; it never throws. *)
Lemma performVectorSearch_run {Response} (W : Collaborators Response)
    searchQueries context strategy tr :
  performVectorSearch W searchQueries context strategy tr =
  (Returned (combineQueryResults (searchReplies W context strategy searchQueries tr)),
   tr ++ List.map (searchCallFor W context strategy) searchQueries).
Proof.
  unfold performVectorSearch. rewrite logAndRethrow_run.
  unfold bind. rewrite mapRun_searchOneQuery. reflexivity.
Qed.

Lemma searchCalls_searchCallFor {Response} (W : Collaborators Response)
    context strategy searchQueries :
  searchCalls (List.map (searchCallFor W context strategy) searchQueries)
  = List.map (searchCallFor W context strategy) searchQueries.
Proof.
  unfold searchCalls. induction searchQueries as [|q rest IH]; simpl; [reflexivity|].
  by rewrite IH.
Qed.

Lemma refinementCalls_searchCallFor {Response} (W : Collaborators Response)
    context strategy searchQueries :
  refinementCalls (List.map (searchCallFor W context strategy) searchQueries) = [].
Proof.
  unfold refinementCalls. induction searchQueries as [|q rest IH]; simpl; [reflexivity|].
  exact IH.
Qed.

(** ** Zero-result retrieval *)

Lemma executeVectorPipeline_no_results {Response} (W : Collaborators Response)
    strategy context tr :
  combineQueryResults
    (searchReplies W context strategy (buildQueriesForStrategy context strategy) tr) = [] →
  executeVectorPipeline W strategy context tr =
  (createFallbackResponse W
     (tr ++ List.map (searchCallFor W context strategy)
              (buildQueriesForStrategy context strategy))
     (FallbackCall (query context)),
   tr ++ List.map (searchCallFor W context strategy)
           (buildQueriesForStrategy context strategy)
      ++ [FallbackCall (query context)]).
Proof.
  intros Hnone. unfold executeVectorPipeline. rewrite logAndRethrow_run.
  unfold bind. rewrite performVectorSearch_run, Hnone.
  unfold callFallback, invoke. by rewrite <- app_assoc.
Qed.

Lemma executePageQueryPipeline_no_results {Response} (W : Collaborators Response)
    context tr :
  combineQueryResults (searchReplies W context PageQueryStrategy [query context] tr) = [] →
  executePageQueryPipeline W context tr =
  (createFallbackResponse W
     (tr ++ [searchCallFor W context PageQueryStrategy (query context)])
     (FallbackCall noPageContentMessage),
   tr ++ [searchCallFor W context PageQueryStrategy (query context)]
      ++ [FallbackCall noPageContentMessage]).
Proof.
  intros Hnone. unfold executePageQueryPipeline. rewrite logAndRethrow_run.
  unfold bind. rewrite performVectorSearch_run, Hnone.
  unfold callFallback, invoke. by rewrite <- app_assoc.
Qed.

(** C7, as amended: for every strategy, when retrieval yields no result for
    any variant, the pipeline issues its search calls and then exactly one
    fallback call, whose outcome is the outcome of the pipeline; the rerank,
    compress and grade collaborators are not called.  The fallback is keyed
    on the raw query for the fast, standard and expanded strategies and on
    the fixed no-content-on-the-requested-page message for the page-query
    strategy. *)
Theorem zero_results_fallback {Response} (W : Collaborators Response)
    strategy context tr :
  retrievedResults W strategy context tr = [] →
  executeStrategyPipeline W strategy context tr =
    (createFallbackResponse W (tr ++ searchCallsFor W strategy context)
       (FallbackCall (zeroResultMessage strategy context)),
     tr ++ searchCallsFor W strategy context
        ++ [FallbackCall (zeroResultMessage strategy context)]) ∧
  refinementCalls (searchCallsFor W strategy context
                     ++ [FallbackCall (zeroResultMessage strategy context)]) = [].
Proof.
  intros Hnone. split.
  - destruct strategy; simpl;
      first [ by apply executeVectorPipeline_no_results
            | by apply executePageQueryPipeline_no_results ].
  - rewrite refinementCalls_app. unfold searchCallsFor.
    rewrite refinementCalls_searchCallFor. reflexivity.
Qed.

Lemma zero_results_fallback_witness :
  executeStrategyPipeline
    (scriptedCollaborators [] compressedBlob noneRelevant (Returned "answer"))
    StandardVectorSearch (demoContext []) []
  = (Returned demoQuery,
     [SearchCall demoQuery "dr1" ["d1"] (Some (TimeoutSignal 50000)) 10 (7 # 10) None;
      FallbackCall demoQuery]).
Proof.
  exact (proj1 (zero_results_fallback
                  (scriptedCollaborators [] compressedBlob noneRelevant
                     (Returned "answer"))
                  StandardVectorSearch (demoContext []) [] eq_refl)).
Defined.

(** C7, as stated, fails for the page-query strategy: with no result for
    the single variant, the fallback is asked for the fixed message, which
    does not contain the raw query. *)
Lemma page_query_zero_results_fallback_not_query :
  retrievedResults
    (scriptedCollaborators [] compressedBlob noneRelevant (Returned "answer"))
    PageQueryStrategy (demoContext [3]) [] = [] ∧
  fallbackMessages
    (snd (executeStrategyPipeline
            (scriptedCollaborators [] compressedBlob noneRelevant (Returned "answer"))
            PageQueryStrategy (demoContext [3]) []))
  = [noPageContentMessage] ∧
  noPageContentMessage ≠ query (demoContext [3]) ∧
  includes noPageContentMessage (query (demoContext [3])) = false.
Proof. vm_compute. repeat split; discriminate. Qed.

(** ** Metadata filter *)

Lemma metadataFilterArgument_cases context :
  metadataFilterArgument context =
  match contextPageNumbers context with
  | Some (p :: ps) =>
      Some {| filterDocumentIds :=
                match indexedDocuments context with
                | [] => None
                | docs => Some (List.map docDocumentId docs)
                end;
              filterPageRanges := Some (List.map numberToString (p :: ps));
              filterDataroomId := Some (dataroomId context) |}
  | _ => None
  end.
Proof.
  unfold metadataFilterArgument, hasPageNumbers, buildMetadataFilter.
  destruct (contextPageNumbers context) as [[|p ps]|]; try reflexivity.
  destruct (indexedDocuments context); reflexivity.
Qed.

(** C8, as amended: every retrieval call issued by the fan-out passes the
    dataroom id and the allow-listed document ids as arguments of the call.
    A metadata filter is passed exactly when the query-extraction result
    contains explicit page numbers; it then carries the dataroom id, the
    document ids (when the allow-list is not empty) and one page range per
    page number.  A query without explicit page numbers is given no
    metadata filter, hence no page restriction. *)
Theorem search_calls_metadata_filter {Response} (W : Collaborators Response)
    searchQueries context strategy tr :
  snd (performVectorSearch W searchQueries context strategy tr)
    = tr ++ List.map (searchCallFor W context strategy) searchQueries ∧
  (∀ q, ∃ topK threshold,
     searchCallFor W context strategy q =
     SearchCall q (dataroomId context)
       (List.map docDocumentId (indexedDocuments context)) (signal context)
       topK threshold (metadataFilterArgument context)) ∧
  metadataFilterArgument context =
    match contextPageNumbers context with
    | Some (p :: ps) =>
        Some {| filterDocumentIds :=
                  match indexedDocuments context with
                  | [] => None
                  | docs => Some (List.map docDocumentId docs)
                  end;
                filterPageRanges := Some (List.map numberToString (p :: ps));
                filterDataroomId := Some (dataroomId context) |}
    | _ => None
    end.
Proof.
  split; [|split].
  - rewrite performVectorSearch_run. reflexivity.
  - intros q. unfold searchCallFor. eauto.
  - apply metadataFilterArgument_cases.
Qed.

(** C8, as stated, fails for a query without explicit page numbers: the
    search call carries no metadata filter at all, so the filter does not
    scope by dataroom id and document ids. *)
Lemma no_page_numbers_no_metadata_filter :
  searchFilters
    (snd (performVectorSearch
            (scriptedCollaborators [chunkAlpha] compressedBlob noneRelevant
               (Returned "answer"))
            (buildQueriesForStrategy (demoContext []) StandardVectorSearch)
            (demoContext []) StandardVectorSearch []))
  = [None] ∧
  specifiedMetadataFilter (demoContext [])
  = {| filterDocumentIds := Some ["d1"];
       filterPageRanges := None;
       filterDataroomId := Some "dr1" |} ∧
  ¬ (∀ f, f ∈ searchFilters
            (snd (performVectorSearch
                    (scriptedCollaborators [chunkAlpha] compressedBlob noneRelevant
                       (Returned "answer"))
                    (buildQueriesForStrategy (demoContext []) StandardVectorSearch)
                    (demoContext []) StandardVectorSearch [])) →
          f = Some (specifiedMetadataFilter (demoContext []))).
Proof.
  split; [vm_compute; reflexivity|]. split; [reflexivity|].
  intros H. specialize (H None).
  assert (None = Some (specifiedMetadataFilter (demoContext []))) as E.
  { apply H. vm_compute. left. }
  discriminate E.
Qed.

(** ** Substrings *)

Lemma startsWith_append n b : startsWith (n +:+ b) n = true.
Proof.
  induction n as [|c n IH]; simpl; [reflexivity|].
  rewrite Ascii.eqb_refl. exact IH.
Qed.

Lemma startsWith_append_r n s b :
  startsWith s n = true → startsWith (s +:+ b) n = true.
Proof.
  revert s. induction n as [|c n IH]; intros s H; simpl; [reflexivity|].
  destruct s as [|d s]; simpl in *; [discriminate|].
  apply andb_true_iff in H as [Hc Hs]. rewrite Hc. simpl. by apply IH.
Qed.

Lemma includes_unfold s n :
  includes s n =
  startsWith s n || match s with
                    | EmptyString => false
                    | String _ rest => includes rest n
                    end.
Proof. destruct s; reflexivity. Qed.

Lemma includes_here n b : includes (n +:+ b) n = true.
Proof. rewrite includes_unfold, startsWith_append. reflexivity. Qed.

Lemma includes_self n : includes n n = true.
Proof.
  rewrite includes_unfold.
  assert (startsWith n n = true) as ->; [|reflexivity].
  induction n as [|c n IH]; simpl; [reflexivity|].
  rewrite Ascii.eqb_refl. exact IH.
Qed.

Lemma includes_app_r a s n : includes s n = true → includes (a +:+ s) n = true.
Proof.
  intros H. induction a as [|c a IH]; simpl; [exact H|].
  rewrite IH. apply orb_true_r.
Qed.

Lemma includes_app_l s b n : includes s n = true → includes (s +:+ b) n = true.
Proof.
  induction s as [|c s IH]; intros H.
  - rewrite includes_unfold in H. rewrite orb_false_r in H.
    rewrite includes_unfold. rewrite (startsWith_append_r n "" b H). reflexivity.
  - rewrite includes_unfold in H. apply orb_true_iff in H as [H|H].
    + rewrite includes_unfold. rewrite (startsWith_append_r _ _ b H). reflexivity.
    + change (String c s +:+ b) with (String c (s +:+ b)).
      rewrite includes_unfold. rewrite (IH H). apply orb_true_r.
Qed.

Lemma join_includes sep parts p :
  p ∈ parts → includes (join sep parts) p = true.
Proof.
  induction parts as [|x parts IH]; intros H; [inversion H|].
  apply elem_of_cons in H as [->|H].
  - destruct parts; simpl; [apply includes_self|apply includes_here].
  - destruct parts as [|y parts]; [inversion H|].
    change (join sep (x :: y :: parts)) with (x +:+ sep +:+ join sep (y :: parts)).
    do 2 apply includes_app_r. by apply IH.
Qed.

(** ** Page validation *)

Lemma invalidPagesMessage_mentions_page invalidPages docs maxPages p :
  p ∈ invalidPages →
  includes (invalidPagesMessage invalidPages docs maxPages) (numberToString p) = true.
Proof.
  intros Hp. unfold invalidPagesMessage.
  assert (includes (join ", " (List.map numberToString invalidPages))
            (numberToString p) = true) as Hjoin.
  { apply join_includes. apply list_elem_of_fmap. eauto. }
  destruct invalidPages as [|a [|b rest]];
    apply includes_app_r, includes_app_l, Hjoin.
Qed.

Lemma invalidPagesMessage_mentions_range invalidPages docs maxPages :
  includes (invalidPagesMessage invalidPages docs maxPages)
    (numberToString maxPages) = true.
Proof.
  unfold invalidPagesMessage.
  destruct invalidPages as [|a [|b rest]];
    do 6 apply includes_app_r; apply includes_here.
Qed.

Lemma append_assoc (a b c : string) : (a +:+ b) +:+ c = a +:+ b +:+ c.
Proof.
  induction a as [|x a IH]; [reflexivity|].
  change (String x ((a +:+ b) +:+ c) = String x (a +:+ b +:+ c)). by rewrite IH.
Qed.

Lemma includes_middle a b c rest :
  includes (a +:+ b +:+ c +:+ rest) (a +:+ b +:+ c) = true.
Proof.
  replace (a +:+ b +:+ c +:+ rest) with ((a +:+ b +:+ c) +:+ rest)
    by (rewrite !append_assoc; reflexivity).
  apply includes_here.
Qed.

Lemma invalidPagesMessage_mentions_valid_range invalidPages docs maxPages :
  includes (invalidPagesMessage invalidPages docs maxPages)
    ("(pages 1-" +:+ numberToString maxPages +:+ ")") = true.
Proof.
  unfold invalidPagesMessage.
  destruct invalidPages as [|a [|b rest]];
    do 9 apply includes_app_r;
    change (" (pages 1-" +:+ numberToString maxPages
             +:+ "). Try asking about content within that range.")
      with (" " +:+ "(pages 1-" +:+ numberToString maxPages
             +:+ ")" +:+ ". Try asking about content within that range.");
    apply includes_app_r, includes_middle.
Qed.

(** ** The catch block and the entry of processQuery *)

Lemma handlePipelineError_run {Response} (W : Collaborators Response) args error tr :
  handlePipelineError W args error tr =
  if isAbortError error (callerAbortedAfter W args (tr ++ trackerErrorCalls args error))
  then (Threw error, tr ++ trackerErrorCalls args error)
  else if isTimeoutError error
  then (createFallbackResponse W (tr ++ trackerErrorCalls args error)
          (FallbackCall tookTooLongMessage),
        tr ++ trackerErrorCalls args error ++ [FallbackCall tookTooLongMessage])
  else (createFallbackResponse W (tr ++ trackerErrorCalls args error)
          (FallbackCall (argQuery args)),
        tr ++ trackerErrorCalls args error ++ [FallbackCall (argQuery args)]).
Proof.
  unfold handlePipelineError, bind, callerAbortedAfter, trackerErrorCalls,
    readAbortSignalAborted, callFallback, invoke, throw.
  rewrite !track_run.
  destruct (argMetadataTracker args) as [t|], (argAbortSignal args) as [s|];
    rewrite <- ?app_assoc; simpl; rewrite ?app_nil_r;
    repeat match goal with |- context [if ?b then _ else _] => destruct b end;
    rewrite <- ?app_assoc; reflexivity.
Qed.

Lemma processQuery_run {Response} (W : Collaborators Response) this args tr :
  isDisposed this = false →
  processQuery W this args tr =
  tryCatch (processQueryAttempt W args) (handlePipelineError W args)
    (tr ++ trackerEntryCalls args).
Proof.
  intros Hactive. unfold processQuery, withErrorHandling. rewrite Hactive.
  unfold bind. rewrite !track_run. unfold trackerEntryCalls.
  destruct (argMetadataTracker args) as [t|].
  - rewrite <- !app_assoc. reflexivity.
  - rewrite !app_nil_r. reflexivity.
Qed.

Lemma processQuery_disposed {Response} (W : Collaborators Response) this args tr :
  isDisposed this = true →
  processQuery W this args tr = (Threw serviceDisposedError, tr).
Proof.
  intros Hd. unfold processQuery, withErrorHandling. rewrite Hd. reflexivity.
Qed.

Lemma searchCalls_trackerEntryCalls args : searchCalls (trackerEntryCalls args) = [].
Proof. unfold trackerEntryCalls. destruct (argMetadataTracker args); reflexivity. Qed.

Lemma searchCalls_trackerErrorCalls args error :
  searchCalls (trackerErrorCalls args error) = [].
Proof. unfold trackerErrorCalls. destruct (argMetadataTracker args); reflexivity. Qed.

Lemma searchCalls_trackerInvalidPageCalls args message :
  searchCalls (trackerInvalidPageCalls args message) = [].
Proof. unfold trackerInvalidPageCalls. destruct (argMetadataTracker args); reflexivity. Qed.

Lemma fallbackMessages_app tr1 tr2 :
  fallbackMessages (tr1 ++ tr2) = fallbackMessages tr1 ++ fallbackMessages tr2.
Proof. apply omap_app. Qed.

Lemma fallbackMessages_trackerEntryCalls args :
  fallbackMessages (trackerEntryCalls args) = [].
Proof. unfold trackerEntryCalls. destruct (argMetadataTracker args); reflexivity. Qed.

Lemma fallbackMessages_trackerInvalidPageCalls args message :
  fallbackMessages (trackerInvalidPageCalls args message) = [].
Proof.
  unfold trackerInvalidPageCalls. destruct (argMetadataTracker args); reflexivity.
Qed.

(** The catch block issues no search call. *)
Lemma handlePipelineError_searchCalls {Response} (W : Collaborators Response)
    args error tr :
  searchCalls (snd (handlePipelineError W args error tr)) = searchCalls tr.
Proof.
  rewrite handlePipelineError_run.
  repeat match goal with |- context [if ?b then _ else _] => destruct b end;
    simpl; rewrite !searchCalls_app, searchCalls_trackerErrorCalls;
    simpl; rewrite ?app_nil_r; reflexivity.
Qed.

Lemma abortSignalTimeout_valid delay :
  (0 ≤ delay ≤ 4294967295)%Z →
  abortSignalTimeout delay = Returned (TimeoutSignal delay).
Proof.
  intros [Hlow Hhigh]. unfold abortSignalTimeout.
  apply Z.leb_le in Hlow, Hhigh. by rewrite Hlow, Hhigh.
Qed.

Lemma abortSignalTimeout_invalid delay :
  ¬ (0 ≤ delay ≤ 4294967295)%Z →
  abortSignalTimeout delay
  = Threw (ErrorObject "RangeError" (delayOutOfRangeMessage delay)).
Proof.
  intros Hout. unfold abortSignalTimeout.
  destruct (Z.leb_spec 0 delay), (Z.leb_spec delay 4294967295);
    first [reflexivity | lia].
Qed.

(** A delay out of range ends the [try] block at once, with no call made. *)
Lemma processQueryAttempt_invalid_delay {Response} (W : Collaborators Response)
    args tr :
  ¬ (0 ≤ default 50000 (argTimeoutMs args) ≤ 4294967295)%Z →
  processQueryAttempt W args tr =
  (Threw (ErrorObject "RangeError"
            (delayOutOfRangeMessage (default 50000%Z (argTimeoutMs args)))),
   tr).
Proof.
  intros Hout. unfold processQueryAttempt.
  by rewrite (abortSignalTimeout_invalid _ Hout).
Qed.

Lemma processQueryAttempt_invalid_pages {Response} (W : Collaborators Response)
    args message tr :
  (0 ≤ default 50000 (argTimeoutMs args) ≤ 4294967295)%Z →
  pageValidationFailure args = Some message →
  processQueryAttempt W args tr =
  match createFallbackResponse W tr (FallbackCall message) with
  | Returned r =>
      (Returned r, tr ++ [FallbackCall message] ++ trackerInvalidPageCalls args message)
  | Threw e => (Threw e, tr ++ [FallbackCall message])
  end.
Proof.
  intros Hdelay Hfail. unfold processQueryAttempt.
  rewrite (abortSignalTimeout_valid _ Hdelay), Hfail.
  unfold bind, callFallback, invoke.
  destruct (createFallbackResponse W tr (FallbackCall message)) as [r|e]; [|reflexivity].
  rewrite !track_run. unfold ret, trackerInvalidPageCalls.
  destruct (argMetadataTracker args); rewrite <- ?app_assoc, ?app_nil_r; reflexivity.
Qed.

(** A failed page validation ends the call before any search. *)
Lemma processQuery_invalid_pages_no_search {Response} (W : Collaborators Response)
    this args message tr :
  isDisposed this = false →
  pageValidationFailure args = Some message →
  searchCalls (snd (processQuery W this args tr)) = searchCalls tr.
Proof.
  intros Hactive Hfail. rewrite processQuery_run by exact Hactive.
  unfold tryCatch.
  destruct (decide (0 ≤ default 50000 (argTimeoutMs args) ≤ 4294967295)%Z)
    as [Hdelay|Hdelay].
  - rewrite (processQueryAttempt_invalid_pages W args message _ Hdelay Hfail).
    destruct (createFallbackResponse W _ (FallbackCall message)) as [r|e].
    + cbn [snd]. rewrite !searchCalls_app, searchCalls_trackerEntryCalls,
        searchCalls_trackerInvalidPageCalls. cbn. by rewrite !app_nil_r.
    + rewrite handlePipelineError_searchCalls.
      rewrite !searchCalls_app, searchCalls_trackerEntryCalls. cbn.
      by rewrite !app_nil_r.
  - rewrite (processQueryAttempt_invalid_delay W args _ Hdelay).
    rewrite handlePipelineError_searchCalls.
    rewrite !searchCalls_app, searchCalls_trackerEntryCalls.
    by rewrite app_nil_r.
Qed.

Lemma processQuery_invalid_pages {Response} (W : Collaborators Response)
    this args message tr r :
  isDisposed this = false →
  (0 ≤ default 50000 (argTimeoutMs args) ≤ 4294967295)%Z →
  pageValidationFailure args = Some message →
  createFallbackResponse W (tr ++ trackerEntryCalls args) (FallbackCall message)
    = Returned r →
  processQuery W this args tr =
  (Returned r,
   (tr ++ trackerEntryCalls args) ++ [FallbackCall message]
      ++ trackerInvalidPageCalls args message).
Proof.
  intros Hactive Hdelay Hfail Hr. rewrite processQuery_run by exact Hactive.
  unfold tryCatch.
  rewrite (processQueryAttempt_invalid_pages W args message _ Hdelay Hfail).
  rewrite Hr. reflexivity.
Qed.

Lemma invalidPagesMessage_truthy invalidPages docs maxPages :
  truthyString (invalidPagesMessage invalidPages docs maxPages) = true.
Proof. destruct invalidPages as [|a [|b rest]]; reflexivity. Qed.

Lemma pageValidationFailure_out_of_range args qe doc docs p :
  argQueryExtraction args = Some qe →
  argIndexedDocuments args = doc :: docs →
  maxPagesOf doc docs ≠ 0 →
  p ∈ pageNumbers qe →
  pageOutOfRange (maxPagesOf doc docs) p = true →
  pageValidationFailure args =
  Some (invalidPagesMessage
          (List.filter (pageOutOfRange (maxPagesOf doc docs)) (pageNumbers qe))
          (doc :: docs) (maxPagesOf doc docs)).
Proof.
  intros Hqe Hdocs Hmax Hp Hout.
  unfold pageValidationFailure, validatePagesAgainstDocuments.
  rewrite Hqe, Hdocs.
  assert (In p (List.filter (pageOutOfRange (maxPagesOf doc docs)) (pageNumbers qe)))
    as Hin.
  { apply filter_In. split; [by apply list_elem_of_In|exact Hout]. }
  destruct (pageNumbers qe) as [|p0 ps] eqn:Hpages; [inversion Hp|].
  apply Z.eqb_neq in Hmax. rewrite Hmax.
  destruct (List.filter (pageOutOfRange (maxPagesOf doc docs)) (p0 :: ps))
    as [|i invalid] eqn:Hfilter; [destruct Hin|].
  cbn [isValid errorMessage]. by rewrite invalidPagesMessage_truthy.
Qed.

(** C2, as amended: for every call on a live orchestrator, with a timeoutMs
    that is a valid timer delay (an integer from 0 to 4294967295), whose
    queryExtraction carries explicit page numbers, when indexedDocuments is
    not empty and its maximum page count is not zero, the page numbers are
    checked against the range from 1 to that maximum; if one of them is out
    of range the call returns the answer the fallback collaborator gives for
    a message that contains every offending page number, the maximum page
    count and the range "(pages 1-max)", and the search collaborator is not
    called.  (The fallback collaborator is taken to answer every call.) *)
Theorem invalid_page_request_fallback {Response} (W : Collaborators Response)
    this args tr qe doc docs p :
  isDisposed this = false →
  (0 ≤ default 50000 (argTimeoutMs args) ≤ 4294967295)%Z →
  argQueryExtraction args = Some qe →
  argIndexedDocuments args = doc :: docs →
  maxPagesOf doc docs ≠ 0 →
  p ∈ pageNumbers qe →
  pageOutOfRange (maxPagesOf doc docs) p = true →
  fallbackAlwaysAnswers W →
  ∃ r,
    createFallbackResponse W (tr ++ trackerEntryCalls args)
      (FallbackCall
         (invalidPagesMessage
            (List.filter (pageOutOfRange (maxPagesOf doc docs)) (pageNumbers qe))
            (doc :: docs) (maxPagesOf doc docs))) = Returned r ∧
    fst (processQuery W this args tr) = Returned r ∧
    searchCalls (snd (processQuery W this args tr)) = searchCalls tr ∧
    (∀ p', p' ∈ pageNumbers qe → pageOutOfRange (maxPagesOf doc docs) p' = true →
       includes
         (invalidPagesMessage
            (List.filter (pageOutOfRange (maxPagesOf doc docs)) (pageNumbers qe))
            (doc :: docs) (maxPagesOf doc docs))
         (numberToString p') = true) ∧
    includes
      (invalidPagesMessage
         (List.filter (pageOutOfRange (maxPagesOf doc docs)) (pageNumbers qe))
         (doc :: docs) (maxPagesOf doc docs))
      (numberToString (maxPagesOf doc docs)) = true ∧
    includes
      (invalidPagesMessage
         (List.filter (pageOutOfRange (maxPagesOf doc docs)) (pageNumbers qe))
         (doc :: docs) (maxPagesOf doc docs))
      ("(pages 1-" +:+ numberToString (maxPagesOf doc docs) +:+ ")") = true.
Proof.
  intros Hactive Hdelay Hqe Hdocs Hmax Hp Hout Hfallback.
  pose proof (pageValidationFailure_out_of_range args qe doc docs p
                Hqe Hdocs Hmax Hp Hout) as Hfail.
  destruct (Hfallback (tr ++ trackerEntryCalls args)
              (FallbackCall
                 (invalidPagesMessage
                    (List.filter (pageOutOfRange (maxPagesOf doc docs)) (pageNumbers qe))
                    (doc :: docs) (maxPagesOf doc docs)))) as [r Hr].
  exists r. split; [exact Hr|]. split; [|split; [|split; [|split]]].
  - by rewrite (processQuery_invalid_pages W this args _ tr r Hactive Hdelay Hfail Hr).
  - by apply (processQuery_invalid_pages_no_search W this args _ tr Hactive Hfail).
  - intros p' Hp' Hout'. apply invalidPagesMessage_mentions_page.
    apply list_elem_of_In, filter_In. split; [by apply list_elem_of_In|exact Hout'].
  - apply invalidPagesMessage_mentions_range.
  - apply invalidPagesMessage_mentions_valid_range.
Qed.

Lemma invalid_page_request_fallback_witness :
  ∃ r,
    fst (processQuery
           (scriptedCollaborators [chunkAlpha] compressedBlob noneRelevant
              (Returned "answer"))
           activeService
           (demoArgs [tenPageContract] StandardVectorSearch [15] None) [])
    = Returned r ∧
    includes r "15" = true ∧ includes r "10" = true ∧
    searchCalls
      (snd (processQuery
              (scriptedCollaborators [chunkAlpha] compressedBlob noneRelevant
                 (Returned "answer"))
              activeService
              (demoArgs [tenPageContract] StandardVectorSearch [15] None) []))
    = [].
Proof.
  destruct (invalid_page_request_fallback
              (scriptedCollaborators [chunkAlpha] compressedBlob noneRelevant
                 (Returned "answer"))
              activeService
              (demoArgs [tenPageContract] StandardVectorSearch [15] None) []
              (mkQueryExtraction [15] [] None) tenPageContract [] 15)
    as (r & Hr & Hfst & Hsearch & Hpages & Hmax & _).
  - reflexivity.
  - cbn. lia.
  - reflexivity.
  - reflexivity.
  - vm_compute. discriminate.
  - left.
  - reflexivity.
  - intros tr c. destruct c; eexists; reflexivity.
  - exists r. split; [exact Hfst|].
    injection Hr as <-.
    split; [exact (Hpages 15 ltac:(left) eq_refl)|].
    split; [exact Hmax|exact Hsearch].
Defined.

(** C2, as stated, fails when no document carries a page count: page 15 is
    out of range for a maximum page count of 0, and the fallback message
    names neither the page nor a range.  It also fails for a timeoutMs that
    is no valid timer delay: page 15 is out of range for the ten pages of the
    contract, but the timeout signal cannot be created, validation is not
    reached, and the fallback answer is the one keyed on the raw query. *)
Lemma page_request_without_page_counts_message :
  (maxPagesOf undatedMemo [] = 0 ∧
   pageOutOfRange (maxPagesOf undatedMemo []) 15 = true ∧
   processQuery
     (scriptedCollaborators [chunkAlpha] compressedBlob noneRelevant (Returned "answer"))
     activeService (demoArgs [undatedMemo] StandardVectorSearch [15] None) []
   = (Returned "Documents have no page information available",
      [FallbackCall "Documents have no page information available"]) ∧
   includes "Documents have no page information available" "15" = false) ∧
  (maxPagesOf tenPageContract [] = 10 ∧
   pageOutOfRange (maxPagesOf tenPageContract []) 15 = true ∧
   processQuery
     (scriptedCollaborators [chunkAlpha] compressedBlob noneRelevant (Returned "answer"))
     activeService (impatientArgs [tenPageContract] [15] (-1)) []
   = (Returned demoQuery, [FallbackCall demoQuery]) ∧
   includes demoQuery "15" = false).
Proof. vm_compute. repeat split. Qed.

Lemma fold_left_max_le (l : list Z) (a b : Z) :
  (a ≤ b)%Z → Forall (λ x, (x ≤ b)%Z) l → (List.fold_left Z.max l a ≤ b)%Z.
Proof.
  revert a. induction l as [|x l IH]; intros a Ha Hl; simpl; [exact Ha|].
  apply Forall_cons in Hl as [Hx Hl]. apply IH; [lia|exact Hl].
Qed.

Lemma maxPagesOf_not_positive doc docs :
  (∀ d n, d ∈ doc :: docs → numPages d = Some n → (n ≤ 0)%Z) →
  (maxPagesOf doc docs ≤ 0)%Z.
Proof.
  intros H.
  assert (∀ d, d ∈ doc :: docs → (numPagesOrZero d ≤ 0)%Z) as Hz.
  { intros d Hd. unfold numPagesOrZero.
    destruct (numPages d) as [n|] eqn:E; [by apply (H d n)|lia]. }
  unfold maxPagesOf. apply fold_left_max_le.
  - apply Hz. left.
  - apply Forall_forall. intros x Hx.
    apply list_elem_of_fmap in Hx as (d & -> & Hd). apply Hz. by right.
Qed.

Lemma filter_all_out_of_range maxPages pages :
  (maxPages < 0)%Z → List.filter (pageOutOfRange maxPages) pages = pages.
Proof.
  intros Hneg. induction pages as [|p pages IH]; simpl; [reflexivity|].
  assert (pageOutOfRange maxPages p = true) as ->.
  { unfold pageOutOfRange. apply orb_true_iff.
    destruct (Z.ltb_spec p 1); [by left|right]. apply Z.ltb_lt. lia. }
  by rewrite IH.
Qed.

Lemma pageValidationFailure_no_page_counts args qe :
  argQueryExtraction args = Some qe →
  pageNumbers qe ≠ [] →
  (∀ d n, d ∈ argIndexedDocuments args → numPages d = Some n → (n ≤ 0)%Z) →
  isValid (validatePagesAgainstDocuments (pageNumbers qe) (argIndexedDocuments args))
    = false ∧
  ∃ message,
    errorMessage
      (validatePagesAgainstDocuments (pageNumbers qe) (argIndexedDocuments args))
      = Some message ∧
    pageValidationFailure args = Some message.
Proof.
  intros Hqe Hpages Hdocs.
  unfold pageValidationFailure, validatePagesAgainstDocuments. rewrite Hqe.
  destruct (pageNumbers qe) as [|p ps]; [congruence|].
  destruct (argIndexedDocuments args) as [|doc docs].
  { split; [reflexivity|]. eexists. split; reflexivity. }
  pose proof (maxPagesOf_not_positive doc docs Hdocs) as Hmax.
  destruct (Z.eqb_spec (maxPagesOf doc docs) 0) as [Hz|Hnz].
  { split; [reflexivity|]. eexists. split; reflexivity. }
  rewrite filter_all_out_of_range by lia.
  cbn [isValid errorMessage]. rewrite invalidPagesMessage_truthy.
  split; [reflexivity|]. eexists. split; reflexivity.
Qed.

(** C10, as amended: for every call on a live orchestrator whose
    queryExtraction carries at least one page number, if indexedDocuments is
    empty or none of its documents has a positive page count (a missing
    count included), page validation fails and the search collaborator is
    not called; when, in addition, timeoutMs is a valid timer delay (an
    integer from 0 to 4294967295) and the fallback collaborator answers
    every call, the call returns the answer the fallback collaborator gives
    for the validation message, its only fallback call. *)
Theorem no_page_counts_fallback {Response} (W : Collaborators Response)
    this args tr qe :
  isDisposed this = false →
  argQueryExtraction args = Some qe →
  pageNumbers qe ≠ [] →
  (∀ d n, d ∈ argIndexedDocuments args → numPages d = Some n → (n ≤ 0)%Z) →
  isValid (validatePagesAgainstDocuments (pageNumbers qe) (argIndexedDocuments args))
    = false ∧
  searchCalls (snd (processQuery W this args tr)) = searchCalls tr ∧
  ((0 ≤ default 50000 (argTimeoutMs args) ≤ 4294967295)%Z →
   fallbackAlwaysAnswers W →
   ∃ message r,
     errorMessage
       (validatePagesAgainstDocuments (pageNumbers qe) (argIndexedDocuments args))
       = Some message ∧
     createFallbackResponse W (tr ++ trackerEntryCalls args) (FallbackCall message)
       = Returned r ∧
     fst (processQuery W this args tr) = Returned r ∧
     fallbackMessages (snd (processQuery W this args tr))
       = fallbackMessages tr ++ [message]).
Proof.
  intros Hactive Hqe Hpages Hdocs.
  destruct (pageValidationFailure_no_page_counts args qe Hqe Hpages Hdocs)
    as [Hinvalid (message & Hmessage & Hfail)].
  split; [exact Hinvalid|]. split.
  - by apply (processQuery_invalid_pages_no_search W this args message tr Hactive Hfail).
  - intros Hdelay Hfallback.
    destruct (Hfallback (tr ++ trackerEntryCalls args) (FallbackCall message))
      as [r Hr].
    exists message, r. split; [exact Hmessage|]. split; [exact Hr|].
    rewrite (processQuery_invalid_pages W this args message tr r
               Hactive Hdelay Hfail Hr).
    split; [reflexivity|]. cbn [snd].
    rewrite !fallbackMessages_app, fallbackMessages_trackerEntryCalls,
      fallbackMessages_trackerInvalidPageCalls.
    cbn. by rewrite !app_nil_r.
Qed.

Lemma no_page_counts_fallback_witness :
  processQuery
    (scriptedCollaborators [chunkAlpha] compressedBlob noneRelevant (Returned "answer"))
    activeService (demoArgs [undatedMemo] StandardVectorSearch [2] None) []
  = (Returned "Documents have no page information available",
     [FallbackCall "Documents have no page information available"]).
Proof.
  destruct (no_page_counts_fallback
              (scriptedCollaborators [chunkAlpha] compressedBlob noneRelevant
                 (Returned "answer"))
              activeService
              (demoArgs [undatedMemo] StandardVectorSearch [2] None) []
              (mkQueryExtraction [2] [] None))
    as (_ & _ & Hrun).
  - reflexivity.
  - reflexivity.
  - discriminate.
  - intros d n Hd Hn. apply list_elem_of_singleton in Hd. subst d. discriminate Hn.
  - destruct Hrun as (message & r & Hmessage & Hr & Hfst & Hcalls).
    + cbn. lia.
    + intros tr c. destruct c; eexists; reflexivity.
    + reflexivity.
Defined.

(** C10, as stated, fails for a timeoutMs that is no valid timer delay when
    the caller's signal is aborted: the timeout signal cannot be created, the
    try block ends before page validation, and the catch block re-throws the
    RangeError instead of returning a fallback answer (the fallback
    collaborator is not even called). *)
Lemma no_page_counts_invalid_delay_rethrown :
  pageNumbers (mkQueryExtraction [2] [] None) ≠ [] ∧
  numPages undatedMemo = None ∧
  isValid (validatePagesAgainstDocuments [2] [undatedMemo]) = false ∧
  processQuery abortedCallerCollaborators activeService
    (impatientArgs [undatedMemo] [2] (-1)) []
  = (Threw (ErrorObject "RangeError" (delayOutOfRangeMessage (-1))), []) ∧
  delayOutOfRangeMessage (-1)
  = "The value of " +:+ doubleQuote +:+ "delay" +:+ doubleQuote +:+
    " is out of range. It must be >= 0 && <= 4294967295. Received -1".
Proof. vm_compute. repeat split. discriminate. Qed.

(** ** Refinement stages of the standard and expanded pipelines *)

Lemma rerankAndCompress_compression_failed {Response} (W : Collaborators Response)
    context searchResults tr e rerankedResults :
  compressContext W (tr ++ [rerankCallOf context searchResults])
    (compressCallOf context searchResults) = Threw e →
  rerankResults W
    (tr ++ [rerankCallOf context searchResults; compressCallOf context searchResults])
    (rerankCallOf context searchResults) = Returned rerankedResults →
  rerankAndCompress W context searchResults tr =
  (Returned (rerankedResults, {| compressedContent := joinContents searchResults |}),
   tr ++ [rerankCallOf context searchResults; compressCallOf context searchResults;
          rerankCallOf context searchResults]).
Proof.
  intros Hcompress Hrerank.
  unfold rerankAndCompress, bind, settle, callRerank, callCompress, invoke, ret.
  fold (rerankCallOf context searchResults) (compressCallOf context searchResults).
  rewrite Hcompress. rewrite <- !app_assoc. cbn [app].
  destruct (rerankResults W tr (rerankCallOf context searchResults));
    rewrite Hrerank; rewrite <- ?app_assoc; reflexivity.
Qed.

Lemma rerankAndCompress_both_succeed {Response} (W : Collaborators Response)
    context searchResults tr rerankedResults compressedContext :
  rerankResults W tr (rerankCallOf context searchResults) = Returned rerankedResults →
  compressContext W (tr ++ [rerankCallOf context searchResults])
    (compressCallOf context searchResults) = Returned compressedContext →
  rerankAndCompress W context searchResults tr =
  (Returned (rerankedResults, compressedContext),
   tr ++ [rerankCallOf context searchResults; compressCallOf context searchResults]).
Proof.
  intros Hrerank Hcompress.
  unfold rerankAndCompress, bind, settle, callRerank, callCompress, invoke, ret.
  fold (rerankCallOf context searchResults) (compressCallOf context searchResults).
  rewrite Hrerank, Hcompress. rewrite <- !app_assoc. reflexivity.
Qed.

Lemma gradeRerankedResults_run {Response} (W : Collaborators Response)
    context rerankedResults tr :
  gradeRerankedResults W context rerankedResults tr =
  (Returned (relevantAfterGrading W context rerankedResults tr),
   tr ++ [gradeCallOf context rerankedResults]).
Proof.
  unfold gradeRerankedResults, relevantAfterGrading, tryCatch, bind, invoke, ret.
  fold (gradeCallOf context rerankedResults).
  destruct (gradeAndFilterDocuments W tr (gradeCallOf context rerankedResults));
    reflexivity.
Qed.

(** When grading throws, every reranked result is handed to source building,
    as the raw search result it is. *)
Lemma relevantAfterGrading_failure {Response} (W : Collaborators Response)
    context rerankedResults tr e :
  gradeAndFilterDocuments W tr (gradeCallOf context rerankedResults) = Threw e →
  relevantAfterGrading W context rerankedResults tr
  = List.map RawResultPayload rerankedResults.
Proof. intros H. unfold relevantAfterGrading. rewrite H. reflexivity. Qed.

(** C5, as amended: in the standard and expanded pipelines, when the
    compression side of the concurrent rerank-and-compress step fails and
    the reranker, called again, and source building succeed, the run goes on
    to answer generation; the context text passed to it is the concatenation,
    joined by blank lines, of the contents of the retrieved (merged search)
    results in retrieval order, the list the compressor was given.  The
    reranked list is what is graded and handed to source building.  If answer
    generation throws, the outcome is that of the fallback keyed on the raw
    query. *)
Theorem compression_failure_context {Response} (W : Collaborators Response)
    context searchResults strategy tr e rerankedResults sources :
  strategy ≠ FastVectorSearch →
  compressContext W (tr ++ [rerankCallOf context searchResults])
    (compressCallOf context searchResults) = Threw e →
  rerankResults W
    (tr ++ [rerankCallOf context searchResults; compressCallOf context searchResults])
    (rerankCallOf context searchResults) = Returned rerankedResults →
  buildSources W
    (tr ++ [rerankCallOf context searchResults; compressCallOf context searchResults;
            rerankCallOf context searchResults; gradeCallOf context rerankedResults])
    (BuildSourcesCall
       (relevantAfterGrading W context rerankedResults
          (tr ++ [rerankCallOf context searchResults;
                  compressCallOf context searchResults;
                  rerankCallOf context searchResults]))
       rerankedResults (indexedDocuments context)) = Returned sources →
  ∃ before,
    before =
      tr ++ [rerankCallOf context searchResults; compressCallOf context searchResults;
             rerankCallOf context searchResults; gradeCallOf context rerankedResults;
             BuildSourcesCall
               (relevantAfterGrading W context rerankedResults
                  (tr ++ [rerankCallOf context searchResults;
                          compressCallOf context searchResults;
                          rerankCallOf context searchResults]))
               rerankedResults (indexedDocuments context)] ∧
    executeSharedProcessingPipeline W context searchResults strategy tr =
    match generateAnswer W before
            (generateAnswerCallOf (joinContents searchResults) context sources) with
    | Returned r =>
        (Returned r,
         before ++ [generateAnswerCallOf (joinContents searchResults) context sources])
    | Threw _ =>
        (createFallbackResponse W
           (before ++ [generateAnswerCallOf (joinContents searchResults) context sources])
           (FallbackCall (query context)),
         before ++ [generateAnswerCallOf (joinContents searchResults) context sources;
                    FallbackCall (query context)])
    end.
Proof.
  intros Hslow Hcompress Hrerank Hbuild. eexists. split; [reflexivity|].
  unfold executeSharedProcessingPipeline. rewrite logAndRethrow_run.
  assert (∀ body : Run Response,
            match strategy with
            | FastVectorSearch =>
                do sources0 <- invoke (buildSources W)
                  (BuildSourcesCall
                     (List.map GradedPayload (List.map fastPathGraded searchResults))
                     searchResults (indexedDocuments context));
                callGenerateAnswer W (joinContents searchResults) context sources0
                  (contextPageNumbers context)
            | _ => body
            end = body) as Hbranch.
  { intros body. destruct strategy; congruence. }
  rewrite Hbranch. clear Hbranch.
  unfold bind at 1.
  rewrite (rerankAndCompress_compression_failed W context searchResults tr e
             rerankedResults Hcompress Hrerank).
  unfold bind at 1. rewrite gradeRerankedResults_run.
  unfold bind at 1. unfold invoke at 1.
  rewrite <- !app_assoc. simpl app. rewrite Hbuild.
  unfold tryCatch, callGenerateAnswer, callFallback, invoke.
  fold (generateAnswerCallOf (joinContents searchResults) context sources).
  cbn [compressedContent].
  destruct (generateAnswer W _ _); rewrite <- ?app_assoc; reflexivity.
Qed.

Lemma compression_failure_context_witness :
  executeSharedProcessingPipeline
    (scriptedCollaborators [chunkAlpha; chunkBeta] (Threw compressionFailed)
       noneRelevant (Returned "answer"))
    (demoContext []) [chunkAlpha; chunkBeta] StandardVectorSearch []
  = (Returned "answer",
     [rerankCallOf (demoContext []) [chunkAlpha; chunkBeta];
      compressCallOf (demoContext []) [chunkAlpha; chunkBeta];
      rerankCallOf (demoContext []) [chunkAlpha; chunkBeta];
      gradeCallOf (demoContext []) [chunkBeta; chunkAlpha];
      BuildSourcesCall [] [chunkBeta; chunkAlpha] [tenPageContract];
      generateAnswerCallOf (joinContents [chunkAlpha; chunkBeta]) (demoContext [])
        ["source"]]).
Proof.
  destruct (compression_failure_context
              (scriptedCollaborators [chunkAlpha; chunkBeta] (Threw compressionFailed)
                 noneRelevant (Returned "answer"))
              (demoContext []) [chunkAlpha; chunkBeta] StandardVectorSearch []
              compressionFailed [chunkBeta; chunkAlpha] ["source"])
    as (before & Hbefore & Hrun).
  - discriminate.
  - reflexivity.
  - reflexivity.
  - reflexivity.
  - rewrite Hrun, Hbefore. reflexivity.
Defined.

(** C5, as stated, fails: the search returns alpha then beta, the reranker
    puts beta first, compression fails; the context text handed to answer
    generation is alpha, blank line, beta (retrieval order), not the
    concatenation in reranked order. *)
Lemma compression_failure_context_not_reranked :
  rerankResults
    (scriptedCollaborators [chunkAlpha; chunkBeta] (Threw compressionFailed)
       noneRelevant (Returned "answer"))
    [] (rerankCallOf (demoContext []) [chunkAlpha; chunkBeta])
  = Returned [chunkBeta; chunkAlpha] ∧
  fst (processQuery
         (scriptedCollaborators [chunkAlpha; chunkBeta] (Threw compressionFailed)
            noneRelevant (Returned "answer"))
         activeService (demoArgs [tenPageContract] StandardVectorSearch [] None) [])
  = Returned "answer" ∧
  generationContexts
    (snd (processQuery
            (scriptedCollaborators [chunkAlpha; chunkBeta] (Threw compressionFailed)
               noneRelevant (Returned "answer"))
            activeService (demoArgs [tenPageContract] StandardVectorSearch [] None) []))
  = ["alpha" +:+ blankLine +:+ "beta"] ∧
  joinContents [chunkBeta; chunkAlpha] = "beta" +:+ blankLine +:+ "alpha" ∧
  "alpha" +:+ blankLine +:+ "beta" ≠ joinContents [chunkBeta; chunkAlpha].
Proof. vm_compute. repeat split. discriminate. Qed.

(** C6: when grading throws in the standard pipeline, the run completes and
    the whole reranked list reaches source building, but as raw search
    results: the payload elements are not graded documents and carry no
    isRelevant property, where the claim has isRelevant = true for each. *)
Theorem grading_failure_passes_raw_results :
  fst (processQuery
         (scriptedCollaborators [chunkAlpha; chunkBeta] compressedBlob
            (Threw gradingFailed) (Returned "answer"))
         activeService (demoArgs [tenPageContract] StandardVectorSearch [] None) [])
  = Returned "answer" ∧
  sourceBuildingPayloads
    (snd (processQuery
            (scriptedCollaborators [chunkAlpha; chunkBeta] compressedBlob
               (Threw gradingFailed) (Returned "answer"))
            activeService (demoArgs [tenPageContract] StandardVectorSearch [] None) []))
  = [[RawResultPayload chunkBeta; RawResultPayload chunkAlpha]] ∧
  List.map payloadIsRelevant [RawResultPayload chunkBeta; RawResultPayload chunkAlpha]
  = [None; None] ∧
  List.map payloadIsRelevant
    (List.map GradedPayload (List.map fastPathGraded [chunkBeta; chunkAlpha]))
  = [Some true; Some true].
Proof. vm_compute. repeat split. Qed.

(** ** The pipeline's abort signal *)

Lemma pipelineSignal_with_caller_signal s timeoutMs :
  pipelineSignal (Some s) timeoutMs = s.
Proof. reflexivity. Qed.

Lemma pipelineSignal_without_caller_signal cancelledAt timeoutMs t :
  abortedAt cancelledAt (pipelineSignal None timeoutMs) t
  = composedAbortedAt cancelledAt None timeoutMs t.
Proof. reflexivity. Qed.

(** With a caller signal that is never aborted, the pipeline's signal is
    never aborted, whatever the timeout. *)
Lemma pipelineSignal_never_times_out id timeoutMs t :
  abortedAt (λ _, None) (pipelineSignal (Some (CallerSignal id)) timeoutMs) t = false.
Proof. reflexivity. Qed.

(** C9: when the caller supplies a signal, the signal threaded through the
    pipeline is that signal alone: with a caller that never cancels and the
    default timeout of 50000 ms, it is not aborted at 50000 ms, where the
    composition with the timer is; the search collaborator receives the
    caller's signal. *)
Theorem pipelineSignal_drops_timeout_with_caller_signal :
  pipelineSignal (Some (CallerSignal 0)) 50000 = CallerSignal 0 ∧
  abortedAt (λ _, None) (pipelineSignal (Some (CallerSignal 0)) 50000) 50000 = false ∧
  composedAbortedAt (λ _, None) (Some (CallerSignal 0)) 50000 50000 = true ∧
  searchSignals
    (snd (processQuery
            (scriptedCollaborators [chunkAlpha] compressedBlob noneRelevant
               (Returned "answer"))
            activeService
            (demoArgs [tenPageContract] StandardVectorSearch []
               (Some (CallerSignal 0))) []))
  = [Some (CallerSignal 0)].
Proof. vm_compute. repeat split. Qed.

(** ** Search calls of a strategy run *)

Lemma addsNoSearch_ret {A : Type} (a : A) : addsNoSearch (ret a).
Proof. intros tr. reflexivity. Qed.

Lemma addsNoSearch_throw {A : Type} (e : Thrown) : addsNoSearch (@throw A e).
Proof. intros tr. reflexivity. Qed.

Lemma addsNoSearch_invoke {A : Type} (reply : Trace -> Call -> Outcome A) c :
  isSearchCall c = false → addsNoSearch (invoke reply c).
Proof.
  intros Hc tr. unfold invoke. cbn [snd]. rewrite searchCalls_app.
  unfold searchCalls at 2. cbn [List.filter]. rewrite Hc. apply app_nil_r.
Qed.

Lemma addsNoSearch_bind {A B : Type} (m : Run A) (k : A -> Run B) :
  addsNoSearch m → (∀ a, addsNoSearch (k a)) → addsNoSearch (bind m k).
Proof.
  intros Hm Hk tr. unfold bind. specialize (Hm tr).
  destruct (m tr) as [[a|e] tr']; cbn [snd] in *; [|exact Hm].
  rewrite Hk. exact Hm.
Qed.

Lemma addsNoSearch_tryCatch {A : Type} (m : Run A) (handler : Thrown -> Run A) :
  addsNoSearch m → (∀ e, addsNoSearch (handler e)) → addsNoSearch (tryCatch m handler).
Proof.
  intros Hm Hh tr. unfold tryCatch. specialize (Hm tr).
  destruct (m tr) as [[a|e] tr']; cbn [snd] in *; [exact Hm|].
  rewrite Hh. exact Hm.
Qed.

Lemma addsNoSearch_settle {A : Type} (m : Run A) :
  addsNoSearch m → addsNoSearch (settle m).
Proof.
  intros Hm tr. unfold settle. specialize (Hm tr).
  destruct (m tr) as [o tr']. exact Hm.
Qed.

Lemma addsNoSearch_logAndRethrow {A : Type} (m : Run A) :
  addsNoSearch m → addsNoSearch (logAndRethrow m).
Proof. intros Hm tr. rewrite logAndRethrow_run. apply Hm. Qed.

Lemma addsNoSearch_track tracker event : addsNoSearch (track tracker event).
Proof.
  intros tr. rewrite track_run. cbn [snd].
  rewrite searchCalls_app, searchCalls_tracker. apply app_nil_r.
Qed.

Lemma addsNoSearch_callFallback {Response} (W : Collaborators Response) message :
  addsNoSearch (callFallback W message).
Proof. by apply addsNoSearch_invoke. Qed.

Lemma addsNoSearch_callGenerateAnswer {Response} (W : Collaborators Response)
    contextText context sources pages :
  addsNoSearch (callGenerateAnswer W contextText context sources pages).
Proof. by apply addsNoSearch_invoke. Qed.

Lemma addsNoSearch_rerankAndCompress {Response} (W : Collaborators Response)
    context searchResults :
  addsNoSearch (rerankAndCompress W context searchResults).
Proof.
  unfold rerankAndCompress.
  apply addsNoSearch_bind; [by apply addsNoSearch_settle, addsNoSearch_invoke|].
  intros reranking.
  apply addsNoSearch_bind; [by apply addsNoSearch_settle, addsNoSearch_invoke|].
  intros compression.
  destruct reranking, compression;
    first [ apply addsNoSearch_ret
          | apply addsNoSearch_bind;
            [by apply addsNoSearch_invoke|intros; apply addsNoSearch_ret] ].
Qed.

Lemma addsNoSearch_shared {Response} (W : Collaborators Response)
    context searchResults strategyName :
  addsNoSearch (executeSharedProcessingPipeline W context searchResults strategyName).
Proof.
  unfold executeSharedProcessingPipeline. apply addsNoSearch_logAndRethrow.
  assert (addsNoSearch
            (do ' (rerankedResults, compressedContext) <-
                rerankAndCompress W context searchResults;
             do relevant <- gradeRerankedResults W context rerankedResults;
             do sources <- invoke (buildSources W)
                             (BuildSourcesCall relevant rerankedResults
                                (indexedDocuments context));
             tryCatch
               (callGenerateAnswer W (compressedContent compressedContext) context
                  sources (contextPageNumbers context))
               (fun _ => callFallback W (query context)))) as Hslow.
  { apply addsNoSearch_bind; [apply addsNoSearch_rerankAndCompress|].
    intros [rerankedResults compressedContext].
    apply addsNoSearch_bind.
    { intros tr. rewrite gradeRerankedResults_run. cbn [snd].
      rewrite searchCalls_app. apply app_nil_r. }
    intros relevant. apply addsNoSearch_bind; [by apply addsNoSearch_invoke|].
    intros sources. apply addsNoSearch_tryCatch.
    - apply addsNoSearch_callGenerateAnswer.
    - intros _. apply addsNoSearch_callFallback. }
  destruct strategyName; try exact Hslow.
  apply addsNoSearch_bind; [by apply addsNoSearch_invoke|].
  intros sources. apply addsNoSearch_callGenerateAnswer.
Qed.

(** Every strategy issues one search call per query variant, in variant
    order, and no other search call; the page-query strategy issues exactly
    one, for the raw query. *)
Lemma executeStrategyPipeline_searchCalls {Response} (W : Collaborators Response)
    strategy context tr :
  searchCalls (snd (executeStrategyPipeline W strategy context tr))
  = searchCalls tr ++ searchCallsFor W strategy context.
Proof.
  assert (∀ s (k : list SearchResult → Run Response),
            (∀ rs, addsNoSearch (k rs)) →
            searchCalls
              (snd (logAndRethrow
                      (do searchResults <-
                          performVectorSearch W (searchQueriesFor s context) context s;
                       k searchResults) tr))
            = searchCalls tr ++ searchCallsFor W s context) as Hgen.
  { intros s k Hk. rewrite logAndRethrow_run. unfold bind.
    rewrite performVectorSearch_run. rewrite Hk, searchCalls_app.
    unfold searchCallsFor. by rewrite searchCalls_searchCallFor. }
  destruct strategy;
    [ apply (Hgen FastVectorSearch
               (λ rs, match rs with
                      | [] => callFallback W (query context)
                      | _ => executeSharedProcessingPipeline W context rs
                               FastVectorSearch
                      end))
    | apply (Hgen StandardVectorSearch
               (λ rs, match rs with
                      | [] => callFallback W (query context)
                      | _ => executeSharedProcessingPipeline W context rs
                               StandardVectorSearch
                      end))
    | apply (Hgen ExpandedSearch
               (λ rs, match rs with
                      | [] => callFallback W (query context)
                      | _ => executeSharedProcessingPipeline W context rs
                               ExpandedSearch
                      end))
    | apply (Hgen PageQueryStrategy
               (λ rs, match rs with
                      | [] => callFallback W noPageContentMessage
                      | _ =>
                          do sources <- invoke (buildSources W)
                            (BuildSourcesCall
                               (List.map (fun r => GradedPayload (pageMatchGraded r)) rs)
                               rs (indexedDocuments context));
                          callGenerateAnswer W (joinContents rs) context sources
                            (Some (default [] (contextPageNumbers context)))
                      end)) ];
    intros [|r rs];
    first [ apply addsNoSearch_callFallback
          | apply addsNoSearch_shared
          | apply addsNoSearch_bind;
            [by apply addsNoSearch_invoke
            |intros; apply addsNoSearch_callGenerateAnswer] ].
Qed.

Lemma page_query_single_variant {Response} (W : Collaborators Response) context tr :
  searchCalls (snd (executeStrategyPipeline W PageQueryStrategy context tr))
  = searchCalls tr ++ [searchCallFor W context PageQueryStrategy (query context)].
Proof. rewrite executeStrategyPipeline_searchCalls. reflexivity. Qed.

(** ** Error classification in processQuery *)

Lemma handlePipelineError_abort {Response} (W : Collaborators Response) args error tr :
  isAbortError error (callerAbortedAfter W args (tr ++ trackerErrorCalls args error))
    = true →
  handlePipelineError W args error tr = (Threw error, tr ++ trackerErrorCalls args error).
Proof. intros H. rewrite handlePipelineError_run, H. reflexivity. Qed.

Lemma handlePipelineError_timeout {Response} (W : Collaborators Response)
    args error tr :
  isAbortError error (callerAbortedAfter W args (tr ++ trackerErrorCalls args error))
    = false →
  isTimeoutError error = true →
  handlePipelineError W args error tr =
  (createFallbackResponse W (tr ++ trackerErrorCalls args error)
     (FallbackCall tookTooLongMessage),
   tr ++ trackerErrorCalls args error ++ [FallbackCall tookTooLongMessage]).
Proof. intros Ha Ht. rewrite handlePipelineError_run, Ha, Ht. reflexivity. Qed.

Lemma handlePipelineError_other {Response} (W : Collaborators Response) args error tr :
  isAbortError error (callerAbortedAfter W args (tr ++ trackerErrorCalls args error))
    = false →
  isTimeoutError error = false →
  handlePipelineError W args error tr =
  (createFallbackResponse W (tr ++ trackerErrorCalls args error)
     (FallbackCall (argQuery args)),
   tr ++ trackerErrorCalls args error ++ [FallbackCall (argQuery args)]).
Proof. intros Ha Ht. rewrite handlePipelineError_run, Ha, Ht. reflexivity. Qed.

(** What the code does keep of the propagation policy: with a fallback
    collaborator that answers every call, an error leaves [processQuery] only
    if the orchestrator is disposed or the catch block classified the error
    as an abort (name AbortError, "aborted" in the message, or the caller's
    signal aborted). *)
Lemma processQuery_escaping_errors {Response} (W : Collaborators Response)
    this args tr e :
  fallbackAlwaysAnswers W →
  fst (processQuery W this args tr) = Threw e →
  (isDisposed this = true ∧ e = serviceDisposedError) ∨
  (isDisposed this = false ∧
   ∃ tr', isAbortError e (callerAbortedAfter W args tr') = true).
Proof.
  intros Hfallback Hthrew. destruct (isDisposed this) eqn:Hd.
  - left. rewrite processQuery_disposed in Hthrew by exact Hd.
    cbn in Hthrew. split; [reflexivity|congruence].
  - right. split; [reflexivity|].
    rewrite processQuery_run in Hthrew by exact Hd. unfold tryCatch in Hthrew.
    destruct (processQueryAttempt W args (tr ++ trackerEntryCalls args))
      as [[r|e'] tr'] eqn:Hattempt; [discriminate Hthrew|].
    rewrite handlePipelineError_run in Hthrew.
    destruct (isAbortError e' _) eqn:Habort.
    + cbn in Hthrew. injection Hthrew as ->. eauto.
    + destruct (isTimeoutError e'); cbn [fst] in Hthrew;
        match type of Hthrew with
        | createFallbackResponse W ?t ?c = _ =>
            destruct (Hfallback t c) as [r Hr]; congruence
        end.
Qed.

(** C1: a collaborator that observes the pipeline's timeout signal throws
    the platform's TimeoutError, whose message reads "The operation was
    aborted due to timeout".  On the fast strategy with no caller signal the
    error reaches the catch block of processQuery, which classifies it as an
    abort because of the word "aborted" and throws it again: the call throws
    a TimeoutError and no fallback answer is built. *)
Theorem processQuery_rethrows_timeout_error :
  isTimeoutError platformTimeoutError = true ∧
  isAbortError platformTimeoutError false = true ∧
  argAbortSignal (demoArgs [tenPageContract] FastVectorSearch [] None) = None ∧
  fst (processQuery
         (scriptedCollaborators [chunkAlpha] compressedBlob noneRelevant
            (Threw platformTimeoutError))
         activeService (demoArgs [tenPageContract] FastVectorSearch [] None) [])
  = Threw platformTimeoutError ∧
  fallbackMessages
    (snd (processQuery
            (scriptedCollaborators [chunkAlpha] compressedBlob noneRelevant
               (Threw platformTimeoutError))
            activeService (demoArgs [tenPageContract] FastVectorSearch [] None) []))
  = [].
Proof. vm_compute. repeat split. Qed.

(** A TimeoutError whose message does not contain "aborted" is converted, as
    is any other error. *)
Lemma processQuery_converts_other_timeout :
  processQuery
    (scriptedCollaborators [chunkAlpha] compressedBlob noneRelevant
       (Threw (ErrorObject "TimeoutError" "signal timed out")))
    activeService (demoArgs [tenPageContract] FastVectorSearch [] None) []
  = (Returned tookTooLongMessage,
     [SearchCall demoQuery "dr1" ["d1"] (Some (TimeoutSignal 50000)) 5 (7 # 10) None;
      BuildSourcesCall [GradedPayload (fastPathGraded chunkAlpha)] [chunkAlpha]
        [tenPageContract];
      GenerateAnswerCall "alpha" [] demoQuery ["source"] (Some (TimeoutSignal 50000))
        None None (Some []);
      FallbackCall tookTooLongMessage]).
Proof. vm_compute. reflexivity. Qed.

(** The merged result is empty exactly when every variant came back empty. *)
Lemma combineQueryResults_nil (queryResults : list (list SearchResult)) :
  combineQueryResults queryResults = [] ↔ concat queryResults = [].
Proof.
  unfold combineQueryResults, removeDuplicateResults.
  destruct (concat queryResults) as [|r rest]; [done|].
  cbn [removeDuplicateResults_from].
  destruct (decide (chunkId r ∈ (∅ : gset string))) as [Hin|Hout];
    [by apply not_elem_of_empty in Hin|done].
Qed.

(** * Further properties of the orchestrator *)

(** ** Deduplication, continued *)

Lemma removeDuplicateResults_from_app seen l1 l2 :
  removeDuplicateResults_from seen (l1 ++ l2) =
  removeDuplicateResults_from seen l1 ++
  removeDuplicateResults_from (list_to_set (List.map chunkId l1) ∪ seen) l2.
Proof.
  revert seen. induction l1 as [|r l1 IH]; intros seen.
  - cbn. f_equal. apply leibniz_equiv. apply set_equiv. intros x.
    rewrite elem_of_union. split; [tauto|]. intros [H|H]; [|exact H].
    by apply not_elem_of_empty in H.
  - cbn [app removeDuplicateResults_from List.map list_to_set].
    destruct (decide (chunkId r ∈ seen)) as [Hin|Hout].
    + rewrite IH. f_equal. f_equal. apply leibniz_equiv.
      apply set_equiv. intros x. rewrite !elem_of_union, elem_of_singleton.
      split; [tauto|]. intros [[->|H]|H]; tauto.
    + cbn [app]. rewrite IH. f_equal. f_equal. f_equal. apply leibniz_equiv.
      apply set_equiv. intros x. rewrite !elem_of_union, elem_of_singleton. tauto.
Qed.

Lemma removeDuplicateResults_from_all_seen seen l :
  (∀ r, r ∈ l → chunkId r ∈ seen) → removeDuplicateResults_from seen l = [].
Proof.
  induction l as [|r l IH]; intros H; [reflexivity|].
  cbn [removeDuplicateResults_from].
  destruct (decide (chunkId r ∈ seen)) as [Hin|Hout].
  - apply IH. intros x Hx. apply H. by right.
  - exfalso. apply Hout, H. left.
Qed.

(** X1: deduplicating twice changes nothing: the merged list is a fixed point
    of [removeDuplicateResults]. *)
Theorem removeDuplicateResults_idempotent (results : list SearchResult) :
  removeDuplicateResults (removeDuplicateResults results)
  = removeDuplicateResults results.
Proof.
  unfold removeDuplicateResults at 1.
  apply removeDuplicateResults_from_id.
  - apply removeDuplicateResults_from_NoDup.
  - intros r _. apply not_elem_of_empty.
Qed.

(** X2: a query variant whose results all repeat chunk ids already returned by
    earlier variants adds nothing to the merged result. *)
Theorem combineQueryResults_repeated_variant
    (queryResults : list (list SearchResult)) (late : list SearchResult) :
  (∀ r, r ∈ late → chunkId r ∈ List.map chunkId (concat queryResults)) →
  combineQueryResults (queryResults ++ [late]) = combineQueryResults queryResults.
Proof.
  intros Hseen. unfold combineQueryResults, removeDuplicateResults.
  rewrite concat_app. cbn [concat]. rewrite app_nil_r.
  rewrite removeDuplicateResults_from_app.
  rewrite (removeDuplicateResults_from_all_seen
             (list_to_set (List.map chunkId (concat queryResults)) ∪ ∅) late);
    [apply app_nil_r|].
  intros r Hr. apply elem_of_union. left. apply elem_of_list_to_set. by apply Hseen.
Qed.

Lemma combineQueryResults_repeated_variant_witness :
  combineQueryResults ([[chunkAlpha; chunkBeta]] ++ [[chunkBeta; chunkAlpha]])
  = [chunkAlpha; chunkBeta].
Proof.
  rewrite (combineQueryResults_repeated_variant
             [[chunkAlpha; chunkBeta]] [chunkBeta; chunkAlpha]).
  - vm_compute. reflexivity.
  - intros r Hr. vm_compute.
    apply elem_of_cons in Hr as [->|Hr]; [right; left|].
    apply list_elem_of_singleton in Hr as ->. left.
Defined.

(** ** Query variants, continued *)



Lemma truthyString_true s : truthyString s = true ↔ s ≠ "".
Proof.
  unfold truthyString. rewrite negb_true_iff. apply String.eqb_neq.
Qed.

(** The candidate strings [buildQueriesForStrategy] starts from, before
    trimming: the original query, the budgeted rewritten queries and, for
    the expanded strategy, the hypothetical answer. *)
Lemma buildQueriesForStrategy_unfold context strategy :
  buildQueriesForStrategy context strategy =
  arrayFromSet
    (List.filter truthyString
       (List.map trim
          ([query context]
             ++ rewrittenQueriesFor context (getMaxQueriesForStrategy strategy)
             ++ hydeQueries context strategy))).
Proof. reflexivity. Qed.






(** X5: a blank query (white space only, Unicode white space included)
    without rewritten variants yields no variant at all: the fast, standard
    and expanded pipelines then issue no search and hand the raw query
    straight to the fallback collaborator. *)
Theorem blank_query_skips_search {Response} (W : Collaborators Response)
    strategy context tr :
  strategy ≠ PageQueryStrategy →
  trim (query context) = "" →
  contextQueryRewriting context = None →
  buildQueriesForStrategy context strategy = [] ∧
  executeStrategyPipeline W strategy context tr =
    (createFallbackResponse W tr (FallbackCall (query context)),
     tr ++ [FallbackCall (query context)]).
Proof.
  intros Hstrategy Hblank Hrewriting.
  assert (buildQueriesForStrategy context strategy = []) as Hnone.
  { rewrite buildQueriesForStrategy_unfold.
    unfold rewrittenQueriesFor, hydeQueries. rewrite Hrewriting.
    replace (match strategy with
             | ExpandedSearch => @nil string
             | _ => []
             end) with (@nil string) by (by destruct strategy).
    cbn [app List.map List.filter]. rewrite Hblank. reflexivity. }
  split; [exact Hnone|].
  assert (executeVectorPipeline W strategy context tr =
          (createFallbackResponse W tr (FallbackCall (query context)),
           tr ++ [FallbackCall (query context)])) as Hrun.
  { rewrite executeVectorPipeline_no_results; rewrite Hnone; cbn [List.map].
    - by rewrite app_nil_r.
    - reflexivity. }
  destruct strategy; first [exact Hrun | congruence].
Qed.

Lemma blank_query_skips_search_witness :
  query blankQueryContext
  = noBreakSpace +:+ " " +:+ ideographicSpace +:+ byteOrderMark +:+ LF ∧
  executeStrategyPipeline
    (scriptedCollaborators [chunkAlpha] compressedBlob noneRelevant (Returned "answer"))
    StandardVectorSearch blankQueryContext []
  = (Returned (query blankQueryContext), [FallbackCall (query blankQueryContext)]).
Proof.
  split; [reflexivity|].
  exact (proj2 (blank_query_skips_search
                  (scriptedCollaborators [chunkAlpha] compressedBlob noneRelevant
                     (Returned "answer"))
                  StandardVectorSearch blankQueryContext []
                  ltac:(discriminate) eq_refl eq_refl)).
Defined.

(** ** Page validation, continued *)

Lemma fold_left_max_ge (l : list Z) (a p : Z) :
  (p ≤ List.fold_left Z.max l a)%Z ↔ (p ≤ a)%Z ∨ ∃ x, x ∈ l ∧ (p ≤ x)%Z.
Proof.
  revert a. induction l as [|y l IH]; intros a; cbn [List.fold_left].
  - split; [by left|]. intros [H|(x & Hx & _)]; [exact H|inversion Hx].
  - rewrite IH. split.
    + intros [H|(x & Hx & Hp)].
      * destruct (Z.max_spec a y) as [[_ E]|[_ E]]; rewrite E in H.
        -- right. exists y. split; [left|exact H].
        -- by left.
      * right. exists x. split; [by right|exact Hp].
    + intros [H|(x & Hx & Hp)].
      * left. lia.
      * apply elem_of_cons in Hx as [->|Hx]; [left; lia|]. right. eauto.
Qed.

Lemma maxPagesOf_ge doc docs p :
  (p ≤ maxPagesOf doc docs)%Z ↔ ∃ d, d ∈ doc :: docs ∧ (p ≤ numPagesOrZero d)%Z.
Proof.
  unfold maxPagesOf. rewrite fold_left_max_ge. split.
  - intros [H|(x & Hx & Hp)].
    + exists doc. split; [left|exact H].
    + apply list_elem_of_fmap in Hx as (d & -> & Hd). exists d. split; [by right|exact Hp].
  - intros (d & Hd & Hp). apply elem_of_cons in Hd as [->|Hd]; [by left|].
    right. exists (numPagesOrZero d). split; [|exact Hp].
    apply list_elem_of_fmap. eauto.
Qed.

Lemma filter_nil_iff {A : Type} (f : A → bool) (l : list A) :
  List.filter f l = [] ↔ ∀ x, x ∈ l → f x = false.
Proof.
  induction l as [|y l IH]; cbn [List.filter].
  - split; [intros _ x Hx; inversion Hx|reflexivity].
  - destruct (f y) eqn:E.
    + split; [discriminate|]. intros H. specialize (H y ltac:(left)). congruence.
    + rewrite IH. split.
      * intros H x Hx. apply elem_of_cons in Hx as [->|Hx]; [exact E|by apply H].
      * intros H x Hx. apply H. by right.
Qed.

Lemma pageOutOfRange_false maxPages p :
  pageOutOfRange maxPages p = false ↔ (1 ≤ p ∧ p ≤ maxPages)%Z.
Proof.
  unfold pageOutOfRange. rewrite orb_false_iff, !Z.ltb_ge. tauto.
Qed.

(** X6: page validation accepts a request exactly when every requested page is
    at least 1 and at most the page count of some indexed document (a missing
    count being 0): one document long enough suffices for all the others.
    A rejected request always comes with a non-empty message, an accepted
    one with none. *)
Theorem validatePagesAgainstDocuments_accepts_iff
    (requestedPages : list Z) (indexedDocuments : list AccessibleDocument) :
  (isValid (validatePagesAgainstDocuments requestedPages indexedDocuments) = true ↔
   ∀ p, p ∈ requestedPages →
        (1 ≤ p)%Z ∧ ∃ d, d ∈ indexedDocuments ∧ (p ≤ numPagesOrZero d)%Z) ∧
  ((isValid (validatePagesAgainstDocuments requestedPages indexedDocuments) = true ∧
    errorMessage (validatePagesAgainstDocuments requestedPages indexedDocuments) = None) ∨
   (isValid (validatePagesAgainstDocuments requestedPages indexedDocuments) = false ∧
    ∃ message,
      errorMessage (validatePagesAgainstDocuments requestedPages indexedDocuments)
        = Some message ∧ message ≠ "")).
Proof.
  unfold validatePagesAgainstDocuments.
  destruct requestedPages as [|p0 ps].
  { split; [|by left]. split; [intros _ p Hp; inversion Hp|reflexivity]. }
  destruct indexedDocuments as [|doc docs].
  { split; [|right; split; [reflexivity|eexists; split; [reflexivity|discriminate]]].
    split; [discriminate|]. intros H.
    destruct (H p0 ltac:(left)) as [_ (d & Hd & _)]. inversion Hd. }
  destruct (Z.eqb_spec (maxPagesOf doc docs) 0) as [Hzero|Hnonzero].
  { split; [|right; split; [reflexivity|eexists; split; [reflexivity|discriminate]]].
    split; [discriminate|]. intros H.
    destruct (H p0 ltac:(left)) as [Hlow Hdoc].
    apply maxPagesOf_ge in Hdoc. lia. }
  destruct (List.filter (pageOutOfRange (maxPagesOf doc docs)) (p0 :: ps))
    as [|bad invalid] eqn:Hfilter.
  - split; [|by left]. split; [|reflexivity]. intros _ p Hp.
    pose proof (proj1 (filter_nil_iff _ _) Hfilter p Hp) as Hin.
    apply pageOutOfRange_false in Hin as [Hlow Hhigh].
    split; [exact Hlow|]. by apply maxPagesOf_ge.
  - split.
    + split; [discriminate|]. intros H. exfalso.
      assert (List.filter (pageOutOfRange (maxPagesOf doc docs)) (p0 :: ps) = [])
        as Hnil; [|congruence].
      apply filter_nil_iff. intros p Hp. apply pageOutOfRange_false.
      destruct (H p Hp) as [Hlow Hdoc]. split; [exact Hlow|].
      by apply maxPagesOf_ge.
    + right. split; [reflexivity|]. eexists. split; [reflexivity|].
      apply truthyString_true, invalidPagesMessage_truthy.
Qed.

(** ** Metadata filter, continued *)

(** X7: [buildMetadataFilter] returns null only for a request with no indexed
    document and no explicit page number; the dataroom id alone is not
    enough for a filter. *)
Theorem buildMetadataFilter_null_iff context :
  buildMetadataFilter context = None ↔
  indexedDocuments context = [] ∧ hasPageNumbers context = false.
Proof.
  unfold buildMetadataFilter, hasPageNumbers.
  destruct (indexedDocuments context) as [|d docs],
           (contextPageNumbers context) as [[|p ps]|]; cbn;
    split; first [ intros [? ?]; congruence | congruence | tauto | discriminate ].
Qed.

(** ** The calls of a run *)

Lemma emits_ret {A : Type} (P : Call → Prop) (a : A) : emits P (ret a).
Proof. intros tr. exists []. split; [by rewrite app_nil_r|constructor]. Qed.

Lemma emits_throw {A : Type} (P : Call → Prop) (e : Thrown) : emits P (@throw A e).
Proof. intros tr. exists []. split; [by rewrite app_nil_r|constructor]. Qed.

Lemma emits_invoke {A : Type} (P : Call → Prop)
    (reply : Trace → Call → Outcome A) c :
  P c → emits P (invoke reply c).
Proof. intros Hc tr. exists [c]. split; [reflexivity|by constructor]. Qed.

Lemma emits_bind {A B : Type} (P : Call → Prop) (m : Run A) (k : A → Run B) :
  emits P m → (∀ a, emits P (k a)) → emits P (bind m k).
Proof.
  intros Hm Hk tr. unfold bind. destruct (Hm tr) as (new & Hnew & HP).
  destruct (m tr) as [[a|e] tr']; cbn [snd] in *; subst tr'.
  - destruct (Hk a (tr ++ new)) as (more & Hmore & HQ).
    exists (new ++ more). rewrite Hmore, app_assoc. split; [reflexivity|].
    by apply Forall_app.
  - exists new. by split.
Qed.

Lemma emits_tryCatch {A : Type} (P : Call → Prop) (m : Run A)
    (handler : Thrown → Run A) :
  emits P m → (∀ e, emits P (handler e)) → emits P (tryCatch m handler).
Proof.
  intros Hm Hh tr. unfold tryCatch. destruct (Hm tr) as (new & Hnew & HP).
  destruct (m tr) as [[a|e] tr']; cbn [snd] in *; subst tr'.
  - exists new. by split.
  - destruct (Hh e (tr ++ new)) as (more & Hmore & HQ).
    exists (new ++ more). rewrite Hmore, app_assoc. split; [reflexivity|].
    by apply Forall_app.
Qed.

Lemma emits_settle {A : Type} (P : Call → Prop) (m : Run A) :
  emits P m → emits P (settle m).
Proof.
  intros Hm tr. unfold settle. destruct (Hm tr) as (new & Hnew & HP).
  destruct (m tr) as [o tr']. exists new. by split.
Qed.

Lemma emits_logAndRethrow {A : Type} (P : Call → Prop) (m : Run A) :
  emits P m → emits P (logAndRethrow m).
Proof. intros Hm tr. rewrite logAndRethrow_run. apply Hm. Qed.

Lemma emits_weaken {A : Type} (P Q : Call → Prop) (m : Run A) :
  (∀ c, P c → Q c) → emits P m → emits Q m.
Proof.
  intros HPQ Hm tr. destruct (Hm tr) as (new & Hnew & HP).
  exists new. split; [exact Hnew|]. eapply Forall_impl; eauto.
Qed.

Lemma emits_performVectorSearch {Response} (W : Collaborators Response)
    (P : Call → Prop) searchQueries context strategy :
  (∀ q, P (searchCallFor W context strategy q)) →
  emits P (performVectorSearch W searchQueries context strategy).
Proof.
  intros HP tr. rewrite performVectorSearch_run. eexists. split; [reflexivity|].
  apply Forall_forall. intros c Hc.
  apply list_elem_of_fmap in Hc as (q & -> & _). apply HP.
Qed.

Ltac emits_steps leaf :=
  repeat first
    [ apply emits_ret
    | apply emits_throw
    | apply emits_logAndRethrow
    | apply emits_settle
    | apply emits_performVectorSearch; intros
    | apply emits_bind; [|intros ?]
    | apply emits_tryCatch; [|intros ?]
    | apply emits_invoke; leaf ].

Lemma emits_rerankAndCompress {Response} (W : Collaborators Response)
    (P : Call → Prop) context searchResults :
  P (rerankCallOf context searchResults) →
  P (compressCallOf context searchResults) →
  emits P (rerankAndCompress W context searchResults).
Proof.
  intros Hr Hc. unfold rerankAndCompress, callRerank, callCompress.
  apply emits_bind; [by apply emits_settle, emits_invoke|]. intros reranking.
  apply emits_bind; [by apply emits_settle, emits_invoke|]. intros compression.
  destruct reranking, compression;
    emits_steps ltac:(first [exact Hr | exact Hc]).
Qed.

Lemma isPipelineCall_searchCallFor {Response} (W : Collaborators Response)
    context strategy q :
  isPipelineCall context (searchCallFor W context strategy q).
Proof. cbn. tauto. Qed.

Lemma emits_shared {Response} (W : Collaborators Response)
    context searchResults strategyName :
  emits (isPipelineCall context)
    (executeSharedProcessingPipeline W context searchResults strategyName).
Proof.
  unfold executeSharedProcessingPipeline, gradeRerankedResults,
    callGenerateAnswer, callFallback.
  apply emits_logAndRethrow.
  destruct strategyName;
    try (apply emits_bind;
         [apply emits_rerankAndCompress; cbn; tauto|intros [reranked compressed]]);
    emits_steps ltac:(cbn; tauto).
Qed.

Lemma emits_strategy {Response} (W : Collaborators Response) strategy context :
  emits (isPipelineCall context) (executeStrategyPipeline W strategy context).
Proof.
  destruct strategy;
    unfold executeStrategyPipeline, executeFastVectorPipeline,
      executeStandardPipeline, executeExpandedPipeline, executeVectorPipeline,
      executePageQueryPipeline, callFallback, callGenerateAnswer;
    apply emits_logAndRethrow;
    (apply emits_bind;
     [apply emits_performVectorSearch; intros; apply isPipelineCall_searchCallFor
     |intros [|r rs]]);
    first [ apply emits_shared | emits_steps ltac:(cbn; tauto) ].
Qed.

(** X8: every collaborator call a strategy pipeline makes is scoped to the
    request: searches carry its dataroom id, document allow-list, signal and
    metadata filter; reranking, compression, grading and generation carry its
    query, signal, complexity analysis, history, session and tracker; source
    building its documents.  The pipelines never call the metadata tracker
    themselves. *)
Theorem executeStrategyPipeline_calls_scoped {Response}
    (W : Collaborators Response) strategy context tr :
  ∃ new,
    snd (executeStrategyPipeline W strategy context tr) = tr ++ new ∧
    Forall (isPipelineCall context) new.
Proof. apply emits_strategy. Qed.

(** ** The shape of a processQuery run *)

Lemma trackerErrorCalls_split args error :
  trackerErrorCalls args error
  = trackerRecordCalls args (pipelineErrorEvent error) ++ trackerExitCalls args.
Proof.
  unfold trackerErrorCalls, trackerRecordCalls, trackerExitCalls.
  destruct (argMetadataTracker args); reflexivity.
Qed.



(** The tail of a run that went through the catch block after [body]. *)
Lemma handlePipelineError_shape {Response} (W : Collaborators Response)
    args error tr :
  ∃ fallbacks,
    snd (handlePipelineError W args error tr)
    = tr ++ trackerRecordCalls args (pipelineErrorEvent error)
         ++ trackerExitCalls args ++ fallbacks ∧
    Forall isFallbackCall fallbacks ∧ (length fallbacks ≤ 1)%nat.
Proof.
  rewrite handlePipelineError_run, trackerErrorCalls_split.
  destruct (isAbortError error _); [|destruct (isTimeoutError error)]; cbn [snd].
  - exists []. rewrite ?app_nil_r, <- ?app_assoc. repeat split; [constructor|cbn; lia].
  - eexists [_]. rewrite <- ?app_assoc. repeat split; [by repeat constructor|cbn; lia].
  - eexists [_]. rewrite <- ?app_assoc. repeat split; [by repeat constructor|cbn; lia].
Qed.

Lemma processQueryAttempt_valid {Response} (W : Collaborators Response) args :
  (0 ≤ default 50000 (argTimeoutMs args) ≤ 4294967295)%Z →
  pageValidationFailure args = None →
  processQueryAttempt W args =
  (do result <- executeStrategyPipeline W
                  (default StandardVectorSearch (argStrategy args))
                  (processQueryContext args);
   do _ <- track (argMetadataTracker args) EndTotal;
   ret result).
Proof.
  intros Hdelay H. unfold processQueryAttempt.
  rewrite (abortSignalTimeout_valid _ Hdelay), H. reflexivity.
Qed.




Lemma trackerEntryCalls_tracker args :
  Forall (λ c, isTrackerCall c = true) (trackerEntryCalls args).
Proof.
  unfold trackerEntryCalls. destruct (argMetadataTracker args); repeat constructor.
Qed.

Lemma trackerExitCalls_tracker args :
  Forall (λ c, isTrackerCall c = true) (trackerExitCalls args).
Proof.
  unfold trackerExitCalls. destruct (argMetadataTracker args); repeat constructor.
Qed.








(** ** Disposal *)

(** X11: disposing is idempotent, and a disposed orchestrator rejects every
    request with the disposed error before doing anything: no collaborator
    and no tracker call is made. *)
Theorem processQuery_after_dispose {Response} (W : Collaborators Response)
    this args tr :
  dispose (dispose this) = dispose this ∧
  isDisposed (dispose this) = true ∧
  processQuery W (dispose this) args tr = (Threw serviceDisposedError, tr).
Proof.
  assert (isDisposed (dispose this) = true) as Hd.
  { unfold dispose. destruct (isDisposed this) eqn:E; [exact E|reflexivity]. }
  split; [|split; [exact Hd|by apply processQuery_disposed]].
  unfold dispose at 1. by rewrite Hd.
Qed.

(** ** What the fast and page-query pipelines never do *)

Lemma refinementCalls_none calls :
  Forall (λ c, isRefinementCall c = false) calls → refinementCalls calls = [].
Proof.
  induction 1 as [|c calls Hc _ IH]; [reflexivity|].
  unfold refinementCalls in *. cbn [List.filter]. by rewrite Hc.
Qed.

Lemma emits_unrefined {Response} (W : Collaborators Response) strategy context :
  strategy = FastVectorSearch ∨ strategy = PageQueryStrategy →
  emits (λ c, isRefinementCall c = false) (executeStrategyPipeline W strategy context).
Proof.
  intros [-> | ->];
    unfold executeStrategyPipeline, executeFastVectorPipeline, executeVectorPipeline,
      executePageQueryPipeline, executeSharedProcessingPipeline,
      callFallback, callGenerateAnswer;
    apply emits_logAndRethrow;
    (apply emits_bind; [apply emits_performVectorSearch; reflexivity|intros [|r rs]]);
    emits_steps ltac:(reflexivity).
Qed.

(** X12: whatever the collaborators answer, the fast and the page-query
    pipelines never call the rerank, compress or grade collaborators. *)
Theorem fast_and_page_query_skip_refinement {Response}
    (W : Collaborators Response) context tr :
  refinementCalls (snd (executeStrategyPipeline W FastVectorSearch context tr))
    = refinementCalls tr ∧
  refinementCalls (snd (executeStrategyPipeline W PageQueryStrategy context tr))
    = refinementCalls tr.
Proof.
  split.
  - destruct (emits_unrefined W FastVectorSearch context (or_introl eq_refl) tr)
      as (new & -> & Hnew).
    by rewrite refinementCalls_app, (refinementCalls_none new Hnew), app_nil_r.
  - destruct (emits_unrefined W PageQueryStrategy context (or_intror eq_refl) tr)
      as (new & -> & Hnew).
    by rewrite refinementCalls_app, (refinementCalls_none new Hnew), app_nil_r.
Qed.

(** ** Happy paths *)

Lemma strategy_run_found {Response} (W : Collaborators Response)
    strategy context tr (k : list SearchResult → Run Response) :
  logAndRethrow
    (do searchResults <-
        performVectorSearch W (searchQueriesFor strategy context) context strategy;
     k searchResults) tr
  = k (retrievedResults W strategy context tr) (tr ++ searchCallsFor W strategy context).
Proof.
  rewrite logAndRethrow_run. unfold bind. rewrite performVectorSearch_run. reflexivity.
Qed.

(** X13: fast strategy, at least one chunk retrieved, source building and
    generation succeeding: after the searches the pipeline calls source
    building with one synthesised graded document per retrieved chunk and
    then answer generation with the chunk contents joined by blank lines,
    and returns that answer. *)
Theorem fast_pipeline_run {Response} (W : Collaborators Response)
    context tr first others sources answer :
  retrievedResults W FastVectorSearch context tr = first :: others →
  buildSources W (tr ++ searchCallsFor W FastVectorSearch context)
    (BuildSourcesCall
       (List.map GradedPayload (List.map fastPathGraded (first :: others)))
       (first :: others) (indexedDocuments context)) = Returned sources →
  generateAnswer W
    (tr ++ searchCallsFor W FastVectorSearch context
        ++ [BuildSourcesCall
              (List.map GradedPayload (List.map fastPathGraded (first :: others)))
              (first :: others) (indexedDocuments context)])
    (generateAnswerCallOf (joinContents (first :: others)) context sources)
    = Returned answer →
  executeStrategyPipeline W FastVectorSearch context tr =
  (Returned answer,
   tr ++ searchCallsFor W FastVectorSearch context
      ++ [BuildSourcesCall
            (List.map GradedPayload (List.map fastPathGraded (first :: others)))
            (first :: others) (indexedDocuments context);
          generateAnswerCallOf (joinContents (first :: others)) context sources]) ∧
  Forall (λ p, payloadIsRelevant p = Some true)
    (List.map GradedPayload (List.map fastPathGraded (first :: others))).
Proof.
  intros Hfound Hbuild Hanswer. split.
  - unfold executeStrategyPipeline, executeFastVectorPipeline, executeVectorPipeline.
    change (buildQueriesForStrategy context FastVectorSearch)
      with (searchQueriesFor FastVectorSearch context).
    rewrite (strategy_run_found W FastVectorSearch context tr
               (λ rs, match rs with
                      | [] => callFallback W (query context)
                      | _ => executeSharedProcessingPipeline W context rs
                               FastVectorSearch
                      end)).
    rewrite Hfound. unfold executeSharedProcessingPipeline.
    rewrite logAndRethrow_run. unfold bind, invoke at 1. rewrite Hbuild.
    unfold callGenerateAnswer, invoke.
    fold (generateAnswerCallOf (joinContents (first :: others)) context sources).
    rewrite <- !app_assoc in *. rewrite Hanswer. reflexivity.
  - apply Forall_forall. intros p Hp.
    apply list_elem_of_fmap in Hp as (g & -> & Hg).
    apply list_elem_of_fmap in Hg as (r & -> & _). reflexivity.
Qed.

Lemma fast_pipeline_run_witness :
  executeStrategyPipeline
    (scriptedCollaborators [chunkAlpha; chunkBeta] compressedBlob noneRelevant
       (Returned "answer"))
    FastVectorSearch (demoContext []) []
  = (Returned "answer",
     [SearchCall demoQuery "dr1" ["d1"] (Some (TimeoutSignal 50000)) 5 (7 # 10) None;
      BuildSourcesCall
        [GradedPayload (fastPathGraded chunkAlpha);
         GradedPayload (fastPathGraded chunkBeta)]
        [chunkAlpha; chunkBeta] [tenPageContract];
      generateAnswerCallOf (joinContents [chunkAlpha; chunkBeta]) (demoContext [])
        ["source"]]).
Proof.
  exact (proj1 (fast_pipeline_run
                  (scriptedCollaborators [chunkAlpha; chunkBeta] compressedBlob
                     noneRelevant (Returned "answer"))
                  (demoContext []) [] chunkAlpha [chunkBeta] ["source"] "answer"
                  eq_refl eq_refl eq_refl)).
Defined.

(** X14: page-query strategy, at least one chunk retrieved, source building and
    generation succeeding: one search for the raw query, source building on
    graded documents synthesised as direct page matches, then generation on
    the joined chunk contents, restricted to the requested page numbers (the
    empty list when the request has no query extraction). *)
Theorem page_query_pipeline_run {Response} (W : Collaborators Response)
    context tr first others sources answer :
  retrievedResults W PageQueryStrategy context tr = first :: others →
  buildSources W
    (tr ++ [searchCallFor W context PageQueryStrategy (query context)])
    (BuildSourcesCall
       (List.map (λ r, GradedPayload (pageMatchGraded r)) (first :: others))
       (first :: others) (indexedDocuments context)) = Returned sources →
  generateAnswer W
    (tr ++ [searchCallFor W context PageQueryStrategy (query context);
            BuildSourcesCall
              (List.map (λ r, GradedPayload (pageMatchGraded r)) (first :: others))
              (first :: others) (indexedDocuments context)])
    (GenerateAnswerCall (joinContents (first :: others)) (messages context)
       (query context) sources (signal context) (chatSessionId context)
       (metadataTracker context) (Some (default [] (contextPageNumbers context))))
    = Returned answer →
  executeStrategyPipeline W PageQueryStrategy context tr =
  (Returned answer,
   tr ++ [searchCallFor W context PageQueryStrategy (query context);
          BuildSourcesCall
            (List.map (λ r, GradedPayload (pageMatchGraded r)) (first :: others))
            (first :: others) (indexedDocuments context);
          GenerateAnswerCall (joinContents (first :: others)) (messages context)
            (query context) sources (signal context) (chatSessionId context)
            (metadataTracker context)
            (Some (default [] (contextPageNumbers context)))]).
Proof.
  intros Hfound Hbuild Hanswer.
  unfold executeStrategyPipeline, executePageQueryPipeline.
  change [query context] with (searchQueriesFor PageQueryStrategy context).
  rewrite (strategy_run_found W PageQueryStrategy context tr
             (λ rs, match rs with
                    | [] => callFallback W noPageContentMessage
                    | _ =>
                        do sources0 <- invoke (buildSources W)
                          (BuildSourcesCall
                             (List.map (fun r => GradedPayload (pageMatchGraded r)) rs)
                             rs (indexedDocuments context));
                        callGenerateAnswer W (joinContents rs) context sources0
                          (Some (default [] (contextPageNumbers context)))
                    end)).
  rewrite Hfound. unfold searchCallsFor, searchQueriesFor.
  change (List.map (searchCallFor W context PageQueryStrategy) [query context])
    with [searchCallFor W context PageQueryStrategy (query context)].
  unfold bind, invoke at 1. rewrite Hbuild.
  unfold callGenerateAnswer, invoke.
  rewrite <- !app_assoc in *. cbn [app] in *. rewrite Hanswer. reflexivity.
Qed.

Lemma page_query_pipeline_run_witness :
  executeStrategyPipeline
    (scriptedCollaborators [chunkAlpha] compressedBlob noneRelevant (Returned "answer"))
    PageQueryStrategy (demoContext [3]) []
  = (Returned "answer",
     [SearchCall demoQuery "dr1" ["d1"] (Some (TimeoutSignal 50000)) 5 (5 # 10)
        (Some {| filterDocumentIds := Some ["d1"];
                 filterPageRanges := Some ["3"];
                 filterDataroomId := Some "dr1" |});
      BuildSourcesCall [GradedPayload (pageMatchGraded chunkAlpha)] [chunkAlpha]
        [tenPageContract];
      GenerateAnswerCall "alpha" [] demoQuery ["source"] (Some (TimeoutSignal 50000))
        None None (Some [3%Z])]).
Proof.
  exact (page_query_pipeline_run
           (scriptedCollaborators [chunkAlpha] compressedBlob noneRelevant
              (Returned "answer"))
           (demoContext [3]) [] chunkAlpha [] ["source"] "answer"
           eq_refl eq_refl eq_refl).
Defined.

(** ** The refinement stages, continued *)

Lemma shared_refined_run {Response} (W : Collaborators Response)
    context searchResults strategy tr tr1 rerankedResults compressedContext sources :
  strategy ≠ FastVectorSearch →
  rerankAndCompress W context searchResults tr
    = (Returned (rerankedResults, compressedContext), tr1) →
  buildSources W (tr1 ++ [gradeCallOf context rerankedResults])
    (BuildSourcesCall (relevantAfterGrading W context rerankedResults tr1)
       rerankedResults (indexedDocuments context)) = Returned sources →
  executeSharedProcessingPipeline W context searchResults strategy tr =
  match generateAnswer W
          (tr1 ++ [gradeCallOf context rerankedResults;
                   BuildSourcesCall
                     (relevantAfterGrading W context rerankedResults tr1)
                     rerankedResults (indexedDocuments context)])
          (generateAnswerCallOf (compressedContent compressedContext) context sources)
  with
  | Returned r =>
      (Returned r,
       tr1 ++ [gradeCallOf context rerankedResults;
               BuildSourcesCall
                 (relevantAfterGrading W context rerankedResults tr1)
                 rerankedResults (indexedDocuments context);
               generateAnswerCallOf (compressedContent compressedContext) context
                 sources])
  | Threw _ =>
      (createFallbackResponse W
         (tr1 ++ [gradeCallOf context rerankedResults;
                  BuildSourcesCall
                    (relevantAfterGrading W context rerankedResults tr1)
                    rerankedResults (indexedDocuments context);
                  generateAnswerCallOf (compressedContent compressedContext) context
                    sources])
         (FallbackCall (query context)),
       tr1 ++ [gradeCallOf context rerankedResults;
               BuildSourcesCall
                 (relevantAfterGrading W context rerankedResults tr1)
                 rerankedResults (indexedDocuments context);
               generateAnswerCallOf (compressedContent compressedContext) context
                 sources;
               FallbackCall (query context)])
  end.
Proof.
  intros Hslow Hphase Hbuild.
  unfold executeSharedProcessingPipeline. rewrite logAndRethrow_run.
  assert (∀ body : Run Response,
            match strategy with
            | FastVectorSearch =>
                do sources0 <- invoke (buildSources W)
                  (BuildSourcesCall
                     (List.map GradedPayload (List.map fastPathGraded searchResults))
                     searchResults (indexedDocuments context));
                callGenerateAnswer W (joinContents searchResults) context sources0
                  (contextPageNumbers context)
            | _ => body
            end = body) as Hbranch.
  { intros body. destruct strategy; congruence. }
  rewrite Hbranch. clear Hbranch.
  unfold bind at 1. rewrite Hphase.
  unfold bind at 1. rewrite gradeRerankedResults_run.
  unfold bind at 1. unfold invoke at 1. rewrite Hbuild.
  unfold tryCatch, callGenerateAnswer, callFallback, invoke.
  fold (generateAnswerCallOf (compressedContent compressedContext) context sources).
  rewrite <- !app_assoc. cbn [app].
  destruct (generateAnswer W _ _); rewrite <- ?app_assoc; reflexivity.
Qed.

(** X15: standard or expanded strategy with every stage succeeding: the stages
    run in the order rerank, compress, grade, build sources, generate; grading
    is done on the reranked list, source building receives the documents the
    grader kept, and generation receives the compressed context. *)
Theorem refined_pipeline_run {Response} (W : Collaborators Response)
    context searchResults strategy tr rerankedResults compressedContext grading
    sources answer :
  strategy ≠ FastVectorSearch →
  rerankResults W tr (rerankCallOf context searchResults) = Returned rerankedResults →
  compressContext W (tr ++ [rerankCallOf context searchResults])
    (compressCallOf context searchResults) = Returned compressedContext →
  gradeAndFilterDocuments W
    (tr ++ [rerankCallOf context searchResults; compressCallOf context searchResults])
    (gradeCallOf context rerankedResults) = Returned grading →
  buildSources W
    (tr ++ [rerankCallOf context searchResults; compressCallOf context searchResults;
            gradeCallOf context rerankedResults])
    (BuildSourcesCall (List.map GradedPayload (relevantDocuments grading))
       rerankedResults (indexedDocuments context)) = Returned sources →
  generateAnswer W
    (tr ++ refinementCallsOf context searchResults rerankedResults grading)
    (generateAnswerCallOf (compressedContent compressedContext) context sources)
    = Returned answer →
  executeSharedProcessingPipeline W context searchResults strategy tr =
  (Returned answer,
   tr ++ refinementCallsOf context searchResults rerankedResults grading
      ++ [generateAnswerCallOf (compressedContent compressedContext) context sources]).
Proof.
  intros Hslow Hrerank Hcompress Hgrade Hbuild Hanswer.
  pose proof (rerankAndCompress_both_succeed W context searchResults tr
                rerankedResults compressedContext Hrerank Hcompress) as Hphase.
  assert (relevantAfterGrading W context rerankedResults
            (tr ++ [rerankCallOf context searchResults;
                    compressCallOf context searchResults])
          = List.map GradedPayload (relevantDocuments grading)) as Hrelevant.
  { unfold relevantAfterGrading. by rewrite Hgrade. }
  rewrite (shared_refined_run W context searchResults strategy tr _
             rerankedResults compressedContext sources Hslow Hphase).
  - rewrite Hrelevant. unfold refinementCallsOf in *.
    rewrite <- !app_assoc. cbn [app]. rewrite Hanswer. reflexivity.
  - rewrite Hrelevant. rewrite <- !app_assoc. exact Hbuild.
Qed.

Lemma refined_pipeline_run_witness :
  executeSharedProcessingPipeline
    (scriptedCollaborators [chunkAlpha; chunkBeta] compressedBlob
       (Returned betaRelevant) (Returned "answer"))
    (demoContext []) [chunkAlpha; chunkBeta] StandardVectorSearch []
  = (Returned "answer",
     [rerankCallOf (demoContext []) [chunkAlpha; chunkBeta];
      compressCallOf (demoContext []) [chunkAlpha; chunkBeta];
      gradeCallOf (demoContext []) [chunkBeta; chunkAlpha];
      BuildSourcesCall (List.map GradedPayload (relevantDocuments betaRelevant))
        [chunkBeta; chunkAlpha] [tenPageContract];
      generateAnswerCallOf "compressed" (demoContext []) ["source"]]).
Proof.
  exact (refined_pipeline_run
           (scriptedCollaborators [chunkAlpha; chunkBeta] compressedBlob
              (Returned betaRelevant) (Returned "answer"))
           (demoContext []) [chunkAlpha; chunkBeta] StandardVectorSearch []
           [chunkBeta; chunkAlpha] {| compressedContent := "compressed" |}
           betaRelevant ["source"] "answer"
           ltac:(discriminate) eq_refl eq_refl eq_refl eq_refl eq_refl).
Defined.

(** X16: standard or expanded strategy: an error thrown by answer generation
    never leaves the shared pipeline, whatever the error (an AbortError
    included) and whatever happened in the stages before.  Every run either
    reaches answer generation, and then returns its answer or, when
    generation throws, asks the fallback collaborator for an answer keyed on
    the raw query, that call's outcome being the pipeline's; or it throws
    before generation is called, having called neither generation nor the
    fallback collaborator. *)
Theorem refined_pipeline_masks_generation_error {Response}
    (W : Collaborators Response) context searchResults strategy tr :
  strategy ≠ FastVectorSearch →
  (∃ before c,
     isGenerationCall c ∧ Forall beforeGeneration before ∧
     executeSharedProcessingPipeline W context searchResults strategy tr =
     match generateAnswer W (tr ++ before) c with
     | Returned answer => (Returned answer, tr ++ before ++ [c])
     | Threw _ =>
         (createFallbackResponse W (tr ++ before ++ [c])
            (FallbackCall (query context)),
          tr ++ before ++ [c; FallbackCall (query context)])
     end)
  ∨ (∃ e stopped,
       Forall beforeGeneration stopped ∧
       executeSharedProcessingPipeline W context searchResults strategy tr
       = (Threw e, tr ++ stopped)).
Proof.
  intros Hslow.
  destruct (emits_rerankAndCompress W beforeGeneration context searchResults
              ltac:(unfold beforeGeneration; cbn; tauto)
              ltac:(unfold beforeGeneration; cbn; tauto) tr)
    as (new & Hnew & Hcalls).
  destruct (rerankAndCompress W context searchResults tr)
    as [[[rerankedResults compressedContext]|e] tr1] eqn:Hphase;
    cbn [snd] in Hnew; subst tr1.
  - assert (Forall beforeGeneration
              (new ++ [gradeCallOf context rerankedResults;
                       BuildSourcesCall
                         (relevantAfterGrading W context rerankedResults (tr ++ new))
                         rerankedResults (indexedDocuments context)])) as Hbefore.
    { apply Forall_app_2; [exact Hcalls|].
      constructor; [unfold beforeGeneration; cbn; tauto|].
      constructor; [unfold beforeGeneration; cbn; tauto|constructor]. }
    destruct (buildSources W ((tr ++ new) ++ [gradeCallOf context rerankedResults])
                (BuildSourcesCall
                   (relevantAfterGrading W context rerankedResults (tr ++ new))
                   rerankedResults (indexedDocuments context)))
      as [sources|e] eqn:Hbuild.
    + left. eexists. exists (generateAnswerCallOf (compressedContent compressedContext)
                               context sources).
      split; [exact I|]. split; [exact Hbefore|].
      rewrite (shared_refined_run W context searchResults strategy tr (tr ++ new)
                 rerankedResults compressedContext sources Hslow Hphase Hbuild).
      rewrite <- !app_assoc. cbn [app]. reflexivity.
    + right. exists e. eexists. split; [exact Hbefore|].
      unfold executeSharedProcessingPipeline. rewrite logAndRethrow_run.
      destruct strategy; try congruence;
        unfold bind at 1; rewrite Hphase;
        unfold bind at 1; rewrite gradeRerankedResults_run;
        unfold bind at 1; unfold invoke at 1; rewrite Hbuild;
        rewrite <- !app_assoc; reflexivity.
  - right. exists e, new. split; [exact Hcalls|].
    unfold executeSharedProcessingPipeline. rewrite logAndRethrow_run.
    destruct strategy; try congruence; unfold bind at 1; rewrite Hphase; reflexivity.
Qed.

Lemma refined_pipeline_masks_generation_error_witness :
  (∃ before c,
     isGenerationCall c ∧ Forall beforeGeneration before ∧
     executeSharedProcessingPipeline
       (scriptedCollaborators [chunkAlpha; chunkBeta] compressedBlob
          (Threw gradingFailed)
          (Threw (ErrorObject "AbortError" "This operation was aborted")))
       (demoContext []) [chunkAlpha; chunkBeta] StandardVectorSearch []
     = (Returned demoQuery, [] ++ before ++ [c; FallbackCall demoQuery]))
  ∨ (∃ e stopped,
       Forall beforeGeneration stopped ∧
       executeSharedProcessingPipeline
         (scriptedCollaborators [chunkAlpha; chunkBeta] compressedBlob
            (Threw gradingFailed)
            (Threw (ErrorObject "AbortError" "This operation was aborted")))
         (demoContext []) [chunkAlpha; chunkBeta] StandardVectorSearch []
       = (Threw e, [] ++ stopped)).
Proof.
  exact (refined_pipeline_masks_generation_error
           (scriptedCollaborators [chunkAlpha; chunkBeta] compressedBlob
              (Threw gradingFailed)
              (Threw (ErrorObject "AbortError" "This operation was aborted")))
           (demoContext []) [chunkAlpha; chunkBeta] StandardVectorSearch []
           ltac:(discriminate)).
Defined.

(** X17: standard or expanded strategy: when the reranker's first attempt
    fails and its later attempts succeed, what the compressor may have
    produced is discarded, even if compression succeeded: the list that is
    graded is the one of the reranker's second attempt, and the context
    handed to answer generation is the joined contents of the search
    results.  (Source building is taken to return.) *)
Theorem rerank_failure_discards_compression {Response} (W : Collaborators Response)
    context searchResults strategy tr error rerankedResults sources :
  strategy ≠ FastVectorSearch →
  rerankResults W tr (rerankCallOf context searchResults) = Threw error →
  (∀ later,
     rerankResults W (tr ++ rerankCallOf context searchResults :: later)
       (rerankCallOf context searchResults) = Returned rerankedResults) →
  (∀ tr' relevant,
     buildSources W tr'
       (BuildSourcesCall relevant rerankedResults (indexedDocuments context))
     = Returned sources) →
  ∃ new,
    snd (executeSharedProcessingPipeline W context searchResults strategy tr)
      = tr ++ new ∧
    gradeCallOf context rerankedResults ∈ new ∧
    generationContexts new = [joinContents searchResults].
Proof.
  intros Hslow Hfirst Hretry Hbuild.
  assert (rerankAndCompress W context searchResults tr =
          (Returned (rerankedResults,
                     {| compressedContent := joinContents searchResults |}),
           tr ++ [rerankCallOf context searchResults;
                  compressCallOf context searchResults;
                  rerankCallOf context searchResults])) as Hphase.
  { unfold rerankAndCompress, bind, settle, callRerank, callCompress, invoke, ret.
    fold (rerankCallOf context searchResults) (compressCallOf context searchResults).
    rewrite Hfirst. rewrite <- !app_assoc. cbn [app].
    rewrite (Hretry [compressCallOf context searchResults]).
    rewrite <- ?app_assoc. reflexivity. }
  rewrite (shared_refined_run W context searchResults strategy tr _
             rerankedResults _ sources Hslow Hphase (Hbuild _ _)).
  cbn [compressedContent].
  destruct (generateAnswer W _ _); cbn [snd]; rewrite <- !app_assoc; cbn [app];
    (eexists; split; [reflexivity|]; split;
     [do 3 right; left|reflexivity]).
Qed.

Lemma rerank_failure_discards_compression_witness :
  ∃ new,
    snd (executeSharedProcessingPipeline
           (rerankScript [chunkAlpha; chunkBeta] (Threw rerankFailed)
              (Returned [chunkBeta; chunkAlpha]))
           (demoContext []) [chunkAlpha; chunkBeta] StandardVectorSearch [])
      = [] ++ new ∧
    gradeCallOf (demoContext []) [chunkBeta; chunkAlpha] ∈ new ∧
    generationContexts new = [joinContents [chunkAlpha; chunkBeta]].
Proof.
  apply (rerank_failure_discards_compression
           (rerankScript [chunkAlpha; chunkBeta] (Threw rerankFailed)
              (Returned [chunkBeta; chunkAlpha]))
           (demoContext []) [chunkAlpha; chunkBeta] StandardVectorSearch []
           rerankFailed [chunkBeta; chunkAlpha] ["source"]).
  - discriminate.
  - reflexivity.
  - intros later. reflexivity.
  - intros tr' relevant. reflexivity.
Defined.

(** X18: reranking is the one refinement stage whose failure is not absorbed:
    standard or expanded strategy, when the concurrent step failed (the
    reranker's first attempt or the compressor threw) and the reranker's
    later attempts throw too, the shared pipeline throws the reranker's
    error; it calls neither the grader, nor source building, nor generation,
    nor the fallback collaborator. *)
Theorem rerank_failing_twice_aborts {Response} (W : Collaborators Response)
    context searchResults strategy tr first second :
  strategy ≠ FastVectorSearch →
  rerankResults W tr (rerankCallOf context searchResults) = Threw first ∨
  compressContext W (tr ++ [rerankCallOf context searchResults])
    (compressCallOf context searchResults) = Threw first →
  (∀ later,
     rerankResults W (tr ++ rerankCallOf context searchResults :: later)
       (rerankCallOf context searchResults) = Threw second) →
  fst (executeSharedProcessingPipeline W context searchResults strategy tr)
    = Threw second ∧
  ∃ new,
    snd (executeSharedProcessingPipeline W context searchResults strategy tr)
      = tr ++ new ∧
    Forall (λ c, c = rerankCallOf context searchResults
                 ∨ c = compressCallOf context searchResults) new.
Proof.
  intros Hslow Hfirst Hretry.
  assert (rerankAndCompress W context searchResults tr =
          (Threw second,
           tr ++ [rerankCallOf context searchResults;
                  compressCallOf context searchResults;
                  rerankCallOf context searchResults])) as Hphase.
  { unfold rerankAndCompress, bind, settle, callRerank, callCompress, invoke, ret.
    fold (rerankCallOf context searchResults) (compressCallOf context searchResults).
    rewrite <- !app_assoc. cbn [app].
    destruct Hfirst as [Hfirst|Hfirst]; rewrite Hfirst.
    - rewrite (Hretry [compressCallOf context searchResults]).
      rewrite <- ?app_assoc. reflexivity.
    - destruct (rerankResults W tr (rerankCallOf context searchResults));
        rewrite (Hretry [compressCallOf context searchResults]);
        rewrite <- ?app_assoc; reflexivity. }
  assert (executeSharedProcessingPipeline W context searchResults strategy tr =
          (Threw second,
           tr ++ [rerankCallOf context searchResults;
                  compressCallOf context searchResults;
                  rerankCallOf context searchResults])) as ->.
  { unfold executeSharedProcessingPipeline. rewrite logAndRethrow_run.
    destruct strategy; try congruence; unfold bind at 1; rewrite Hphase;
      reflexivity. }
  split; [reflexivity|]. eexists. split; [reflexivity|].
  constructor; [by left|]. constructor; [by right|].
  constructor; [by left|constructor].
Qed.

Lemma rerank_failing_twice_aborts_witness :
  fst (executeSharedProcessingPipeline
         (rerankScript [chunkAlpha] (Threw rerankFailed) (Threw rerankFailed))
         (demoContext []) [chunkAlpha] StandardVectorSearch [])
    = Threw rerankFailed ∧
  ∃ new,
    snd (executeSharedProcessingPipeline
           (rerankScript [chunkAlpha] (Threw rerankFailed) (Threw rerankFailed))
           (demoContext []) [chunkAlpha] StandardVectorSearch [])
      = [] ++ new ∧
    Forall (λ c, c = rerankCallOf (demoContext []) [chunkAlpha]
                 ∨ c = compressCallOf (demoContext []) [chunkAlpha]) new.
Proof.
  apply (rerank_failing_twice_aborts
           (rerankScript [chunkAlpha] (Threw rerankFailed) (Threw rerankFailed))
           (demoContext []) [chunkAlpha] StandardVectorSearch []
           rerankFailed rerankFailed).
  - discriminate.
  - left. reflexivity.
  - intros later. reflexivity.
Defined.

(** ** Retrieval failures *)

Lemma searchReplies_lookup {Response} (W : Collaborators Response)
    context strategy searchQueries tr i q :
  searchQueries !! i = Some q →
  searchReplies W context strategy searchQueries tr !! i =
  Some (variantResults
          (performVectorSearchInternal W
             (tr ++ List.map (searchCallFor W context strategy) (take i searchQueries))
             (searchCallFor W context strategy q))).
Proof.
  revert tr i. induction searchQueries as [|q0 rest IH]; intros tr i Hq.
  - destruct i; discriminate.
  - destruct i as [|i].
    + injection Hq as ->. cbn. by rewrite app_nil_r.
    + simpl in Hq |- *.
      rewrite (IH (tr ++ [searchCallFor W context strategy q0]) i Hq).
      by rewrite <- app_assoc.
Qed.

Lemma elem_of_removeDuplicateResults_chunkId (results : list SearchResult) r :
  r ∈ results → chunkId r ∈ List.map chunkId (removeDuplicateResults results).
Proof.
  intros Hr.
  pose proof (removeDuplicateResults_from_first ∅ results (chunkId r)
                (not_elem_of_empty _)) as Hfirst.
  fold (removeDuplicateResults results) in Hfirst.
  destruct (firstWithChunkId (chunkId r) results) as [x|] eqn:Hx.
  - apply find_some in Hfirst as [Hin Heq].
    apply bool_decide_eq_true in Heq. rewrite <- Heq.
    apply list_elem_of_fmap. exists x. split; [reflexivity|by apply list_elem_of_In].
  - assert (In r results) as Hin by (by apply list_elem_of_In).
    pose proof (find_none _ _ Hx r Hin) as Hf. cbn beta in Hf.
    by rewrite bool_decide_eq_true_2 in Hf.
Qed.

(** X19: partial retrieval failure never aborts the batch: the fan-out never
    throws, and whatever the other variants do (fail, time out, return
    duplicates), every chunk returned by a variant that succeeded is
    represented, by its chunk id, in the merged result. *)
Theorem performVectorSearch_isolates_failures {Response}
    (W : Collaborators Response) searchQueries context strategy tr i q found r :
  searchQueries !! i = Some q →
  performVectorSearchInternal W
    (tr ++ List.map (searchCallFor W context strategy) (take i searchQueries))
    (searchCallFor W context strategy q) = Returned found →
  r ∈ found →
  ∃ merged,
    fst (performVectorSearch W searchQueries context strategy tr) = Returned merged ∧
    chunkId r ∈ List.map chunkId merged.
Proof.
  intros Hq Hreply Hr. rewrite performVectorSearch_run. eexists.
  split; [reflexivity|]. unfold combineQueryResults.
  apply elem_of_removeDuplicateResults_chunkId.
  apply list_elem_of_In, in_concat.
  exists found. split; [|by apply list_elem_of_In].
  apply list_elem_of_In, list_elem_of_lookup. exists i.
  rewrite (searchReplies_lookup W context strategy searchQueries tr i q Hq).
  by rewrite Hreply.
Qed.

Lemma performVectorSearch_isolates_failures_witness :
  ∃ merged,
    fst (performVectorSearch selectiveSearch ["first"; "second"] (demoContext [])
           StandardVectorSearch []) = Returned merged ∧
    chunkId chunkAlpha ∈ List.map chunkId merged.
Proof.
  apply (performVectorSearch_isolates_failures selectiveSearch ["first"; "second"]
           (demoContext []) StandardVectorSearch [] 1 "second" [chunkAlpha] chunkAlpha).
  - reflexivity.
  - reflexivity.
  - left.
Defined.

Lemma searchReplies_all_failing {Response} (W : Collaborators Response)
    context strategy searchQueries tr :
  (∀ tr' c, ∃ e, performVectorSearchInternal W tr' c = Threw e) →
  concat (searchReplies W context strategy searchQueries tr) = [].
Proof.
  intros Hfail. revert tr. induction searchQueries as [|q rest IH]; intros tr.
  - reflexivity.
  - cbn [searchReplies concat].
    destruct (Hfail tr (searchCallFor W context strategy q)) as [e ->].
    cbn [variantResults app]. apply IH.
Qed.

(** X20: search errors never leave a pipeline: when every search call fails or
    times out, each strategy ends in its zero-result fallback (the raw query,
    or the fixed message of the page-query strategy) after having tried every
    variant. *)
Theorem all_searches_failing_fallback {Response} (W : Collaborators Response)
    strategy context tr :
  (∀ tr' c, ∃ e, performVectorSearchInternal W tr' c = Threw e) →
  executeStrategyPipeline W strategy context tr =
  (createFallbackResponse W (tr ++ searchCallsFor W strategy context)
     (FallbackCall (zeroResultMessage strategy context)),
   tr ++ searchCallsFor W strategy context
      ++ [FallbackCall (zeroResultMessage strategy context)]).
Proof.
  intros Hfail.
  assert (∀ queries,
            combineQueryResults (searchReplies W context strategy queries tr) = [])
    as Hnone.
  { intros queries. apply combineQueryResults_nil.
    by apply searchReplies_all_failing. }
  destruct strategy; cbn [executeStrategyPipeline];
    first [ apply executeVectorPipeline_no_results; apply Hnone
          | apply executePageQueryPipeline_no_results; apply Hnone ].
Qed.

Lemma all_searches_failing_fallback_witness :
  executeStrategyPipeline failingSearch StandardVectorSearch (demoContext []) []
  = (Returned demoQuery,
     [SearchCall demoQuery "dr1" ["d1"] (Some (TimeoutSignal 50000)) 10 (7 # 10) None;
      FallbackCall demoQuery]).
Proof.
  apply (all_searches_failing_fallback failingSearch StandardVectorSearch
           (demoContext []) []).
  intros tr c. eexists. reflexivity.
Defined.

(** ** Valid page requests *)

Lemma pageValidationFailure_valid args qe :
  argQueryExtraction args = Some qe →
  isValid (validatePagesAgainstDocuments (pageNumbers qe) (argIndexedDocuments args))
    = true →
  pageValidationFailure args = None.
Proof.
  intros Hqe Hvalid. unfold pageValidationFailure. rewrite Hqe, Hvalid.
  by destruct (pageNumbers qe).
Qed.

Lemma processQuery_searchCalls_valid {Response} (W : Collaborators Response)
    this args tr :
  isDisposed this = false →
  (0 ≤ default 50000 (argTimeoutMs args) ≤ 4294967295)%Z →
  pageValidationFailure args = None →
  searchCalls (snd (processQuery W this args tr))
  = searchCalls tr
      ++ searchCallsFor W (default StandardVectorSearch (argStrategy args))
           (processQueryContext args).
Proof.
  intros Hactive Hdelay Hvalid. rewrite processQuery_run by exact Hactive.
  unfold tryCatch. rewrite (processQueryAttempt_valid W args Hdelay Hvalid).
  unfold bind.
  pose proof (executeStrategyPipeline_searchCalls W
                (default StandardVectorSearch (argStrategy args))
                (processQueryContext args) (tr ++ trackerEntryCalls args)) as Hcalls.
  rewrite searchCalls_app, searchCalls_trackerEntryCalls, app_nil_r in Hcalls.
  destruct (executeStrategyPipeline W _ (processQueryContext args) _) as [[r|e] tr'];
    cbn [snd] in Hcalls.
  - rewrite track_run. cbn [ret snd].
    by rewrite searchCalls_app, searchCalls_tracker, app_nil_r.
  - by rewrite handlePipelineError_searchCalls.
Qed.

Lemma searchFilters_searchCallFor {Response} (W : Collaborators Response)
    context strategy searchQueries :
  searchFilters (List.map (searchCallFor W context strategy) searchQueries)
  = List.map (λ _, metadataFilterArgument context) searchQueries.
Proof.
  unfold searchFilters. induction searchQueries as [|q rest IH]; [reflexivity|].
  cbn. f_equal. exact IH.
Qed.

(** X21: a request on a live orchestrator, with a timeoutMs that is a valid
    timer delay (an integer from 0 to 4294967295), whose explicit page
    numbers pass validation goes on to retrieval, and each of its search
    calls is restricted by a metadata filter naming the dataroom, every
    allow-listed document and exactly the requested pages, each printed as
    [Number.prototype.toString] prints it. *)
Theorem valid_page_request_filters_search {Response} (W : Collaborators Response)
    this args tr qe p ps :
  isDisposed this = false →
  (0 ≤ default 50000 (argTimeoutMs args) ≤ 4294967295)%Z →
  argQueryExtraction args = Some qe →
  pageNumbers qe = p :: ps →
  isValid (validatePagesAgainstDocuments (pageNumbers qe) (argIndexedDocuments args))
    = true →
  searchCalls (snd (processQuery W this args tr))
  = searchCalls tr
      ++ searchCallsFor W (default StandardVectorSearch (argStrategy args))
           (processQueryContext args) ∧
  searchFilters
    (searchCallsFor W (default StandardVectorSearch (argStrategy args))
       (processQueryContext args))
  = List.map
      (λ _, Some {| filterDocumentIds :=
                      Some (List.map docDocumentId (argIndexedDocuments args));
                    filterPageRanges := Some (List.map numberToString (p :: ps));
                    filterDataroomId := Some (argDataroomId args) |})
      (searchQueriesFor (default StandardVectorSearch (argStrategy args))
         (processQueryContext args)).
Proof.
  intros Hactive Hdelay Hqe Hpages Hvalid. split.
  - apply processQuery_searchCalls_valid; [exact Hactive|exact Hdelay|].
    by apply (pageValidationFailure_valid args qe).
  - unfold searchCallsFor. rewrite searchFilters_searchCallFor.
    rewrite metadataFilterArgument_cases.
    unfold contextPageNumbers, processQueryContext. cbn. rewrite Hqe, Hpages.
    destruct (argIndexedDocuments args) as [|doc docs] eqn:Hdocs; [|reflexivity].
    rewrite Hpages in Hvalid. discriminate Hvalid.
Qed.

Lemma valid_page_request_filters_search_witness :
  searchCalls
    (snd (processQuery
            (scriptedCollaborators [chunkAlpha] compressedBlob noneRelevant
               (Returned "answer"))
            activeService (demoArgs [tenPageContract] PageQueryStrategy [3; 7] None) []))
  = [SearchCall demoQuery "dr1" ["d1"] (Some (TimeoutSignal 50000)) 5 (5 # 10)
       (Some {| filterDocumentIds := Some ["d1"];
                filterPageRanges := Some ["3"; "7"];
                filterDataroomId := Some "dr1" |})].
Proof.
  rewrite (proj1 (valid_page_request_filters_search
                    (scriptedCollaborators [chunkAlpha] compressedBlob noneRelevant
                       (Returned "answer"))
                    activeService
                    (demoArgs [tenPageContract] PageQueryStrategy [3; 7] None) []
                    (mkQueryExtraction [3; 7] [] None) 3 [7]
                    eq_refl ltac:(cbn; lia) eq_refl eq_refl eq_refl)).
  reflexivity.
Defined.

(** ** Errors that leave processQuery *)

(** X22: with a fallback collaborator that answers, an error leaves
    [processQuery] only as the disposed error of a disposed orchestrator, or
    as an Error instance that the catch block took for an abort: its name is
    AbortError, or its message contains "aborted", or a caller signal was
    supplied and is aborted.  A thrown value that is not an Error instance
    never leaves it. *)
Theorem processQuery_escaping_errors_classified {Response}
    (W : Collaborators Response) this args tr e :
  fallbackAlwaysAnswers W →
  fst (processQuery W this args tr) = Threw e →
  (isDisposed this = true ∧ e = serviceDisposedError) ∨
  (isDisposed this = false ∧
   ∃ name message,
     e = ErrorObject name message ∧
     (name = "AbortError" ∨ includes message "aborted" = true ∨
      ∃ s tr', argAbortSignal args = Some s ∧ abortSignalAborted W tr' = true)).
Proof.
  intros Hfallback Hthrew.
  destruct (processQuery_escaping_errors W this args tr e Hfallback Hthrew)
    as [Hd|[Hd (tr' & Habort)]]; [by left|right].
  split; [exact Hd|].
  destruct e as [name message|text]; [|discriminate Habort].
  exists name, message. split; [reflexivity|].
  cbn in Habort. apply orb_true_iff in Habort as [Habort|Hcaller].
  - apply orb_true_iff in Habort as [Hname|Hmessage].
    + left. by apply String.eqb_eq.
    + right. by left.
  - right. right. unfold callerAbortedAfter in Hcaller.
    destruct (argAbortSignal args) as [s|]; [|discriminate]. eauto.
Qed.

Lemma processQuery_escaping_errors_classified_witness :
  (isDisposed activeService = true ∧
   ErrorObject "AbortError" "This operation was aborted" = serviceDisposedError) ∨
  (isDisposed activeService = false ∧
   ∃ name message,
     ErrorObject "AbortError" "This operation was aborted" = ErrorObject name message ∧
     (name = "AbortError" ∨ includes message "aborted" = true ∨
      ∃ s tr',
        argAbortSignal (demoArgs [tenPageContract] FastVectorSearch [] None) = Some s ∧
        abortSignalAborted
          (scriptedCollaborators [chunkAlpha] compressedBlob noneRelevant
             (Threw (ErrorObject "AbortError" "This operation was aborted")))
          tr' = true)).
Proof.
  apply (processQuery_escaping_errors_classified
           (scriptedCollaborators [chunkAlpha] compressedBlob noneRelevant
              (Threw (ErrorObject "AbortError" "This operation was aborted")))
           activeService (demoArgs [tenPageContract] FastVectorSearch [] None) []).
  - intros tr c. destruct c; eexists; reflexivity.
  - vm_compute. reflexivity.
Defined.

(** ** Failures after retrieval *)

(** X23: grading failure is absorbed: with reranking and compression done, a
    grader that throws does not stop the run; source building receives every
    reranked result and generation the compressed context. *)
Theorem grading_failure_run {Response} (W : Collaborators Response)
    context searchResults strategy tr rerankedResults compressedContext error
    sources answer :
  strategy ≠ FastVectorSearch →
  rerankResults W tr (rerankCallOf context searchResults) = Returned rerankedResults →
  compressContext W (tr ++ [rerankCallOf context searchResults])
    (compressCallOf context searchResults) = Returned compressedContext →
  gradeAndFilterDocuments W
    (tr ++ [rerankCallOf context searchResults; compressCallOf context searchResults])
    (gradeCallOf context rerankedResults) = Threw error →
  buildSources W
    (tr ++ [rerankCallOf context searchResults; compressCallOf context searchResults;
            gradeCallOf context rerankedResults])
    (BuildSourcesCall (List.map RawResultPayload rerankedResults)
       rerankedResults (indexedDocuments context)) = Returned sources →
  generateAnswer W
    (tr ++ [rerankCallOf context searchResults; compressCallOf context searchResults;
            gradeCallOf context rerankedResults;
            BuildSourcesCall (List.map RawResultPayload rerankedResults)
              rerankedResults (indexedDocuments context)])
    (generateAnswerCallOf (compressedContent compressedContext) context sources)
    = Returned answer →
  executeSharedProcessingPipeline W context searchResults strategy tr =
  (Returned answer,
   tr ++ [rerankCallOf context searchResults; compressCallOf context searchResults;
          gradeCallOf context rerankedResults;
          BuildSourcesCall (List.map RawResultPayload rerankedResults)
            rerankedResults (indexedDocuments context);
          generateAnswerCallOf (compressedContent compressedContext) context sources]).
Proof.
  intros Hslow Hrerank Hcompress Hgrade Hbuild Hanswer.
  pose proof (rerankAndCompress_both_succeed W context searchResults tr
                rerankedResults compressedContext Hrerank Hcompress) as Hphase.
  pose proof (relevantAfterGrading_failure W context rerankedResults _ error Hgrade)
    as Hrelevant.
  rewrite (shared_refined_run W context searchResults strategy tr _
             rerankedResults compressedContext sources Hslow Hphase).
  - rewrite Hrelevant. rewrite <- !app_assoc. cbn [app]. rewrite Hanswer. reflexivity.
  - rewrite Hrelevant. rewrite <- !app_assoc. exact Hbuild.
Qed.

Lemma grading_failure_run_witness :
  executeSharedProcessingPipeline
    (scriptedCollaborators [chunkAlpha; chunkBeta] compressedBlob
       (Threw gradingFailed) (Returned "answer"))
    (demoContext []) [chunkAlpha; chunkBeta] ExpandedSearch []
  = (Returned "answer",
     [rerankCallOf (demoContext []) [chunkAlpha; chunkBeta];
      compressCallOf (demoContext []) [chunkAlpha; chunkBeta];
      gradeCallOf (demoContext []) [chunkBeta; chunkAlpha];
      BuildSourcesCall [RawResultPayload chunkBeta; RawResultPayload chunkAlpha]
        [chunkBeta; chunkAlpha] [tenPageContract];
      generateAnswerCallOf "compressed" (demoContext []) ["source"]]).
Proof.
  exact (grading_failure_run
           (scriptedCollaborators [chunkAlpha; chunkBeta] compressedBlob
              (Threw gradingFailed) (Returned "answer"))
           (demoContext []) [chunkAlpha; chunkBeta] ExpandedSearch []
           [chunkBeta; chunkAlpha] {| compressedContent := "compressed" |}
           gradingFailed ["source"] "answer"
           ltac:(discriminate) eq_refl eq_refl eq_refl eq_refl eq_refl).
Defined.

(** X24: fast strategy: an error thrown by answer generation is not absorbed by
    the pipeline, which throws it unchanged and builds no fallback itself;
    what becomes of it is decided by the catch block of processQuery. *)
Theorem fast_pipeline_propagates_generation_error {Response}
    (W : Collaborators Response) context tr first others sources error :
  retrievedResults W FastVectorSearch context tr = first :: others →
  buildSources W (tr ++ searchCallsFor W FastVectorSearch context)
    (BuildSourcesCall
       (List.map GradedPayload (List.map fastPathGraded (first :: others)))
       (first :: others) (indexedDocuments context)) = Returned sources →
  generateAnswer W
    (tr ++ searchCallsFor W FastVectorSearch context
        ++ [BuildSourcesCall
              (List.map GradedPayload (List.map fastPathGraded (first :: others)))
              (first :: others) (indexedDocuments context)])
    (generateAnswerCallOf (joinContents (first :: others)) context sources)
    = Threw error →
  fst (executeStrategyPipeline W FastVectorSearch context tr) = Threw error ∧
  fallbackMessages (snd (executeStrategyPipeline W FastVectorSearch context tr))
    = fallbackMessages tr.
Proof.
  intros Hfound Hbuild Hanswer.
  assert (executeStrategyPipeline W FastVectorSearch context tr =
          (Threw error,
           tr ++ searchCallsFor W FastVectorSearch context
              ++ [BuildSourcesCall
                    (List.map GradedPayload
                       (List.map fastPathGraded (first :: others)))
                    (first :: others) (indexedDocuments context);
                  generateAnswerCallOf (joinContents (first :: others)) context
                    sources])) as Hrun.
  { unfold executeStrategyPipeline, executeFastVectorPipeline, executeVectorPipeline.
    change (buildQueriesForStrategy context FastVectorSearch)
      with (searchQueriesFor FastVectorSearch context).
    rewrite (strategy_run_found W FastVectorSearch context tr
               (λ rs, match rs with
                      | [] => callFallback W (query context)
                      | _ => executeSharedProcessingPipeline W context rs
                               FastVectorSearch
                      end)).
    rewrite Hfound. unfold executeSharedProcessingPipeline.
    rewrite logAndRethrow_run. unfold bind, invoke at 1. rewrite Hbuild.
    unfold callGenerateAnswer, invoke.
    fold (generateAnswerCallOf (joinContents (first :: others)) context sources).
    rewrite <- !app_assoc in *. rewrite Hanswer. reflexivity. }
  rewrite Hrun. split; [reflexivity|]. cbn [snd].
  unfold fallbackMessages, searchCallsFor. rewrite !omap_app.
  assert (omap (λ c, match c with FallbackCall m => Some m | _ => None end)
            (List.map (searchCallFor W context FastVectorSearch)
               (searchQueriesFor FastVectorSearch context)) = []) as ->.
  { induction (searchQueriesFor FastVectorSearch context); [reflexivity|exact IHl]. }
  cbn. by rewrite app_nil_r.
Qed.

Lemma fast_pipeline_propagates_generation_error_witness :
  fst (executeStrategyPipeline
         (scriptedCollaborators [chunkAlpha] compressedBlob noneRelevant
            (Threw (ErrorObject "AbortError" "This operation was aborted")))
         FastVectorSearch (demoContext []) [])
  = Threw (ErrorObject "AbortError" "This operation was aborted").
Proof.
  exact (proj1 (fast_pipeline_propagates_generation_error
                  (scriptedCollaborators [chunkAlpha] compressedBlob noneRelevant
                     (Threw (ErrorObject "AbortError" "This operation was aborted")))
                  (demoContext []) [] chunkAlpha [] ["source"]
                  (ErrorObject "AbortError" "This operation was aborted")
                  eq_refl eq_refl eq_refl)).
Defined.

(** ** Context text and citation lines *)

(** X25: the uncompressed context text (fast path, page-query path and the
    fallback after a failed rerank-and-compress step) contains the content
    of every chunk it is built from. *)
Theorem joinContents_mentions_every_chunk (results : list SearchResult) :
  Forall (λ r, includes (joinContents results) (content r) = true) results.
Proof.
  apply Forall_forall. intros r Hr. unfold joinContents.
  apply join_includes. apply list_elem_of_fmap. eauto.
Qed.

Lemma citationLine_mentions_name s :
  includes (citationLine s) (citedDocumentName s) = true.
Proof. unfold citationLine. apply includes_app_r, includes_here. Qed.

Lemma includes_trans a b c :
  includes a b = true → includes b c = true → includes a c = true.
Proof.
  revert b. induction a as [|x a IH]; intros b Hab Hbc.
  - rewrite includes_unfold, orb_false_r in Hab.
    destruct b; [exact Hbc|discriminate Hab].
  - rewrite includes_unfold in Hab. apply orb_true_iff in Hab as [Hab|Hab].
    + clear IH. revert x a Hab c Hbc.
      induction b as [|y b IHb]; intros x a Hab c Hbc.
      * rewrite includes_unfold, orb_false_r in Hbc.
        destruct c; [reflexivity|discriminate Hbc].
      * cbn in Hab. apply andb_true_iff in Hab as [Hxy Hab].
        apply Ascii.eqb_eq in Hxy. subst y.
        rewrite includes_unfold in Hbc. apply orb_true_iff in Hbc as [Hbc|Hbc].
        -- rewrite includes_unfold.
           assert (startsWith (String x a) c = true) as ->; [|reflexivity].
           clear IHb. revert x a b Hab Hbc.
           induction c as [|z c IHc]; intros x a b Hab Hbc; [reflexivity|].
           cbn in Hbc |- *. apply andb_true_iff in Hbc as [-> Hbc]. cbn.
           destruct c as [|z' c']; [reflexivity|].
           destruct b as [|y' b']; [discriminate Hbc|].
           destruct a as [|x' a']; [destruct b'; discriminate Hab|].
           cbn in Hab. apply andb_true_iff in Hab as [Hxy' Hab].
           apply Ascii.eqb_eq in Hxy'. subst y'.
           apply (IHc x' a' b' Hab Hbc).
        -- rewrite includes_unfold. apply orb_true_iff. right.
           destruct b as [|y' b'].
           ++ rewrite includes_unfold, orb_false_r in Hbc.
              destruct c; [by rewrite includes_unfold|discriminate Hbc].
           ++ destruct a as [|x' a']; [discriminate Hab|].
              apply (IHb x' a' Hab c Hbc).
    + rewrite includes_unfold. apply orb_true_iff. right. by apply (IH b).
Qed.

(** X26: the citation block of the RAG system prompt names every source: the
    document name of each source occurs in it. *)
Theorem citationLines_mention_every_document (sources : list CitedSource) :
  Forall (λ s, includes (citationLines sources) (citedDocumentName s) = true) sources.
Proof.
  apply Forall_forall. intros s Hs. unfold citationLines.
  apply (includes_trans _ (citationLine s)).
  - apply join_includes. apply list_elem_of_fmap. eauto.
  - apply citationLine_mentions_name.
Qed.

(** ** Rejected page requests and search budgets *)

Lemma validatePagesAgainstDocuments_rejected requestedPages indexedDocuments :
  isValid (validatePagesAgainstDocuments requestedPages indexedDocuments) = false →
  ∃ message,
    errorMessage (validatePagesAgainstDocuments requestedPages indexedDocuments)
      = Some message ∧ truthyString message = true.
Proof.
  unfold validatePagesAgainstDocuments.
  destruct requestedPages as [|p ps]; [discriminate|].
  destruct indexedDocuments as [|doc docs]; [intros _; eexists; by split|].
  destruct (maxPagesOf doc docs =? 0)%Z; [intros _; eexists; by split|].
  destruct (List.filter _ (p :: ps)); [discriminate|].
  intros _. eexists. split; [reflexivity|apply invalidPagesMessage_truthy].
Qed.

(** X27: a request whose explicit page numbers fail validation reaches no
    collaborator other than the fallback one: besides tracker calls, every
    call made by [processQuery] is a fallback call, so no search, rerank,
    compression, grading, source building or generation takes place. *)
Theorem rejected_page_request_only_falls_back {Response}
    (W : Collaborators Response) this args tr qe :
  isDisposed this = false →
  argQueryExtraction args = Some qe →
  pageNumbers qe ≠ [] →
  isValid (validatePagesAgainstDocuments (pageNumbers qe) (argIndexedDocuments args))
    = false →
  ∃ new,
    snd (processQuery W this args tr) = tr ++ new ∧
    Forall (λ c, isTrackerCall c = true ∨ isFallbackCall c) new.
Proof.
  intros Hactive Hqe Hpages Hinvalid.
  destruct (validatePagesAgainstDocuments_rejected _ _ Hinvalid)
    as (message & Hmessage & Htruthy).
  assert (pageValidationFailure args = Some message) as Hfail.
  { unfold pageValidationFailure. rewrite Hqe, Hinvalid, Hmessage, Htruthy.
    destruct (pageNumbers qe); [congruence|reflexivity]. }
  assert (∀ calls, Forall (λ c, isTrackerCall c = true) calls →
                   Forall (λ c, isTrackerCall c = true ∨ isFallbackCall c) calls)
    as Htrackers.
  { intros calls H. eapply Forall_impl; [exact H|]. cbn. tauto. }
  rewrite processQuery_run by exact Hactive. unfold tryCatch.
  destruct (decide (0 ≤ default 50000 (argTimeoutMs args) ≤ 4294967295)%Z)
    as [Hdelay|Hdelay].
  2: { rewrite (processQueryAttempt_invalid_delay W args _ Hdelay).
       destruct (handlePipelineError_shape W args
                   (ErrorObject "RangeError"
                      (delayOutOfRangeMessage (default 50000%Z (argTimeoutMs args))))
                   (tr ++ trackerEntryCalls args))
         as (fallbacks & -> & Hfb & _).
       eexists. rewrite <- !app_assoc. split; [reflexivity|].
       repeat apply Forall_app_2.
       - apply Htrackers, trackerEntryCalls_tracker.
       - apply Htrackers. unfold trackerRecordCalls.
         destruct (argMetadataTracker args); repeat constructor.
       - apply Htrackers, trackerExitCalls_tracker.
       - eapply Forall_impl; [exact Hfb|]. cbn. tauto. }
  rewrite (processQueryAttempt_invalid_pages W args message _ Hdelay Hfail).
  destruct (createFallbackResponse W _ (FallbackCall message)) as [r|e]; cbn [snd].
  - eexists. rewrite <- !app_assoc. split; [reflexivity|].
    repeat apply Forall_app_2.
    + apply Htrackers, trackerEntryCalls_tracker.
    + constructor; [by right|constructor].
    + apply Htrackers. unfold trackerInvalidPageCalls.
      destruct (argMetadataTracker args); repeat constructor.
  - destruct (handlePipelineError_shape W args e
                ((tr ++ trackerEntryCalls args) ++ [FallbackCall message]))
      as (fallbacks & -> & Hfb & _).
    eexists. rewrite <- !app_assoc. split; [reflexivity|].
    repeat apply Forall_app_2.
    + apply Htrackers, trackerEntryCalls_tracker.
    + constructor; [by right|constructor].
    + apply Htrackers. unfold trackerRecordCalls.
      destruct (argMetadataTracker args); repeat constructor.
    + apply Htrackers, trackerExitCalls_tracker.
    + eapply Forall_impl; [exact Hfb|]. cbn. tauto.
Qed.

Lemma rejected_page_request_only_falls_back_witness :
  ∃ new,
    snd (processQuery
           (scriptedCollaborators [chunkAlpha] compressedBlob noneRelevant
              (Returned "answer"))
           activeService (trackedArgs StandardVectorSearch [15]) []) = [] ++ new ∧
    Forall (λ c, isTrackerCall c = true ∨ isFallbackCall c) new.
Proof.
  apply (rejected_page_request_only_falls_back
           (scriptedCollaborators [chunkAlpha] compressedBlob noneRelevant
              (Returned "answer"))
           activeService (trackedArgs StandardVectorSearch [15]) []
           (mkQueryExtraction [15] [] None)).
  - reflexivity.
  - reflexivity.
  - discriminate.
  - reflexivity.
Defined.

(** X28: the number of search calls of one pipeline run is bounded by the
    strategy: at most 3 for the fast strategy, at most 15 for the standard
    one, and exactly one for the page-query strategy. *)
Theorem search_calls_per_run {Response} (W : Collaborators Response) context tr :
  (length (searchCalls (snd (executeStrategyPipeline W FastVectorSearch context tr)))
   ≤ length (searchCalls tr) + 3)%nat ∧
  (length (searchCalls (snd (executeStrategyPipeline W StandardVectorSearch context tr)))
   ≤ length (searchCalls tr) + 15)%nat ∧
  length (searchCalls (snd (executeStrategyPipeline W PageQueryStrategy context tr)))
  = (length (searchCalls tr) + 1)%nat.
Proof.
  rewrite !executeStrategyPipeline_searchCalls, !length_app.
  unfold searchCallsFor, searchQueriesFor. rewrite !length_map.
  destruct (buildQueriesForStrategy_bounds context) as (Hfast & Hstandard & _).
  cbn [length]. lia.
Qed.
